(** * c-sentinel: audit-log analysis core (src/audit.c)

    A shallow embedding of [audit.c] and the properties of its
    event parsers, baseline store, anomaly detector and risk scorer.

    Conventions of the embedding:
    - a C [int] is a [Z] kept in the 32-bit two's-complement range by
      [wrap_int] after every arithmetic operation;
    - a C [float] is an IEEE-754 binary32 value ([spec_float] with a
      24-bit significand), with the correctly rounded operations of
      [SpecFloat];
    - a C string is a [string]; a buffer of [n] bytes holds at most
      [n - 1] characters and reads stop at the first NUL;
    - the fixed-size arrays of the summary, paired in C with a count
      field, are lists whose length is that count;
    - the operating system (subprocess output, files, environment,
      clock) is an explicit [Env]; the mutable globals of [audit.c]
      and the clock position form the [World] threaded by the [IO]
      monad;
    - the one function that writes files, [save_audit_baseline],
      returns the list of the file-system calls it makes, against a
      [Disk] that answers for the outcome of each. *)

From Stdlib Require Import ZArith List String Ascii Bool Lia PeanoNat.
From Stdlib Require Import Floats.SpecFloat.
From Stdlib Require DecimalString DecimalPos.
Import ListNotations.

Local Open Scope string_scope.
Local Open Scope Z_scope.

(** ** C [int] arithmetic *)

Module CInt.

Definition INT_MIN : Z := - 2 ^ 31.
Definition INT_MAX : Z := 2 ^ 31 - 1.

(** Reduction of a mathematical integer to the 32-bit signed range. *)
Definition wrap_int (z : Z) : Z := (z + 2 ^ 31) mod 2 ^ 32 - 2 ^ 31.

Definition add (a b : Z) : Z := wrap_int (a + b).
Definition mul (a b : Z) : Z := wrap_int (a * b).
(** [x++] *)
Definition incr (a : Z) : Z := add a 1.

Definition in_range (z : Z) : bool := (INT_MIN <=? z) && (z <=? INT_MAX).

End CInt.

(** ** C [float]: IEEE-754 binary32 *)

Module F32.

Definition prec : Z := 24.
Definition emax : Z := 128.

Definition float := spec_float.

(** Conversion [(float) n] of an integer, round to nearest even. *)
Definition of_int (n : Z) : float := binary_normalize prec emax n 0 false.

Definition add : float -> float -> float := SFadd prec emax.
Definition sub : float -> float -> float := SFsub prec emax.
Definition mul : float -> float -> float := SFmul prec emax.
Definition div : float -> float -> float := SFdiv prec emax.

(** [x < y] and [x > y]; both are false when an operand is a NaN. *)
Definition lt (x y : float) : bool := SFltb x y.
Definition gt (x y : float) : bool := SFltb y x.

(** Conversion [(int) x]: truncation toward zero.  Outside the range
    of [int] (and for NaN and infinities) the C standard leaves the
    result undefined; the model returns [INT_MIN], the integer
    indefinite value produced by the x86-64 conversion instruction. *)
Definition to_int (x : float) : Z :=
  match x with
  | S754_zero _ => 0
  | S754_finite s m e =>
      let v := Z.shiftl (Zpos m) e in
      let t := if s then - v else v in
      if CInt.in_range t then t else CInt.INT_MIN
  | S754_infinity _ | S754_nan => CInt.INT_MIN
  end.

(** The literals of [audit.c]. *)
Definition zero : float := S754_zero false.          (* 0.0f *)
Definition c0_1 : float := S754_finite false 13421773 (-27). (* 0.1f *)
Definition c0_2 : float := S754_finite false 13421773 (-26). (* 0.2f *)
Definition c0_8 : float := S754_finite false 13421773 (-24). (* 0.8f *)
Definition c2 : float := of_int 2.
Definition c3 : float := of_int 3.
Definition c5 : float := of_int 5.
Definition c50 : float := of_int 50.
Definition c100 : float := of_int 100.
Definition c200 : float := of_int 200.
Definition c500 : float := of_int 500.

End F32.

(** ** C strings and the [libc] functions used by [audit.c] *)

Module CStr.

Definition NUL : ascii := Ascii.zero.
Definition LF : ascii := "010"%char.
Definition DQUOTE : ascii := "034"%char.

(** A one-character string holding the double quote. *)
Definition dq : string := String DQUOTE EmptyString.

(** The C string stored in a byte sequence: everything before the
    first NUL. *)
Fixpoint c_str (s : string) : string :=
  match s with
  | EmptyString => EmptyString
  | String c t => if Ascii.eqb c NUL then EmptyString else String c (c_str t)
  end.

Definition strlen (s : string) : nat := String.length s.

(** The first [n] characters of [s]: what [strncpy (dst, s, n)] into
    zeroed memory, or [snprintf] into a buffer of [n + 1] bytes,
    leaves in the destination. *)
Fixpoint strn (n : nat) (s : string) : string :=
  match n, s with
  | O, _ => EmptyString
  | _, EmptyString => EmptyString
  | S n', String c t => String c (strn n' t)
  end.

(** [strstr (hay, needle)]: the suffix of [hay] that starts at the
    first occurrence of [needle], or [None] (the NULL pointer). *)
Fixpoint strstr (hay needle : string) : option string :=
  if String.prefix needle hay then Some hay
  else match hay with
       | EmptyString => None
       | String _ t => strstr t needle
       end.

(** [strchr (s, c)] *)
Fixpoint strchr (s : string) (c : ascii) : option string :=
  match s with
  | EmptyString => None
  | String a t => if Ascii.eqb a c then Some s else strchr t c
  end.

(** [p + n] on a pointer into a string. *)
Fixpoint advance (n : nat) (s : string) : string :=
  match n, s with
  | O, _ => s
  | S n', String _ t => advance n' t
  | S _, EmptyString => EmptyString
  end.

(** The copy loop [while ( *p && *p != DQUOTE && i < n) buf[i++] = *p++;]
    that extracts a quoted field value: at most [n] characters, up
    to the closing double quote or the end of the string. *)
Fixpoint copy_until_quote (n : nat) (p : string) : string :=
  match n, p with
  | O, _ => EmptyString
  | _, EmptyString => EmptyString
  | S n', String c t =>
      if Ascii.eqb c DQUOTE then EmptyString
      else String c (copy_until_quote n' t)
  end.

Definition isspace (c : ascii) : bool :=
  let n := nat_of_ascii c in
  (Nat.eqb n 32) || ((Nat.leb 9 n) && (Nat.leb n 13)).

Definition digit_of (c : ascii) : option Z :=
  let n := nat_of_ascii c in
  if (Nat.leb 48 n) && (Nat.leb n 57) then Some (Z.of_nat (n - 48)) else None.

Fixpoint skip_spaces (s : string) : string :=
  match s with
  | String c t => if isspace c then skip_spaces t else s
  | EmptyString => s
  end.

Fixpoint read_digits (acc : Z) (s : string) : Z :=
  match s with
  | String c t =>
      match digit_of c with
      | Some d => read_digits (10 * acc + d) t
      | None => acc
      end
  | EmptyString => acc
  end.

Definition LONG_MIN : Z := - 2 ^ 63.
Definition LONG_MAX : Z := 2 ^ 63 - 1.

(** [strtol (s, NULL, 10)] on an LP64 host: saturating. *)
Definition strtol (s : string) : Z :=
  let s := skip_spaces s in
  let '(neg, s) :=
    match s with
    | String "-"%char t => (true, t)
    | String "+"%char t => (false, t)
    | _ => (false, s)
    end in
  let v := read_digits 0 s in
  let v := if neg then - v else v in
  Z.max LONG_MIN (Z.min LONG_MAX v).

(** [atoi (s)] is [(int) strtol (s, NULL, 10)]. *)
Definition atoi (s : string) : Z := CInt.wrap_int (strtol s).

(** The successive results of [fgets (buf, cap + 1, fp)] until end of
    file: each chunk ends after a newline or after [cap] characters.
    [room] is the space left in the chunk being filled. *)
Fixpoint fgets_from (cap room : nat) (s : string) : list string :=
  match s with
  | EmptyString => []
  | String c t =>
      if Ascii.eqb c LF || Nat.leb room 1
      then String c EmptyString :: fgets_from cap cap t
      else match fgets_from cap (room - 1) t with
           | [] => [String c EmptyString]
           | l :: ls => String c l :: ls
           end
  end.

(** The lines a [while (fgets (line, size, fp))] loop sees, as C
    strings. *)
Definition fgets_all (size : nat) (out : string) : list string :=
  map c_str (fgets_from (size - 1) (size - 1) out).

(** The first line, for [if (fgets (line, size, fp))]. *)
Definition fgets_first (size : nat) (out : string) : option string :=
  hd_error (fgets_all size out).

End CStr.

Import CStr.

(** ** Data model: the declarations of [include/audit.h]

    The header is not part of the sources at hand.  The records below
    have the fields that [audit.c] reads and writes, with the types
    their uses show ([%d] and [++] for [int], [(float)] casts and
    float comparisons, [strcpy]/[strncpy] for character arrays), in
    the order of the specification's data model.  The constants and
    array sizes of the header are the fields of [AuditHeader]. *)

(** [process_chain_t]: the [names] array (its non-empty prefix) and
    [depth]. *)
Record process_chain_t := {
  pc_names : list string;
  pc_depth : Z
}.

(** [hashed_user_t].  [hash] is taken to be declared
    [char hash[HASH_USERNAME_LEN]], the size of the buffer it is
    copied from. *)
Record hashed_user_t := {
  hu_hash : string;
  hu_count : Z
}.

(** [file_access_t].  [path] is taken to be declared
    [char path[AUDIT_PATH_LEN]], the size of the buffer it is copied
    from. *)
Record file_access_t := {
  fa_path : string;
  fa_access_type : string;
  fa_count : Z;
  fa_suspicious : bool;
  fa_process : string;
  fa_chain : process_chain_t
}.

(** [audit_anomaly_t] *)
Record audit_anomaly_t := {
  an_type : string;
  an_description : string;
  an_severity : string;
  an_current_value : F32.float;
  an_baseline_avg : F32.float;
  an_deviation_pct : F32.float;
  an_timestamp : Z
}.

(** [audit_baseline_t] *)
Record audit_baseline_t := {
  magic : string;
  version : Z;
  created : Z;
  updated : Z;
  sample_count : Z;
  avg_auth_failures : F32.float;
  avg_sudo_count : F32.float;
  avg_sensitive_access : F32.float;
  avg_tmp_executions : F32.float;
  avg_shell_spawns : F32.float
}.

(** [audit_summary_t].  The arrays [failure_users], [sensitive_files]
    and [anomalies] are the lists of their first [failure_user_count],
    [sensitive_file_count] and [anomaly_count] elements. *)
Record audit_summary_t := {
  enabled : bool;
  period_seconds : Z;
  capture_time : Z;
  auth_failures : Z;
  auth_successes : Z;
  failure_users : list hashed_user_t;
  brute_force_detected : bool;
  sudo_count : Z;
  su_count : Z;
  sensitive_files : list file_access_t;
  permission_changes : Z;
  ownership_changes : Z;
  tmp_executions : Z;
  devshm_executions : Z;
  shell_spawns : Z;
  suspicious_exec_count : Z;
  selinux_enforcing : bool;
  selinux_avc_denials : Z;
  apparmor_denials : Z;
  auth_baseline_avg : F32.float;
  auth_deviation_pct : F32.float;
  sudo_baseline_avg : F32.float;
  sudo_deviation_pct : F32.float;
  anomalies : list audit_anomaly_t;
  risk_score : Z;
  risk_level : string
}.

(** Field assignments [summary->f = v]. *)

Definition set_enabled (v : bool) (s : audit_summary_t) : audit_summary_t :=
  {| enabled := v; period_seconds := period_seconds s;
     capture_time := capture_time s; auth_failures := auth_failures s;
     auth_successes := auth_successes s; failure_users := failure_users s;
     brute_force_detected := brute_force_detected s;
     sudo_count := sudo_count s; su_count := su_count s;
     sensitive_files := sensitive_files s;
     permission_changes := permission_changes s;
     ownership_changes := ownership_changes s;
     tmp_executions := tmp_executions s;
     devshm_executions := devshm_executions s;
     shell_spawns := shell_spawns s;
     suspicious_exec_count := suspicious_exec_count s;
     selinux_enforcing := selinux_enforcing s;
     selinux_avc_denials := selinux_avc_denials s;
     apparmor_denials := apparmor_denials s;
     auth_baseline_avg := auth_baseline_avg s;
     auth_deviation_pct := auth_deviation_pct s;
     sudo_baseline_avg := sudo_baseline_avg s;
     sudo_deviation_pct := sudo_deviation_pct s; anomalies := anomalies s;
     risk_score := risk_score s; risk_level := risk_level s |}.

Definition set_period_seconds (v : Z) (s : audit_summary_t) : audit_summary_t :=
  {| enabled := enabled s; period_seconds := v;
     capture_time := capture_time s; auth_failures := auth_failures s;
     auth_successes := auth_successes s; failure_users := failure_users s;
     brute_force_detected := brute_force_detected s;
     sudo_count := sudo_count s; su_count := su_count s;
     sensitive_files := sensitive_files s;
     permission_changes := permission_changes s;
     ownership_changes := ownership_changes s;
     tmp_executions := tmp_executions s;
     devshm_executions := devshm_executions s;
     shell_spawns := shell_spawns s;
     suspicious_exec_count := suspicious_exec_count s;
     selinux_enforcing := selinux_enforcing s;
     selinux_avc_denials := selinux_avc_denials s;
     apparmor_denials := apparmor_denials s;
     auth_baseline_avg := auth_baseline_avg s;
     auth_deviation_pct := auth_deviation_pct s;
     sudo_baseline_avg := sudo_baseline_avg s;
     sudo_deviation_pct := sudo_deviation_pct s; anomalies := anomalies s;
     risk_score := risk_score s; risk_level := risk_level s |}.

Definition set_capture_time (v : Z) (s : audit_summary_t) : audit_summary_t :=
  {| enabled := enabled s; period_seconds := period_seconds s;
     capture_time := v; auth_failures := auth_failures s;
     auth_successes := auth_successes s; failure_users := failure_users s;
     brute_force_detected := brute_force_detected s;
     sudo_count := sudo_count s; su_count := su_count s;
     sensitive_files := sensitive_files s;
     permission_changes := permission_changes s;
     ownership_changes := ownership_changes s;
     tmp_executions := tmp_executions s;
     devshm_executions := devshm_executions s;
     shell_spawns := shell_spawns s;
     suspicious_exec_count := suspicious_exec_count s;
     selinux_enforcing := selinux_enforcing s;
     selinux_avc_denials := selinux_avc_denials s;
     apparmor_denials := apparmor_denials s;
     auth_baseline_avg := auth_baseline_avg s;
     auth_deviation_pct := auth_deviation_pct s;
     sudo_baseline_avg := sudo_baseline_avg s;
     sudo_deviation_pct := sudo_deviation_pct s; anomalies := anomalies s;
     risk_score := risk_score s; risk_level := risk_level s |}.

Definition set_auth_failures (v : Z) (s : audit_summary_t) : audit_summary_t :=
  {| enabled := enabled s; period_seconds := period_seconds s;
     capture_time := capture_time s; auth_failures := v;
     auth_successes := auth_successes s; failure_users := failure_users s;
     brute_force_detected := brute_force_detected s;
     sudo_count := sudo_count s; su_count := su_count s;
     sensitive_files := sensitive_files s;
     permission_changes := permission_changes s;
     ownership_changes := ownership_changes s;
     tmp_executions := tmp_executions s;
     devshm_executions := devshm_executions s;
     shell_spawns := shell_spawns s;
     suspicious_exec_count := suspicious_exec_count s;
     selinux_enforcing := selinux_enforcing s;
     selinux_avc_denials := selinux_avc_denials s;
     apparmor_denials := apparmor_denials s;
     auth_baseline_avg := auth_baseline_avg s;
     auth_deviation_pct := auth_deviation_pct s;
     sudo_baseline_avg := sudo_baseline_avg s;
     sudo_deviation_pct := sudo_deviation_pct s; anomalies := anomalies s;
     risk_score := risk_score s; risk_level := risk_level s |}.

Definition set_auth_successes (v : Z) (s : audit_summary_t) : audit_summary_t :=
  {| enabled := enabled s; period_seconds := period_seconds s;
     capture_time := capture_time s; auth_failures := auth_failures s;
     auth_successes := v; failure_users := failure_users s;
     brute_force_detected := brute_force_detected s;
     sudo_count := sudo_count s; su_count := su_count s;
     sensitive_files := sensitive_files s;
     permission_changes := permission_changes s;
     ownership_changes := ownership_changes s;
     tmp_executions := tmp_executions s;
     devshm_executions := devshm_executions s;
     shell_spawns := shell_spawns s;
     suspicious_exec_count := suspicious_exec_count s;
     selinux_enforcing := selinux_enforcing s;
     selinux_avc_denials := selinux_avc_denials s;
     apparmor_denials := apparmor_denials s;
     auth_baseline_avg := auth_baseline_avg s;
     auth_deviation_pct := auth_deviation_pct s;
     sudo_baseline_avg := sudo_baseline_avg s;
     sudo_deviation_pct := sudo_deviation_pct s; anomalies := anomalies s;
     risk_score := risk_score s; risk_level := risk_level s |}.

Definition set_failure_users (v : list hashed_user_t) (s : audit_summary_t) : audit_summary_t :=
  {| enabled := enabled s; period_seconds := period_seconds s;
     capture_time := capture_time s; auth_failures := auth_failures s;
     auth_successes := auth_successes s; failure_users := v;
     brute_force_detected := brute_force_detected s;
     sudo_count := sudo_count s; su_count := su_count s;
     sensitive_files := sensitive_files s;
     permission_changes := permission_changes s;
     ownership_changes := ownership_changes s;
     tmp_executions := tmp_executions s;
     devshm_executions := devshm_executions s;
     shell_spawns := shell_spawns s;
     suspicious_exec_count := suspicious_exec_count s;
     selinux_enforcing := selinux_enforcing s;
     selinux_avc_denials := selinux_avc_denials s;
     apparmor_denials := apparmor_denials s;
     auth_baseline_avg := auth_baseline_avg s;
     auth_deviation_pct := auth_deviation_pct s;
     sudo_baseline_avg := sudo_baseline_avg s;
     sudo_deviation_pct := sudo_deviation_pct s; anomalies := anomalies s;
     risk_score := risk_score s; risk_level := risk_level s |}.

Definition set_brute_force_detected (v : bool) (s : audit_summary_t) : audit_summary_t :=
  {| enabled := enabled s; period_seconds := period_seconds s;
     capture_time := capture_time s; auth_failures := auth_failures s;
     auth_successes := auth_successes s; failure_users := failure_users s;
     brute_force_detected := v; sudo_count := sudo_count s;
     su_count := su_count s; sensitive_files := sensitive_files s;
     permission_changes := permission_changes s;
     ownership_changes := ownership_changes s;
     tmp_executions := tmp_executions s;
     devshm_executions := devshm_executions s;
     shell_spawns := shell_spawns s;
     suspicious_exec_count := suspicious_exec_count s;
     selinux_enforcing := selinux_enforcing s;
     selinux_avc_denials := selinux_avc_denials s;
     apparmor_denials := apparmor_denials s;
     auth_baseline_avg := auth_baseline_avg s;
     auth_deviation_pct := auth_deviation_pct s;
     sudo_baseline_avg := sudo_baseline_avg s;
     sudo_deviation_pct := sudo_deviation_pct s; anomalies := anomalies s;
     risk_score := risk_score s; risk_level := risk_level s |}.

Definition set_sudo_count (v : Z) (s : audit_summary_t) : audit_summary_t :=
  {| enabled := enabled s; period_seconds := period_seconds s;
     capture_time := capture_time s; auth_failures := auth_failures s;
     auth_successes := auth_successes s; failure_users := failure_users s;
     brute_force_detected := brute_force_detected s; sudo_count := v;
     su_count := su_count s; sensitive_files := sensitive_files s;
     permission_changes := permission_changes s;
     ownership_changes := ownership_changes s;
     tmp_executions := tmp_executions s;
     devshm_executions := devshm_executions s;
     shell_spawns := shell_spawns s;
     suspicious_exec_count := suspicious_exec_count s;
     selinux_enforcing := selinux_enforcing s;
     selinux_avc_denials := selinux_avc_denials s;
     apparmor_denials := apparmor_denials s;
     auth_baseline_avg := auth_baseline_avg s;
     auth_deviation_pct := auth_deviation_pct s;
     sudo_baseline_avg := sudo_baseline_avg s;
     sudo_deviation_pct := sudo_deviation_pct s; anomalies := anomalies s;
     risk_score := risk_score s; risk_level := risk_level s |}.

Definition set_su_count (v : Z) (s : audit_summary_t) : audit_summary_t :=
  {| enabled := enabled s; period_seconds := period_seconds s;
     capture_time := capture_time s; auth_failures := auth_failures s;
     auth_successes := auth_successes s; failure_users := failure_users s;
     brute_force_detected := brute_force_detected s;
     sudo_count := sudo_count s; su_count := v;
     sensitive_files := sensitive_files s;
     permission_changes := permission_changes s;
     ownership_changes := ownership_changes s;
     tmp_executions := tmp_executions s;
     devshm_executions := devshm_executions s;
     shell_spawns := shell_spawns s;
     suspicious_exec_count := suspicious_exec_count s;
     selinux_enforcing := selinux_enforcing s;
     selinux_avc_denials := selinux_avc_denials s;
     apparmor_denials := apparmor_denials s;
     auth_baseline_avg := auth_baseline_avg s;
     auth_deviation_pct := auth_deviation_pct s;
     sudo_baseline_avg := sudo_baseline_avg s;
     sudo_deviation_pct := sudo_deviation_pct s; anomalies := anomalies s;
     risk_score := risk_score s; risk_level := risk_level s |}.

Definition set_sensitive_files (v : list file_access_t) (s : audit_summary_t) : audit_summary_t :=
  {| enabled := enabled s; period_seconds := period_seconds s;
     capture_time := capture_time s; auth_failures := auth_failures s;
     auth_successes := auth_successes s; failure_users := failure_users s;
     brute_force_detected := brute_force_detected s;
     sudo_count := sudo_count s; su_count := su_count s;
     sensitive_files := v; permission_changes := permission_changes s;
     ownership_changes := ownership_changes s;
     tmp_executions := tmp_executions s;
     devshm_executions := devshm_executions s;
     shell_spawns := shell_spawns s;
     suspicious_exec_count := suspicious_exec_count s;
     selinux_enforcing := selinux_enforcing s;
     selinux_avc_denials := selinux_avc_denials s;
     apparmor_denials := apparmor_denials s;
     auth_baseline_avg := auth_baseline_avg s;
     auth_deviation_pct := auth_deviation_pct s;
     sudo_baseline_avg := sudo_baseline_avg s;
     sudo_deviation_pct := sudo_deviation_pct s; anomalies := anomalies s;
     risk_score := risk_score s; risk_level := risk_level s |}.

Definition set_tmp_executions (v : Z) (s : audit_summary_t) : audit_summary_t :=
  {| enabled := enabled s; period_seconds := period_seconds s;
     capture_time := capture_time s; auth_failures := auth_failures s;
     auth_successes := auth_successes s; failure_users := failure_users s;
     brute_force_detected := brute_force_detected s;
     sudo_count := sudo_count s; su_count := su_count s;
     sensitive_files := sensitive_files s;
     permission_changes := permission_changes s;
     ownership_changes := ownership_changes s; tmp_executions := v;
     devshm_executions := devshm_executions s;
     shell_spawns := shell_spawns s;
     suspicious_exec_count := suspicious_exec_count s;
     selinux_enforcing := selinux_enforcing s;
     selinux_avc_denials := selinux_avc_denials s;
     apparmor_denials := apparmor_denials s;
     auth_baseline_avg := auth_baseline_avg s;
     auth_deviation_pct := auth_deviation_pct s;
     sudo_baseline_avg := sudo_baseline_avg s;
     sudo_deviation_pct := sudo_deviation_pct s; anomalies := anomalies s;
     risk_score := risk_score s; risk_level := risk_level s |}.

Definition set_devshm_executions (v : Z) (s : audit_summary_t) : audit_summary_t :=
  {| enabled := enabled s; period_seconds := period_seconds s;
     capture_time := capture_time s; auth_failures := auth_failures s;
     auth_successes := auth_successes s; failure_users := failure_users s;
     brute_force_detected := brute_force_detected s;
     sudo_count := sudo_count s; su_count := su_count s;
     sensitive_files := sensitive_files s;
     permission_changes := permission_changes s;
     ownership_changes := ownership_changes s;
     tmp_executions := tmp_executions s; devshm_executions := v;
     shell_spawns := shell_spawns s;
     suspicious_exec_count := suspicious_exec_count s;
     selinux_enforcing := selinux_enforcing s;
     selinux_avc_denials := selinux_avc_denials s;
     apparmor_denials := apparmor_denials s;
     auth_baseline_avg := auth_baseline_avg s;
     auth_deviation_pct := auth_deviation_pct s;
     sudo_baseline_avg := sudo_baseline_avg s;
     sudo_deviation_pct := sudo_deviation_pct s; anomalies := anomalies s;
     risk_score := risk_score s; risk_level := risk_level s |}.

Definition set_shell_spawns (v : Z) (s : audit_summary_t) : audit_summary_t :=
  {| enabled := enabled s; period_seconds := period_seconds s;
     capture_time := capture_time s; auth_failures := auth_failures s;
     auth_successes := auth_successes s; failure_users := failure_users s;
     brute_force_detected := brute_force_detected s;
     sudo_count := sudo_count s; su_count := su_count s;
     sensitive_files := sensitive_files s;
     permission_changes := permission_changes s;
     ownership_changes := ownership_changes s;
     tmp_executions := tmp_executions s;
     devshm_executions := devshm_executions s; shell_spawns := v;
     suspicious_exec_count := suspicious_exec_count s;
     selinux_enforcing := selinux_enforcing s;
     selinux_avc_denials := selinux_avc_denials s;
     apparmor_denials := apparmor_denials s;
     auth_baseline_avg := auth_baseline_avg s;
     auth_deviation_pct := auth_deviation_pct s;
     sudo_baseline_avg := sudo_baseline_avg s;
     sudo_deviation_pct := sudo_deviation_pct s; anomalies := anomalies s;
     risk_score := risk_score s; risk_level := risk_level s |}.

Definition set_suspicious_exec_count (v : Z) (s : audit_summary_t) : audit_summary_t :=
  {| enabled := enabled s; period_seconds := period_seconds s;
     capture_time := capture_time s; auth_failures := auth_failures s;
     auth_successes := auth_successes s; failure_users := failure_users s;
     brute_force_detected := brute_force_detected s;
     sudo_count := sudo_count s; su_count := su_count s;
     sensitive_files := sensitive_files s;
     permission_changes := permission_changes s;
     ownership_changes := ownership_changes s;
     tmp_executions := tmp_executions s;
     devshm_executions := devshm_executions s;
     shell_spawns := shell_spawns s; suspicious_exec_count := v;
     selinux_enforcing := selinux_enforcing s;
     selinux_avc_denials := selinux_avc_denials s;
     apparmor_denials := apparmor_denials s;
     auth_baseline_avg := auth_baseline_avg s;
     auth_deviation_pct := auth_deviation_pct s;
     sudo_baseline_avg := sudo_baseline_avg s;
     sudo_deviation_pct := sudo_deviation_pct s; anomalies := anomalies s;
     risk_score := risk_score s; risk_level := risk_level s |}.

Definition set_selinux_enforcing (v : bool) (s : audit_summary_t) : audit_summary_t :=
  {| enabled := enabled s; period_seconds := period_seconds s;
     capture_time := capture_time s; auth_failures := auth_failures s;
     auth_successes := auth_successes s; failure_users := failure_users s;
     brute_force_detected := brute_force_detected s;
     sudo_count := sudo_count s; su_count := su_count s;
     sensitive_files := sensitive_files s;
     permission_changes := permission_changes s;
     ownership_changes := ownership_changes s;
     tmp_executions := tmp_executions s;
     devshm_executions := devshm_executions s;
     shell_spawns := shell_spawns s;
     suspicious_exec_count := suspicious_exec_count s;
     selinux_enforcing := v; selinux_avc_denials := selinux_avc_denials s;
     apparmor_denials := apparmor_denials s;
     auth_baseline_avg := auth_baseline_avg s;
     auth_deviation_pct := auth_deviation_pct s;
     sudo_baseline_avg := sudo_baseline_avg s;
     sudo_deviation_pct := sudo_deviation_pct s; anomalies := anomalies s;
     risk_score := risk_score s; risk_level := risk_level s |}.

Definition set_selinux_avc_denials (v : Z) (s : audit_summary_t) : audit_summary_t :=
  {| enabled := enabled s; period_seconds := period_seconds s;
     capture_time := capture_time s; auth_failures := auth_failures s;
     auth_successes := auth_successes s; failure_users := failure_users s;
     brute_force_detected := brute_force_detected s;
     sudo_count := sudo_count s; su_count := su_count s;
     sensitive_files := sensitive_files s;
     permission_changes := permission_changes s;
     ownership_changes := ownership_changes s;
     tmp_executions := tmp_executions s;
     devshm_executions := devshm_executions s;
     shell_spawns := shell_spawns s;
     suspicious_exec_count := suspicious_exec_count s;
     selinux_enforcing := selinux_enforcing s; selinux_avc_denials := v;
     apparmor_denials := apparmor_denials s;
     auth_baseline_avg := auth_baseline_avg s;
     auth_deviation_pct := auth_deviation_pct s;
     sudo_baseline_avg := sudo_baseline_avg s;
     sudo_deviation_pct := sudo_deviation_pct s; anomalies := anomalies s;
     risk_score := risk_score s; risk_level := risk_level s |}.

Definition set_apparmor_denials (v : Z) (s : audit_summary_t) : audit_summary_t :=
  {| enabled := enabled s; period_seconds := period_seconds s;
     capture_time := capture_time s; auth_failures := auth_failures s;
     auth_successes := auth_successes s; failure_users := failure_users s;
     brute_force_detected := brute_force_detected s;
     sudo_count := sudo_count s; su_count := su_count s;
     sensitive_files := sensitive_files s;
     permission_changes := permission_changes s;
     ownership_changes := ownership_changes s;
     tmp_executions := tmp_executions s;
     devshm_executions := devshm_executions s;
     shell_spawns := shell_spawns s;
     suspicious_exec_count := suspicious_exec_count s;
     selinux_enforcing := selinux_enforcing s;
     selinux_avc_denials := selinux_avc_denials s; apparmor_denials := v;
     auth_baseline_avg := auth_baseline_avg s;
     auth_deviation_pct := auth_deviation_pct s;
     sudo_baseline_avg := sudo_baseline_avg s;
     sudo_deviation_pct := sudo_deviation_pct s; anomalies := anomalies s;
     risk_score := risk_score s; risk_level := risk_level s |}.

Definition set_auth_baseline_avg (v : F32.float) (s : audit_summary_t) : audit_summary_t :=
  {| enabled := enabled s; period_seconds := period_seconds s;
     capture_time := capture_time s; auth_failures := auth_failures s;
     auth_successes := auth_successes s; failure_users := failure_users s;
     brute_force_detected := brute_force_detected s;
     sudo_count := sudo_count s; su_count := su_count s;
     sensitive_files := sensitive_files s;
     permission_changes := permission_changes s;
     ownership_changes := ownership_changes s;
     tmp_executions := tmp_executions s;
     devshm_executions := devshm_executions s;
     shell_spawns := shell_spawns s;
     suspicious_exec_count := suspicious_exec_count s;
     selinux_enforcing := selinux_enforcing s;
     selinux_avc_denials := selinux_avc_denials s;
     apparmor_denials := apparmor_denials s; auth_baseline_avg := v;
     auth_deviation_pct := auth_deviation_pct s;
     sudo_baseline_avg := sudo_baseline_avg s;
     sudo_deviation_pct := sudo_deviation_pct s; anomalies := anomalies s;
     risk_score := risk_score s; risk_level := risk_level s |}.

Definition set_auth_deviation_pct (v : F32.float) (s : audit_summary_t) : audit_summary_t :=
  {| enabled := enabled s; period_seconds := period_seconds s;
     capture_time := capture_time s; auth_failures := auth_failures s;
     auth_successes := auth_successes s; failure_users := failure_users s;
     brute_force_detected := brute_force_detected s;
     sudo_count := sudo_count s; su_count := su_count s;
     sensitive_files := sensitive_files s;
     permission_changes := permission_changes s;
     ownership_changes := ownership_changes s;
     tmp_executions := tmp_executions s;
     devshm_executions := devshm_executions s;
     shell_spawns := shell_spawns s;
     suspicious_exec_count := suspicious_exec_count s;
     selinux_enforcing := selinux_enforcing s;
     selinux_avc_denials := selinux_avc_denials s;
     apparmor_denials := apparmor_denials s;
     auth_baseline_avg := auth_baseline_avg s; auth_deviation_pct := v;
     sudo_baseline_avg := sudo_baseline_avg s;
     sudo_deviation_pct := sudo_deviation_pct s; anomalies := anomalies s;
     risk_score := risk_score s; risk_level := risk_level s |}.

Definition set_sudo_baseline_avg (v : F32.float) (s : audit_summary_t) : audit_summary_t :=
  {| enabled := enabled s; period_seconds := period_seconds s;
     capture_time := capture_time s; auth_failures := auth_failures s;
     auth_successes := auth_successes s; failure_users := failure_users s;
     brute_force_detected := brute_force_detected s;
     sudo_count := sudo_count s; su_count := su_count s;
     sensitive_files := sensitive_files s;
     permission_changes := permission_changes s;
     ownership_changes := ownership_changes s;
     tmp_executions := tmp_executions s;
     devshm_executions := devshm_executions s;
     shell_spawns := shell_spawns s;
     suspicious_exec_count := suspicious_exec_count s;
     selinux_enforcing := selinux_enforcing s;
     selinux_avc_denials := selinux_avc_denials s;
     apparmor_denials := apparmor_denials s;
     auth_baseline_avg := auth_baseline_avg s;
     auth_deviation_pct := auth_deviation_pct s; sudo_baseline_avg := v;
     sudo_deviation_pct := sudo_deviation_pct s; anomalies := anomalies s;
     risk_score := risk_score s; risk_level := risk_level s |}.

Definition set_sudo_deviation_pct (v : F32.float) (s : audit_summary_t) : audit_summary_t :=
  {| enabled := enabled s; period_seconds := period_seconds s;
     capture_time := capture_time s; auth_failures := auth_failures s;
     auth_successes := auth_successes s; failure_users := failure_users s;
     brute_force_detected := brute_force_detected s;
     sudo_count := sudo_count s; su_count := su_count s;
     sensitive_files := sensitive_files s;
     permission_changes := permission_changes s;
     ownership_changes := ownership_changes s;
     tmp_executions := tmp_executions s;
     devshm_executions := devshm_executions s;
     shell_spawns := shell_spawns s;
     suspicious_exec_count := suspicious_exec_count s;
     selinux_enforcing := selinux_enforcing s;
     selinux_avc_denials := selinux_avc_denials s;
     apparmor_denials := apparmor_denials s;
     auth_baseline_avg := auth_baseline_avg s;
     auth_deviation_pct := auth_deviation_pct s;
     sudo_baseline_avg := sudo_baseline_avg s; sudo_deviation_pct := v;
     anomalies := anomalies s; risk_score := risk_score s;
     risk_level := risk_level s |}.

Definition set_anomalies (v : list audit_anomaly_t) (s : audit_summary_t) : audit_summary_t :=
  {| enabled := enabled s; period_seconds := period_seconds s;
     capture_time := capture_time s; auth_failures := auth_failures s;
     auth_successes := auth_successes s; failure_users := failure_users s;
     brute_force_detected := brute_force_detected s;
     sudo_count := sudo_count s; su_count := su_count s;
     sensitive_files := sensitive_files s;
     permission_changes := permission_changes s;
     ownership_changes := ownership_changes s;
     tmp_executions := tmp_executions s;
     devshm_executions := devshm_executions s;
     shell_spawns := shell_spawns s;
     suspicious_exec_count := suspicious_exec_count s;
     selinux_enforcing := selinux_enforcing s;
     selinux_avc_denials := selinux_avc_denials s;
     apparmor_denials := apparmor_denials s;
     auth_baseline_avg := auth_baseline_avg s;
     auth_deviation_pct := auth_deviation_pct s;
     sudo_baseline_avg := sudo_baseline_avg s;
     sudo_deviation_pct := sudo_deviation_pct s; anomalies := v;
     risk_score := risk_score s; risk_level := risk_level s |}.

Definition set_risk_score (v : Z) (s : audit_summary_t) : audit_summary_t :=
  {| enabled := enabled s; period_seconds := period_seconds s;
     capture_time := capture_time s; auth_failures := auth_failures s;
     auth_successes := auth_successes s; failure_users := failure_users s;
     brute_force_detected := brute_force_detected s;
     sudo_count := sudo_count s; su_count := su_count s;
     sensitive_files := sensitive_files s;
     permission_changes := permission_changes s;
     ownership_changes := ownership_changes s;
     tmp_executions := tmp_executions s;
     devshm_executions := devshm_executions s;
     shell_spawns := shell_spawns s;
     suspicious_exec_count := suspicious_exec_count s;
     selinux_enforcing := selinux_enforcing s;
     selinux_avc_denials := selinux_avc_denials s;
     apparmor_denials := apparmor_denials s;
     auth_baseline_avg := auth_baseline_avg s;
     auth_deviation_pct := auth_deviation_pct s;
     sudo_baseline_avg := sudo_baseline_avg s;
     sudo_deviation_pct := sudo_deviation_pct s; anomalies := anomalies s;
     risk_score := v; risk_level := risk_level s |}.

Definition set_risk_level (v : string) (s : audit_summary_t) : audit_summary_t :=
  {| enabled := enabled s; period_seconds := period_seconds s;
     capture_time := capture_time s; auth_failures := auth_failures s;
     auth_successes := auth_successes s; failure_users := failure_users s;
     brute_force_detected := brute_force_detected s;
     sudo_count := sudo_count s; su_count := su_count s;
     sensitive_files := sensitive_files s;
     permission_changes := permission_changes s;
     ownership_changes := ownership_changes s;
     tmp_executions := tmp_executions s;
     devshm_executions := devshm_executions s;
     shell_spawns := shell_spawns s;
     suspicious_exec_count := suspicious_exec_count s;
     selinux_enforcing := selinux_enforcing s;
     selinux_avc_denials := selinux_avc_denials s;
     apparmor_denials := apparmor_denials s;
     auth_baseline_avg := auth_baseline_avg s;
     auth_deviation_pct := auth_deviation_pct s;
     sudo_baseline_avg := sudo_baseline_avg s;
     sudo_deviation_pct := sudo_deviation_pct s; anomalies := anomalies s;
     risk_score := risk_score s; risk_level := v |}.

(** The count fields that go with the three arrays. *)
Definition failure_user_count (s : audit_summary_t) : Z :=
  Z.of_nat (List.length (failure_users s)).
Definition sensitive_file_count (s : audit_summary_t) : Z :=
  Z.of_nat (List.length (sensitive_files s)).
Definition anomaly_count (s : audit_summary_t) : Z :=
  Z.of_nat (List.length (anomalies s)).

(** The result of [calloc (1, sizeof (audit_summary_t))]. *)
Definition zeroed_summary : audit_summary_t :=
  {| enabled := false; period_seconds := 0; capture_time := 0;
     auth_failures := 0; auth_successes := 0; failure_users := [];
     brute_force_detected := false; sudo_count := 0; su_count := 0;
     sensitive_files := []; permission_changes := 0; ownership_changes := 0;
     tmp_executions := 0; devshm_executions := 0; shell_spawns := 0;
     suspicious_exec_count := 0; selinux_enforcing := false;
     selinux_avc_denials := 0; apparmor_denials := 0;
     auth_baseline_avg := F32.zero; auth_deviation_pct := F32.zero;
     sudo_baseline_avg := F32.zero; sudo_deviation_pct := F32.zero;
     anomalies := []; risk_score := 0; risk_level := EmptyString |}.

(** The constants and struct sizes that [audit.c] takes from
    [include/audit.h], and the functions it calls that are defined in
    other translation units. *)
Class AuditHeader := {
  MAX_AUDIT_USERS : Z;
  MAX_AUDIT_FILES : Z;
  MAX_AUDIT_ANOMALIES : Z;
  HASH_USERNAME_LEN : nat;
  AUDIT_PATH_LEN : nat;
  MAX_PATH_LEN : nat;
  (** [sizeof] of the character arrays written with [strncpy]. *)
  sizeof_fa_process : nat;
  sizeof_chain_name : nat;
  sizeof_an_type : nat;
  sizeof_an_description : nat;
  sizeof_an_severity : nat;
  (** [sizeof (audit_baseline_t)] and the host's reading of that many
      bytes as a baseline record. *)
  sizeof_baseline : nat;
  baseline_of_bytes : string -> audit_baseline_t;
  (** [sha256_string (input, out, 65)]: the hexadecimal digest. *)
  sha256_string : string -> string;
  (** [build_process_chain (pid, chain)] extends [chain] in place. *)
  build_process_chain : Z -> process_chain_t -> process_chain_t;
  (** [is_suspicious_chain (chain, &reason)] *)
  is_suspicious_chain : process_chain_t -> bool
}.

(** ** The operating system seen by one probe *)

Record Env := {
  (** [calloc] returned a non-NULL pointer. *)
  calloc_ok : bool;
  (** [popen (cmd, "r")]: [None] when it fails, else the whole standard
      output of the command. *)
  popen_r : string -> option string;
  (** [fopen (path, "r")]: [None] when it fails, else the file's bytes. *)
  fopen_r : string -> option string;
  (** [access (path, R_OK) == 0] *)
  access_R_OK : string -> bool;
  (** [getenv (name)] *)
  getenv : string -> option string;
  (** The value returned by the [n]-th call of [time (NULL)]. *)
  time_at : nat -> Z
}.

(** [audit_event_ctx_t] *)
Record audit_event_ctx_t := {
  ctx_event_id : Z;
  ctx_pid : Z;
  ctx_ppid : Z;
  ctx_comm : string;
  ctx_exe : string;
  ctx_used : bool
}.

(** The mutable state outside the summary: the static table
    [event_ctx] (its first [event_ctx_count] slots) and the number of
    calls of [time] made so far. *)
Record World := {
  event_ctx : list audit_event_ctx_t;
  clock : nat
}.

Definition event_ctx_count (w : World) : Z := Z.of_nat (List.length (event_ctx w)).

Definition IO (A : Type) : Type := World -> A * World.

Definition ret {A} (a : A) : IO A := fun w => (a, w).
Definition bind {A B} (m : IO A) (k : A -> IO B) : IO B :=
  fun w => let '(a, w') := m w in k a w'.

Declare Scope io_scope.
Delimit Scope io_scope with io.
Notation "x <- m ;; k" := (bind m (fun x => k))
  (at level 61, m at next level, right associativity) : io_scope.
Notation "m ;;; k" := (bind m (fun _ => k))
  (at level 61, right associativity) : io_scope.

(** Left-to-right iteration of a loop body over the lines read. *)
Fixpoint for_each {A S} (body : S -> A -> IO S) (s : S) (l : list A) : IO S :=
  match l with
  | [] => ret s
  | x :: l' => bind (body s x) (fun s' => for_each body s' l')
  end.

Definition get_event_table : IO (list audit_event_ctx_t) :=
  fun w => (event_ctx w, w).
Definition put_event_table (t : list audit_event_ctx_t) : IO unit :=
  fun w => (tt, {| event_ctx := t; clock := clock w |}).

(** ** Array helpers *)

(** Index of the first element satisfying [p], counted from [i]: the
    linear scans of [audit.c]. *)
Fixpoint find_index {A} (p : A -> bool) (l : list A) (i : nat) : option nat :=
  match l with
  | [] => None
  | x :: l' => if p x then Some i else find_index p l' (S i)
  end.

(** Assignment through a pointer to the element at index [i]. *)
Fixpoint update_nth {A} (i : nat) (f : A -> A) (l : list A) {struct l}
  : list A :=
  match l, i with
  | [], _ => []
  | x :: l', O => f x :: l'
  | x :: l', S i' => x :: update_nth i' f l'
  end.

(** ** Constants of [audit.c] *)

Definition AUDIT_BASELINE_PATH_USER : string := ".sentinel/audit_baseline.dat".
Definition AUDIT_BASELINE_PATH_SYSTEM : string := "/var/lib/sentinel/audit_baseline.dat".
Definition AUDIT_BASELINE_MAGIC : string := "SNTLAUDT".
Definition AUDIT_BASELINE_VERSION : Z := 1.
Definition EMA_ALPHA : F32.float := F32.c0_2.
Definition username_salt : string := "sentinel_default_salt".
Definition MAX_AUDIT_EVENTS : Z := 256.

(** The shell commands handed to [popen]. *)
Definition cmd_syscall : string :=
  "ausearch -m SYSCALL -ts today --format raw 2>/dev/null".
Definition cmd_auth : string :=
  "ausearch -m USER_AUTH -ts today --format raw 2>/dev/null | grep -E 'res=(success|failed)' | tail -100 2>/dev/null".
Definition cmd_sudo : string :=
  "ausearch -m USER_CMD -ts today --format raw 2>/dev/null | grep -c 'exe=" ++ dq
  ++ "/usr/bin/sudo" ++ dq ++ "' 2>/dev/null".
Definition cmd_su : string :=
  "ausearch -m USER_CMD -ts today --format raw 2>/dev/null | grep -c 'exe=" ++ dq
  ++ "/usr/bin/su" ++ dq ++ "' 2>/dev/null".
Definition cmd_file : string :=
  "ausearch -k identity -ts today --format raw 2>/dev/null | grep 'type=PATH' | grep 'nametype=NORMAL' 2>/dev/null".
Definition cmd_exec : string :=
  "ausearch -sc execve -ts today -i 2>/dev/null | grep -E 'name=(/tmp/|/dev/shm/)' 2>/dev/null".
Definition cmd_shell : string :=
  "ausearch -sc execve -ts today -i 2>/dev/null | grep -cE 'name=.*/bin/(ba)?sh' 2>/dev/null".
Definition cmd_avc : string :=
  "ausearch -m AVC -ts today 2>/dev/null | grep -c 'denied' 2>/dev/null".
Definition cmd_apparmor : string :=
  "ausearch -m APPARMOR_DENIED -ts today 2>/dev/null | wc -l 2>/dev/null".

(** ** Formatting for [snprintf] *)

(** [%d] *)
Definition fmt_d (z : Z) : string :=
  DecimalString.NilZero.string_of_int (Z.to_int z).

(** The integer nearest to [m * 2^e], ties to even. *)
Definition round_half_even (m : positive) (e : Z) : Z :=
  if 0 <=? e then Z.shiftl (Zpos m) e
  else
    let d := 2 ^ (- e) in
    let q := Zpos m / d in
    let r := Zpos m mod d in
    match Z.compare (2 * r) d with
    | Lt => q
    | Gt => q + 1
    | Eq => if Z.even q then q else q + 1
    end.

(** [%.0f] *)
Definition fmt_f0 (x : F32.float) : string :=
  match x with
  | S754_zero s => if s then "-0" else "0"
  | S754_finite s m e =>
      ((if s then "-" else EmptyString) ++ fmt_d (round_half_even m e))%string
  | S754_infinity s => if s then "-inf" else "inf"
  | S754_nan => "nan"
  end.

(** ** The functions of [audit.c] *)

Section Audit.

Context {hdr : AuditHeader}.
Variable sys : Env.

Local Open Scope io_scope.

(** [time (NULL)] *)
Definition time_now : IO Z :=
  fun w => (time_at sys (clock w),
            {| event_ctx := event_ctx w; clock := S (clock w) |}).

(** *** Event context cache *)

Definition extract_event_id (line : string) : Z :=
  match strstr line "msg=audit(" with
  | None => -1
  | Some p =>
      match strchr p ":"%char with
      | None => -1
      | Some p => atoi (advance 1 p)
      end
  end.

(** Index of the first slot in use for [event_id]. *)
Definition find_ctx (event_id : Z) (t : list audit_event_ctx_t) : option nat :=
  find_index (fun c => ctx_used c && (ctx_event_id c =? event_id)) t 0.

Definition fresh_ctx (event_id : Z) : audit_event_ctx_t :=
  {| ctx_event_id := event_id; ctx_pid := 0; ctx_ppid := 0;
     ctx_comm := EmptyString; ctx_exe := EmptyString; ctx_used := true |}.

(** The returned pointer is the index of the slot; [None] is NULL. *)
Definition get_event_ctx (event_id : Z) : IO (option nat) :=
  t <- get_event_table ;;
  match find_ctx event_id t with
  | Some i => ret (Some i)
  | None =>
      if MAX_AUDIT_EVENTS <=? Z.of_nat (List.length t) then ret None
      else
        put_event_table (t ++ [fresh_ctx event_id]) ;;;
        ret (Some (List.length t))
  end.

Definition clear_event_ctx : IO unit := put_event_table [].

Definition fill_ctx (line : string) (c : audit_event_ctx_t)
  : audit_event_ctx_t :=
  let pid :=
    match strstr line " pid=" with
    | Some p => atoi (advance 5 p)
    | None => ctx_pid c
    end in
  let ppid :=
    match strstr line " ppid=" with
    | Some p => atoi (advance 6 p)
    | None => ctx_ppid c
    end in
  let comm :=
    match strstr line (" comm=" ++ dq) with
    | Some p => copy_until_quote 31 (advance 7 p)
    | None => ctx_comm c
    end in
  let exe :=
    match strstr line (" exe=" ++ dq) with
    | Some p => copy_until_quote 255 (advance 6 p)
    | None => ctx_exe c
    end in
  {| ctx_event_id := ctx_event_id c; ctx_pid := pid; ctx_ppid := ppid;
     ctx_comm := comm; ctx_exe := exe; ctx_used := ctx_used c |}.

Definition syscall_line (_ : unit) (line : string) : IO unit :=
  let event_id := extract_event_id line in
  if event_id <? 0 then ret tt
  else
    ctx <- get_event_ctx event_id ;;
    match ctx with
    | None => ret tt
    | Some i =>
        t <- get_event_table ;;
        put_event_table (update_nth i (fill_ctx line) t)
    end.

Definition parse_syscall_context (window_seconds : Z) : IO unit :=
  match popen_r sys cmd_syscall with
  | None => ret tt
  | Some out => for_each syscall_line tt (fgets_all 2048 out)
  end.

(** *** Username hashing *)

(** [hash_username (username, output, outsize)] for non-NULL
    arguments: the string in [output] after the call, [output] being
    what the buffer held before.  With [outsize] 0 nothing is stored:
    the guard stores the terminator only when [outsize > 0], and
    [snprintf] with size 0 writes nothing. *)
Definition hash_username (username output : string) (outsize : nat) : string :=
  if Nat.ltb outsize HASH_USERNAME_LEN then
    if Nat.ltb 0 outsize then EmptyString else output
  else
    let salted := strn 255 (username_salt ++ ":" ++ username) in
    let hash := c_str (sha256_string salted) in
    match outsize with
    | O => output
    | S n => strn n ("user_" ++ strn 4 hash)
    end.

(** [find_or_add_user]: the summary after the call and the index of
    the returned entry ([None] for NULL).  The local array [hashed] is
    not initialised; it has at least one byte, so [hash_username]
    always stores a string in it and what it held before, taken as
    empty here, is never read. *)
Definition find_or_add_user (summary : audit_summary_t) (username : string)
  : audit_summary_t * option nat :=
  let hashed := hash_username username EmptyString HASH_USERNAME_LEN in
  match find_index (fun u => String.eqb (hu_hash u) hashed)
                   (failure_users summary) 0 with
  | Some i => (summary, Some i)
  | None =>
      if failure_user_count summary <? MAX_AUDIT_USERS then
        let user := {| hu_hash := strn (HASH_USERNAME_LEN - 1) hashed;
                       hu_count := 0 |} in
        (set_failure_users (failure_users summary ++ [user]) summary,
         Some (List.length (failure_users summary)))
      else (summary, None)
  end.

(** *** Authentication events *)

(** [user->count++] *)
Definition bump_user (u : hashed_user_t) : hashed_user_t :=
  {| hu_hash := hu_hash u; hu_count := CInt.incr (hu_count u) |}.

(** Body of the [while (fgets ...)] loop of [parse_auth_events]. *)
Definition auth_line (summary : audit_summary_t) (line : string)
  : audit_summary_t :=
  match strstr line "res=failed" with
  | Some _ =>
      let summary := set_auth_failures (CInt.incr (auth_failures summary)) summary in
      match strstr line ("acct=" ++ dq) with
      | Some acct =>
          let username := copy_until_quote 63 (advance 6 acct) in
          if Nat.ltb 0 (strlen username) then
            match find_or_add_user summary username with
            | (summary, Some i) =>
                set_failure_users
                  (update_nth i bump_user (failure_users summary)) summary
            | (summary, None) => summary
            end
          else summary
      | None => summary
      end
  | None =>
      match strstr line "res=success" with
      | Some _ => set_auth_successes (CInt.incr (auth_successes summary)) summary
      | None => summary
      end
  end.

Definition parse_auth_events (summary : audit_summary_t) (window_seconds : Z)
  : audit_summary_t :=
  match popen_r sys cmd_auth with
  | None => summary
  | Some out =>
      let summary := fold_left auth_line (fgets_all 2048 out) summary in
      set_brute_force_detected (5 <? auth_failures summary) summary
  end.

(** *** Privilege escalation events *)

Definition parse_priv_events (summary : audit_summary_t) (window_seconds : Z)
  : audit_summary_t :=
  let summary :=
    match popen_r sys cmd_sudo with
    | Some out =>
        match fgets_first 1024 out with
        | Some line => set_sudo_count (atoi line) summary
        | None => summary
        end
    | None => summary
    end in
  match popen_r sys cmd_su with
  | Some out =>
      match fgets_first 1024 out with
      | Some line => set_su_count (atoi line) summary
      | None => summary
      end
  | None => summary
  end.


(** *** Sensitive file events *)

(** A [process_chain_t] after [memset (chain, 0, sizeof ( *chain))]. *)
Definition zeroed_chain : process_chain_t :=
  {| pc_names := []; pc_depth := 0 |}.

(** [summary->sensitive_files[j].count++] *)
Definition bump_file (fa : file_access_t) : file_access_t :=
  {| fa_path := fa_path fa; fa_access_type := fa_access_type fa;
     fa_count := CInt.incr (fa_count fa); fa_suspicious := fa_suspicious fa;
     fa_process := fa_process fa; fa_chain := fa_chain fa |}.

Definition is_some {A} (o : option A) : bool :=
  match o with Some _ => true | None => false end.

(** [fa->suspicious = true] *)
Definition mark_suspicious (fa : file_access_t) : file_access_t :=
  {| fa_path := fa_path fa; fa_access_type := fa_access_type fa;
     fa_count := fa_count fa; fa_suspicious := true;
     fa_process := fa_process fa; fa_chain := fa_chain fa |}.

(** Assignment of [fa->process] and [fa->chain]. *)
Definition attach_process (process : string) (chain : process_chain_t)
  (fa : file_access_t) : file_access_t :=
  {| fa_path := fa_path fa; fa_access_type := fa_access_type fa;
     fa_count := fa_count fa; fa_suspicious := fa_suspicious fa;
     fa_process := process; fa_chain := chain |}.

(** The [if (!found)] block of [parse_file_events]: a new entry is
    appended for [path]; [ctx] is the slot the line is correlated
    with, if any. *)
Definition add_file_access (summary : audit_summary_t) (path : string)
  (ctx : option audit_event_ctx_t) : audit_summary_t :=
  let fa := {| fa_path := strn (AUDIT_PATH_LEN - 1) path;
               fa_access_type := "write"; fa_count := 1;
               fa_suspicious := false; fa_process := EmptyString;
               fa_chain := zeroed_chain |} in
  let '(fa, summary) :=
    match ctx with
    | Some c =>
        if Nat.ltb 0 (strlen (ctx_comm c)) then
          let chain :=
            {| pc_names := [strn (sizeof_chain_name - 1) (ctx_comm c)];
               pc_depth := 1 |} in
          let chain :=
            if 1 <? ctx_ppid c then build_process_chain (ctx_ppid c) chain
            else chain in
          let fa :=
            attach_process (strn (sizeof_fa_process - 1) (ctx_comm c)) chain fa in
          if is_suspicious_chain chain then
            (mark_suspicious fa,
             set_suspicious_exec_count
               (CInt.incr (suspicious_exec_count summary)) summary)
          else (fa, summary)
        else (fa, summary)
    | None => (fa, summary)
    end in
  let fa :=
    if is_some (strstr path "shadow") || is_some (strstr path "sudoers")
    then mark_suspicious fa
    else fa in
  set_sensitive_files (sensitive_files summary ++ [fa]) summary.

(** [path[pathlen - 1] != '/'] *)
Definition last_is_not_slash (path : string) : bool :=
  match String.get (strlen path - 1) path with
  | Some c => negb (Ascii.eqb c "/"%char)
  | None => true
  end.

(** Body of the [while (fgets ...)] loop of [parse_file_events]. *)
Definition file_line (summary : audit_summary_t) (line : string)
  : IO audit_summary_t :=
  let event_id := extract_event_id line in
  ctx <- (if 0 <=? event_id then get_event_ctx event_id else ret None) ;;
  match strstr line ("name=" ++ dq) with
  | None => ret summary
  | Some name =>
      let path := copy_until_quote (AUDIT_PATH_LEN - 1) (advance 6 name) in
      let pathlen := strlen path in
      if Nat.ltb 5 pathlen && last_is_not_slash path
         && (sensitive_file_count summary <? MAX_AUDIT_FILES)
      then
        match find_index (fun fa => String.eqb (fa_path fa) path)
                         (sensitive_files summary) 0 with
        | Some j =>
            ret (set_sensitive_files
                   (update_nth j bump_file (sensitive_files summary)) summary)
        | None =>
            t <- get_event_table ;;
            let slot := match ctx with
                        | Some i => nth_error t i
                        | None => None
                        end in
            ret (add_file_access summary path slot)
        end
      else ret summary
  end.

Definition parse_file_events (summary : audit_summary_t) (window_seconds : Z)
  : IO audit_summary_t :=
  match popen_r sys cmd_file with
  | None => ret summary
  | Some out => for_each file_line summary (fgets_all 2048 out)
  end.

(** *** Executions from suspicious locations *)

Definition exec_line (summary : audit_summary_t) (line : string)
  : audit_summary_t :=
  let summary :=
    if is_some (strstr line "/tmp/")
    then set_tmp_executions (CInt.incr (tmp_executions summary)) summary
    else summary in
  if is_some (strstr line "/dev/shm/")
  then set_devshm_executions (CInt.incr (devshm_executions summary)) summary
  else summary.

Definition parse_exec_events (summary : audit_summary_t) (window_seconds : Z)
  : audit_summary_t :=
  match popen_r sys cmd_exec with
  | None => summary
  | Some out =>
      let summary := fold_left exec_line (fgets_all 1024 out) summary in
      match popen_r sys cmd_shell with
      | Some out =>
          match fgets_first 1024 out with
          | Some line => set_shell_spawns (atoi line) summary
          | None => summary
          end
      | None => summary
      end
  end.

(** *** SELinux / AppArmor *)

Definition check_security_framework (summary : audit_summary_t)
  : audit_summary_t :=
  let summary :=
    match fopen_r sys "/sys/fs/selinux/enforce" with
    | Some content =>
        let summary :=
          match fgets_first 256 content with
          | Some line => set_selinux_enforcing (atoi line =? 1) summary
          | None => summary
          end in
        match popen_r sys cmd_avc with
        | Some out =>
            match fgets_first 256 out with
            | Some line => set_selinux_avc_denials (atoi line) summary
            | None => summary
            end
        | None => summary
        end
    | None => summary
    end in
  match popen_r sys cmd_apparmor with
  | Some out =>
      match fgets_first 256 out with
      | Some line => set_apparmor_denials (atoi line) summary
      | None => summary
      end
  | None => summary
  end.


(** *** Anomaly detection *)

Definition calculate_deviation_pct (current baseline_avg : F32.float)
  : F32.float :=
  if F32.lt baseline_avg F32.c0_1 then
    if F32.gt current (F32.of_int 0) then F32.c100 else F32.zero
  else F32.mul (F32.div (F32.sub current baseline_avg) baseline_avg) F32.c100.

Definition deviation_significance (deviation_pct : F32.float) : string :=
  if F32.gt deviation_pct F32.c500 then "CRITICAL"
  else if F32.gt deviation_pct F32.c200 then "HIGH"
  else if F32.gt deviation_pct F32.c100 then "MEDIUM"
  else if F32.gt deviation_pct F32.c50 then "LOW"
  else "NORMAL".

Definition add_anomaly (summary : audit_summary_t)
  (type description severity : string)
  (current baseline deviation : F32.float) : IO audit_summary_t :=
  if MAX_AUDIT_ANOMALIES <=? anomaly_count summary then ret summary
  else
    now <- time_now ;;
    let a := {| an_type := strn (sizeof_an_type - 1) type;
                an_description := strn (sizeof_an_description - 1) description;
                an_severity := strn (sizeof_an_severity - 1) severity;
                an_current_value := current;
                an_baseline_avg := baseline;
                an_deviation_pct := deviation;
                an_timestamp := now |} in
    ret (set_anomalies (anomalies summary ++ [a]) summary).

(** [baseline] is [None] for a NULL pointer. *)
Definition detect_anomalies (summary : audit_summary_t)
  (baseline : option audit_baseline_t) : IO audit_summary_t :=
  match baseline with
  | None => ret summary
  | Some baseline =>
      if sample_count baseline <? 5 then ret summary
      else
        (* Auth failures *)
        let summary := set_auth_baseline_avg (avg_auth_failures baseline) summary in
        let summary :=
          set_auth_deviation_pct
            (calculate_deviation_pct (F32.of_int (auth_failures summary))
               (avg_auth_failures baseline)) summary in
        summary <-
          (if F32.gt (auth_deviation_pct summary) F32.c100 then
             let desc :=
               strn 127 (fmt_d (auth_failures summary) ++ " auth failures ("
                         ++ fmt_f0 (auth_deviation_pct summary)
                         ++ "% above baseline)") in
             add_anomaly summary "auth_failure_spike" desc
               (deviation_significance (auth_deviation_pct summary))
               (F32.of_int (auth_failures summary))
               (avg_auth_failures baseline) (auth_deviation_pct summary)
           else ret summary) ;;
        (* Sudo usage *)
        let summary := set_sudo_baseline_avg (avg_sudo_count baseline) summary in
        let summary :=
          set_sudo_deviation_pct
            (calculate_deviation_pct (F32.of_int (sudo_count summary))
               (avg_sudo_count baseline)) summary in
        summary <-
          (if F32.gt (sudo_deviation_pct summary) F32.c200 then
             let desc :=
               strn 127 (fmt_d (sudo_count summary) ++ " sudo commands ("
                         ++ fmt_f0 (sudo_deviation_pct summary)
                         ++ "% above baseline)") in
             add_anomaly summary "sudo_spike" desc
               (deviation_significance (sudo_deviation_pct summary))
               (F32.of_int (sudo_count summary))
               (avg_sudo_count baseline) (sudo_deviation_pct summary)
           else ret summary) ;;
        (* /tmp executions *)
        summary <-
          (if 0 <? tmp_executions summary then
             let desc :=
               strn 127 (fmt_d (tmp_executions summary) ++ " executions from /tmp") in
             add_anomaly summary "tmp_execution" desc "HIGH"
               (F32.of_int (tmp_executions summary)) (F32.of_int 0) F32.c100
           else ret summary) ;;
        (* /dev/shm executions *)
        if 0 <? devshm_executions summary then
          let desc :=
            strn 127 (fmt_d (devshm_executions summary)
                      ++ " executions from /dev/shm") in
          add_anomaly summary "devshm_execution" desc "CRITICAL"
            (F32.of_int (devshm_executions summary)) (F32.of_int 0) F32.c100
        else ret summary
  end.

(** *** Risk score *)

(** [score = (int)(score * k)] *)
Definition scale (score : Z) (k : F32.float) : Z :=
  F32.to_int (F32.mul (F32.of_int score) k).

Definition calculate_risk_score (summary : audit_summary_t) : audit_summary_t :=
  let score := 0 in
  (* Authentication *)
  let score := CInt.add score (CInt.mul (auth_failures summary) 1) in
  let score := if brute_force_detected summary then CInt.add score 10 else score in
  (* Apply deviation multiplier *)
  let score :=
    if F32.gt (auth_deviation_pct summary) F32.c500 then scale score F32.c5
    else if F32.gt (auth_deviation_pct summary) F32.c200 then scale score F32.c3
    else if F32.gt (auth_deviation_pct summary) F32.c100 then scale score F32.c2
    else score in
  (* Privilege escalation *)
  let score :=
    if F32.gt (sudo_deviation_pct summary) F32.c200 then CInt.add score 5
    else score in
  let score := CInt.add score (CInt.mul (su_count summary) 2) in
  (* File integrity *)
  let score := CInt.add score (CInt.mul (permission_changes summary) 3) in
  let score := CInt.add score (CInt.mul (ownership_changes summary) 3) in
  let score :=
    fold_left
      (fun score fa =>
         let score := CInt.add score 2 in
         if fa_suspicious fa then CInt.add score 5 else score)
      (sensitive_files summary) score in
  (* Process activity *)
  let score := CInt.add score (CInt.mul (tmp_executions summary) 4) in
  let score := CInt.add score (CInt.mul (devshm_executions summary) 6) in
  let score := CInt.add score (CInt.mul (suspicious_exec_count summary) 10) in
  (* Security framework *)
  let score := CInt.add score (CInt.mul (selinux_avc_denials summary) 1) in
  let score := CInt.add score (CInt.mul (apparmor_denials summary) 1) in
  let summary := set_risk_score score summary in
  (* Determine level *)
  if 31 <=? score then set_risk_level "critical" summary
  else if 16 <=? score then set_risk_level "high" summary
  else if 6 <=? score then set_risk_level "medium" summary
  else set_risk_level "low" summary.


(** *** Baseline store *)

(** The file [load_audit_baseline] reads: the system path first, then
    the user path under [$HOME]. *)
Definition open_baseline : option string :=
  let path := strn (MAX_PATH_LEN - 1) AUDIT_BASELINE_PATH_SYSTEM in
  match fopen_r sys path with
  | Some fp => Some fp
  | None =>
      match getenv sys "HOME" with
      | Some home =>
          let path :=
            strn (MAX_PATH_LEN - 1)
                 (c_str home ++ "/" ++ AUDIT_BASELINE_PATH_USER) in
          fopen_r sys path
      | None => None
      end
  end.

(** [fread (obj, size, 1, fp) == 1] on a freshly opened file, and the
    bytes of the object afterwards.  A short read stores the bytes
    that were available and leaves the rest of the object as it was. *)
Definition fread_one (size : nat) (obj file : string) : bool * string :=
  if Nat.leb size (String.length file)
  then (true, String.substring 0 size file)
  else (false, file ++ advance (String.length file) obj).

(** Modelled from the spec: [magic] is the first field of
    [audit_baseline_t] (the struct is declared in [include/audit.h]),
    so [baseline->magic] is the first 8 bytes of the object. *)
Definition magic_bytes (obj : string) : string := String.substring 0 8 obj.

(** [load_audit_baseline (baseline)]: the result and the bytes of
    [*baseline] after the call; [obj] is the object before the call. *)
Definition load_audit_baseline (obj : string) : bool * string :=
  match open_baseline with
  | None => (false, obj)
  | Some fp =>
      let '(ok, obj) := fread_one sizeof_baseline obj fp in
      if negb ok then (false, obj)
      else if negb (String.eqb (magic_bytes obj) AUDIT_BASELINE_MAGIC)
      then (false, obj)
      else (true, obj)
  end.

(** One exponential-moving-average step
    [(current * EMA_ALPHA) + (avg * (1 - EMA_ALPHA))]. *)
Definition ema (current : Z) (avg : F32.float) : F32.float :=
  F32.add (F32.mul (F32.of_int current) EMA_ALPHA)
          (F32.mul avg (F32.sub (F32.of_int 1) EMA_ALPHA)).

Definition update_audit_baseline (baseline : audit_baseline_t)
  (current : audit_summary_t) : IO audit_baseline_t :=
  baseline <-
    (if sample_count baseline =? 0 then
       (* First sample - initialize *)
       now <- time_now ;;
       ret {| magic := AUDIT_BASELINE_MAGIC;
              version := AUDIT_BASELINE_VERSION;
              created := now;
              updated := updated baseline;
              sample_count := sample_count baseline;
              avg_auth_failures := F32.of_int (auth_failures current);
              avg_sudo_count := F32.of_int (sudo_count current);
              avg_sensitive_access := F32.of_int (sensitive_file_count current);
              avg_tmp_executions := F32.of_int (tmp_executions current);
              avg_shell_spawns := F32.of_int (shell_spawns current) |}
     else
       (* EMA update *)
       ret {| magic := magic baseline;
              version := version baseline;
              created := created baseline;
              updated := updated baseline;
              sample_count := sample_count baseline;
              avg_auth_failures :=
                ema (auth_failures current) (avg_auth_failures baseline);
              avg_sudo_count :=
                ema (sudo_count current) (avg_sudo_count baseline);
              avg_sensitive_access :=
                ema (sensitive_file_count current) (avg_sensitive_access baseline);
              avg_tmp_executions :=
                ema (tmp_executions current) (avg_tmp_executions baseline);
              avg_shell_spawns :=
                ema (shell_spawns current) (avg_shell_spawns baseline) |}) ;;
  now <- time_now ;;
  ret {| magic := magic baseline;
         version := version baseline;
         created := created baseline;
         updated := now;
         sample_count := CInt.incr (sample_count baseline);
         avg_auth_failures := avg_auth_failures baseline;
         avg_sudo_count := avg_sudo_count baseline;
         avg_sensitive_access := avg_sensitive_access baseline;
         avg_tmp_executions := avg_tmp_executions baseline;
         avg_shell_spawns := avg_shell_spawns baseline |}.

(** *** Probe *)

(** [audit_baseline_t baseline = {0}] *)
Definition zeroed_baseline_bytes : string :=
  string_of_list_ascii (repeat NUL sizeof_baseline).

(** [None] is the NULL returned when [calloc] fails. *)
Definition probe_audit (window_seconds : Z) : IO (option audit_summary_t) :=
  if negb (calloc_ok sys) then ret None
  else
    let summary := zeroed_summary in
    let summary := set_enabled true summary in
    let summary := set_period_seconds window_seconds summary in
    now <- time_now ;;
    let summary := set_capture_time now summary in
    (* Check if auditd is available *)
    if negb (access_R_OK sys "/var/log/audit/audit.log") then
      ret (Some (set_enabled false summary))
    else
      (* Build SYSCALL context first *)
      clear_event_ctx ;;;
      parse_syscall_context window_seconds ;;;
      (* Parse various event types *)
      let summary := parse_auth_events summary window_seconds in
      let summary := parse_priv_events summary window_seconds in
      summary <- parse_file_events summary window_seconds ;;
      let summary := parse_exec_events summary window_seconds in
      let summary := check_security_framework summary in
      (* Clean up event context *)
      clear_event_ctx ;;;
      (* Load baseline and detect anomalies *)
      let '(loaded, baseline) := load_audit_baseline zeroed_baseline_bytes in
      summary <-
        (if loaded
         then detect_anomalies summary (Some (baseline_of_bytes baseline))
         else ret summary) ;;
      (* Calculate overall risk score *)
      ret (Some (calculate_risk_score summary)).

End Audit.

(** ** Writing the baseline file *)

(** What the file system lets [save_audit_baseline] do: whether
    [fopen (path, "wb")] succeeds at the moment the call is made (for
    the user path, after the [mkdir]), whether the [fwrite] that
    follows reports one item written, and the bytes that the file
    holds once it is closed, given the bytes handed to [fwrite]. *)
Record Disk := {
  fopen_w : string -> bool;
  fwrite_one : string -> bool;
  stored : string -> string -> string
}.

(** The calls of [save_audit_baseline] that change the file system. *)
Inductive fs_call : Set :=
| Mkdir (dir : string) (mode : Z)
| Store (path : string) (content : string)
| Chmod (path : string) (mode : Z).

Section AuditStore.

Context {hdr : AuditHeader}.
Variable sys : Env.
Variable disk : Disk.

(** [save_audit_baseline (baseline)]: the result and the calls made;
    [obj] holds the bytes of [*baseline].  A file opened with "wb" is
    truncated at once, so a failed [fwrite] still leaves a [Store]. *)
Definition save_audit_baseline (obj : string) : bool * list fs_call :=
  let bytes := String.substring 0 sizeof_baseline obj in
  let write (path : string) (calls : list fs_call) : bool * list fs_call :=
    let calls := (calls ++ [Store path (stored disk path bytes)])%list in
    if negb (fwrite_one disk path) then (false, calls)
    else (true, (calls ++ [Chmod path 384])%list) in
  let path := strn (MAX_PATH_LEN - 1) AUDIT_BASELINE_PATH_SYSTEM in
  if fopen_w disk path then write path []
  else
    match getenv sys "HOME" with
    | None => (false, [])
    | Some home =>
        (* Ensure .sentinel directory exists *)
        let dir := strn (MAX_PATH_LEN - 1) (c_str home ++ "/.sentinel") in
        let calls := [Mkdir dir 448] in
        let path :=
          strn (MAX_PATH_LEN - 1)
               (c_str home ++ "/" ++ AUDIT_BASELINE_PATH_USER) in
        if fopen_w disk path then write path calls
        else (false, calls)
    end.

End AuditStore.

(** The files seen by later reads once the calls have been made: a
    stored file is read back with the content it was left with. *)
Fixpoint after_calls (calls : list fs_call) (sys : Env) : Env :=
  match calls with
  | [] => sys
  | Store path content :: calls' =>
      after_calls calls'
        {| calloc_ok := calloc_ok sys;
           popen_r := popen_r sys;
           fopen_r := fun p => if String.eqb p path then Some content
                               else fopen_r sys p;
           access_R_OK := access_R_OK sys;
           getenv := getenv sys;
           time_at := time_at sys |}
  | _ :: calls' => after_calls calls' sys
  end.

(** ** A concrete header and host, for evaluating the code *)

Module Host.

(** Little-endian reading of a byte string as an unsigned integer. *)
Fixpoint le_uint (s : string) : Z :=
  match s with
  | EmptyString => 0
  | String c t => Z.of_nat (nat_of_ascii c) + 256 * le_uint t
  end.

Definition le_sint (bits : Z) (s : string) : Z :=
  let u := le_uint s in
  if u <? 2 ^ (bits - 1) then u else u - 2 ^ bits.

(** The binary32 value with the given bit pattern. *)
Definition float_of_bits (b : Z) : F32.float :=
  let sign := Z.testbit b 31 in
  let e := Z.land (Z.shiftr b 23) 255 in
  let m := Z.land b (2 ^ 23 - 1) in
  if e =? 255 then (if m =? 0 then S754_infinity sign else S754_nan)
  else if e =? 0 then
    match m with
    | Zpos p => S754_finite sign p (-149)
    | _ => S754_zero sign
    end
  else
    match m + 2 ^ 23 with
    | Zpos p => S754_finite sign p (e - 150)
    | _ => S754_nan
    end.

(** The [n] little-endian bytes of an unsigned integer. *)
Fixpoint le_bytes (n : nat) (z : Z) : string :=
  match n with
  | O => EmptyString
  | S n' => String (ascii_of_nat (Z.to_nat (z mod 256))) (le_bytes n' (z / 256))
  end.

Definition field (off len : nat) (obj : string) : string :=
  String.substring off len obj.

(** [audit_baseline_t] as laid out on x86-64: [magic] at 0, [version]
    at 8, [created] at 16, [updated] at 24, [sample_count] at 32 and
    the five averages from 36; 56 bytes. *)
Definition decode_baseline (obj : string) : audit_baseline_t :=
  {| magic := field 0 8 obj;
     version := le_sint 32 (field 8 4 obj);
     created := le_sint 64 (field 16 8 obj);
     updated := le_sint 64 (field 24 8 obj);
     sample_count := le_sint 32 (field 32 4 obj);
     avg_auth_failures := float_of_bits (le_uint (field 36 4 obj));
     avg_sudo_count := float_of_bits (le_uint (field 40 4 obj));
     avg_sensitive_access := float_of_bits (le_uint (field 44 4 obj));
     avg_tmp_executions := float_of_bits (le_uint (field 48 4 obj));
     avg_shell_spawns := float_of_bits (le_uint (field 52 4 obj)) |}.

Definition hex_digit (n : Z) : ascii :=
  ascii_of_nat (Z.to_nat (if n <? 10 then 48 + n else 87 + n)).

(** A stand-in for the SHA-256 collaborator: 64 hexadecimal digits
    of a polynomial checksum of the input. *)
Definition toy_digest (s : string) : string :=
  let n := fold_left
             (fun h c => (h * 1000003 + Z.of_nat (nat_of_ascii c)) mod 2 ^ 256)
             (list_ascii_of_string s) 7 in
  string_of_list_ascii
    (map (fun i => hex_digit (Z.land (Z.shiftr n (4 * Z.of_nat i)) 15)) (seq 0 64)).

(** The header of the concrete host.  The capacities are kept small so
    that the overflow paths can be evaluated on short streams; the
    process-chain collaborators are the trivial ones. *)
#[export] Instance header : AuditHeader :=
  {| MAX_AUDIT_USERS := 4;
     MAX_AUDIT_FILES := 3;
     MAX_AUDIT_ANOMALIES := 8;
     HASH_USERNAME_LEN := 16;
     AUDIT_PATH_LEN := 256;
     MAX_PATH_LEN := 4096;
     sizeof_fa_process := 32;
     sizeof_chain_name := 32;
     sizeof_an_type := 32;
     sizeof_an_description := 128;
     sizeof_an_severity := 16;
     sizeof_baseline := 56;
     baseline_of_bytes := decode_baseline;
     sha256_string := toy_digest;
     build_process_chain := fun _ chain => chain;
     is_suspicious_chain := fun _ => false |}.

(** A host with a readable audit log where every query succeeds with
    no matching record, no SELinux and no baseline file. *)
Definition quiet_popen (cmd : string) : option string :=
  if String.eqb cmd cmd_sudo || String.eqb cmd cmd_su
     || String.eqb cmd cmd_shell || String.eqb cmd cmd_avc
     || String.eqb cmd cmd_apparmor
  then Some (String "0" (String LF EmptyString))
  else Some EmptyString.

Definition quiet : Env :=
  {| calloc_ok := true;
     popen_r := quiet_popen;
     fopen_r := fun _ => None;
     access_R_OK := fun _ => true;
     getenv := fun _ => None;
     time_at := fun n => 1767386347 + Z.of_nat n |}.

(** [sys] with the output of one command replaced. *)
Definition with_output (cmd out : string) (sys : Env) : Env :=
  {| calloc_ok := calloc_ok sys;
     popen_r := fun c => if String.eqb c cmd then Some out else popen_r sys c;
     fopen_r := fopen_r sys;
     access_R_OK := access_R_OK sys;
     getenv := getenv sys;
     time_at := time_at sys |}.

Definition boot : World := {| event_ctx := []; clock := 0 |}.

End Host.

(** * Vocabulary of the properties *)

(** ** Views of the summary *)

(** The summary as set up by [probe_audit] before any parser runs. *)
Definition init_summary (window_seconds now : Z) : audit_summary_t :=
  set_capture_time now
    (set_period_seconds window_seconds (set_enabled true zeroed_summary)).

(** The fields written by the authentication parser. *)
Definition auth_view (s : audit_summary_t) : Z * list hashed_user_t * bool :=
  (auth_failures s, failure_users s, brute_force_detected s).

(** The fields written by the anomaly detector. *)
Definition baseline_view (s : audit_summary_t)
  : list audit_anomaly_t * F32.float * F32.float * F32.float * F32.float :=
  (anomalies s, auth_baseline_avg s, auth_deviation_pct s,
   sudo_baseline_avg s, sudo_deviation_pct s).

(** ** Binary32 *)

(** The normal form of a positive integer below [2^24]. *)
Definition normal_form (v : Z) : F32.float :=
  S754_finite false (Z.to_pos (v * 2 ^ (23 - Z.log2 v))) (Z.log2 v - 23).

(** ** Risk score and level *)

(** The classification of the specification: critical from 31, high
    from 16, medium from 6, low below. *)
Definition risk_level_of_score (score : Z) : string :=
  if score >=? 31 then "critical"
  else if score >=? 16 then "high"
  else if score >=? 6 then "medium"
  else "low".

Definition risk_levels : list string := ["low"; "medium"; "high"; "critical"].

(** Position of a level on the ladder. *)
Definition level_rank (level : string) : Z :=
  if String.eqb level "critical" then 3
  else if String.eqb level "high" then 2
  else if String.eqb level "medium" then 1
  else 0.

(** The multiplier of the authentication deviation. *)
Definition auth_multiplier (deviation_pct : F32.float) : Z :=
  if F32.gt deviation_pct F32.c500 then 5
  else if F32.gt deviation_pct F32.c200 then 3
  else if F32.gt deviation_pct F32.c100 then 2
  else 1.

(** The multiplication as the code performs it: through binary32. *)
Definition apply_multiplier (deviation_pct : F32.float) (acc : Z) : Z :=
  if F32.gt deviation_pct F32.c500 then scale acc F32.c5
  else if F32.gt deviation_pct F32.c200 then scale acc F32.c3
  else if F32.gt deviation_pct F32.c100 then scale acc F32.c2
  else acc.

(** Contribution of the sensitive files: 2 per entry, 5 more when it
    is suspicious. *)
Fixpoint files_term (l : list file_access_t) : Z :=
  match l with
  | [] => 0
  | fa :: l' => 2 + (if fa_suspicious fa then 5 else 0) + files_term l'
  end.

(** The terms that enter the score after the multiplier: sudo spike,
    su, file integrity, process activity, security framework. *)
Definition later_terms (s : audit_summary_t) : Z :=
  (if F32.gt (sudo_deviation_pct s) F32.c200 then 5 else 0)
  + su_count s * 2
  + permission_changes s * 3 + ownership_changes s * 3
  + files_term (sensitive_files s)
  + tmp_executions s * 4 + devshm_executions s * 6
  + suspicious_exec_count s * 10
  + selinux_avc_denials s * 1 + apparmor_denials s * 1.

(** Every field that contributes to the score after the multiplier is
    zero. *)
Definition later_fields_zero (s : audit_summary_t) : Prop :=
  sudo_deviation_pct s = F32.zero /\ su_count s = 0 /\
  permission_changes s = 0 /\ ownership_changes s = 0 /\
  sensitive_files s = [] /\ tmp_executions s = 0 /\
  devshm_executions s = 0 /\ suspicious_exec_count s = 0 /\
  selinux_avc_denials s = 0 /\ apparmor_denials s = 0.

(** ** Baseline update *)

(** The update rule as the specification words it:
    [0.2 * sample + 0.8 * old], in binary32 arithmetic. *)
Definition ema_spec (sample : Z) (old : F32.float) : F32.float :=
  F32.add (F32.mul F32.c0_2 (F32.of_int sample)) (F32.mul F32.c0_8 old).

(** ** File parser *)

(** The slot an entry is correlated with: present, with a non-empty
    [comm]. *)
Definition correlated (ctx : option audit_event_ctx_t) : option audit_event_ctx_t :=
  match ctx with
  | Some c => if Nat.ltb 0 (strlen (ctx_comm c)) then Some c else None
  | None => None
  end.

(** The process chain built for a correlated slot. *)
Definition chain_of {hdr : AuditHeader} (c : audit_event_ctx_t) : process_chain_t :=
  let chain := {| pc_names := [strn (sizeof_chain_name - 1) (ctx_comm c)];
                  pc_depth := 1 |} in
  if 1 <? ctx_ppid c then build_process_chain (ctx_ppid c) chain else chain.

(** The chain check answered true for the correlated slot. *)
Definition chain_flagged {hdr : AuditHeader} (ctx : option audit_event_ctx_t) : bool :=
  match correlated ctx with
  | Some c => is_suspicious_chain (chain_of c)
  | None => false
  end.

(** The shadow/sudoers rule. *)
Definition names_sensitive (path : string) : bool :=
  is_some (strstr path "shadow") || is_some (strstr path "sudoers").

(** The header [hdr] with another chain check. *)
Definition with_chain_check (f : process_chain_t -> bool) (hdr : AuditHeader)
  : AuditHeader :=
  {| MAX_AUDIT_USERS := MAX_AUDIT_USERS;
     MAX_AUDIT_FILES := MAX_AUDIT_FILES;
     MAX_AUDIT_ANOMALIES := MAX_AUDIT_ANOMALIES;
     HASH_USERNAME_LEN := HASH_USERNAME_LEN;
     AUDIT_PATH_LEN := AUDIT_PATH_LEN;
     MAX_PATH_LEN := MAX_PATH_LEN;
     sizeof_fa_process := sizeof_fa_process;
     sizeof_chain_name := sizeof_chain_name;
     sizeof_an_type := sizeof_an_type;
     sizeof_an_description := sizeof_an_description;
     sizeof_an_severity := sizeof_an_severity;
     sizeof_baseline := sizeof_baseline;
     baseline_of_bytes := baseline_of_bytes;
     sha256_string := sha256_string;
     build_process_chain := build_process_chain;
     is_suspicious_chain := f |}.

(** The path that the file parser extracts from a line: the text
    between the first name= with an opening quote and the closing
    quote, cut to the path buffer. *)
Definition line_path {hdr : AuditHeader} (line : string) : option string :=
  match strstr line ("name=" ++ dq) with
  | Some name => Some (copy_until_quote (AUDIT_PATH_LEN - 1) (advance 6 name))
  | None => None
  end.

(** The path for which a line makes the parser append an entry: more
    than five characters, no slash at the end, room in
    [sensitive_files], and not listed there yet. *)
Definition new_path {hdr : AuditHeader} (s : audit_summary_t) (line : string)
  : option string :=
  match line_path line with
  | Some path =>
      if Nat.ltb 5 (strlen path) && last_is_not_slash path
         && (sensitive_file_count s <? MAX_AUDIT_FILES)
         && negb (existsb (fun fa => String.eqb (fa_path fa) path)
                    (sensitive_files s))
      then Some path
      else None
  | None => None
  end.

(** The slot of the event table that a line is correlated with: the
    first slot in use for the serial of the line; when there is none,
    the empty slot created for the serial if the table has room.  A
    line without a serial has no slot. *)
Definition line_slot (line : string) (w : World) : option audit_event_ctx_t :=
  let event_id := extract_event_id line in
  if 0 <=? event_id then
    match find (fun c => ctx_used c && (ctx_event_id c =? event_id))
               (event_ctx w) with
    | Some c => Some c
    | None =>
        if MAX_AUDIT_EVENTS <=? event_ctx_count w then None
        else Some (fresh_ctx event_id)
    end
  else None.

(** No slot of the event table carries a process name. *)
Definition no_context (w : World) : Prop :=
  Forall (fun c => ctx_comm c = EmptyString) (event_ctx w).

(** An entry whose flag is the shadow/sudoers rule alone. *)
Definition flagged_by_path (fa : file_access_t) : Prop :=
  fa_suspicious fa = names_sensitive (fa_path fa).

(** ** Authentication parser *)

(** The line reports a failed authentication. *)
Definition failed (line : string) : bool := is_some (strstr line "res=failed").

(** The account name the parser extracts from a line, when the line
    has a quoted, non-empty [acct] field. *)
Definition acct_of (line : string) : option string :=
  match strstr line ("acct=" ++ dq) with
  | Some acct =>
      let username := copy_until_quote 63 (advance 6 acct) in
      if Nat.ltb 0 (strlen username) then Some username else None
  | None => None
  end.

(** The account names of the failed lines, in order. *)
Definition failing_users (lines : list string) : list string :=
  flat_map (fun line =>
              if failed line
              then match acct_of line with Some u => [u] | None => [] end
              else []) lines.

(** The sum of the [count] fields of [failure_users]. *)
Fixpoint sum_counts (l : list hashed_user_t) : Z :=
  match l with
  | [] => 0
  | u :: l' => hu_count u + sum_counts l'
  end.

(** The lines the authentication parser reads on a host. *)
Definition auth_lines (sys : Env) : list string :=
  match popen_r sys cmd_auth with
  | Some out => fgets_all 2048 out
  | None => []
  end.

(** The loop invariant behind the inequality: counts are non-negative,
    their sum is at most [auth_failures], which is at most the number
    [n] of lines read so far. *)
Definition counts_bounded (s : audit_summary_t) (n : Z) : Prop :=
  Forall (fun u => 0 <= hu_count u) (failure_users s) /\
  sum_counts (failure_users s) <= auth_failures s /\
  0 <= auth_failures s <= n.

(** The loop invariant behind the equality: every failure was credited
    to a user, and the tags stored are distinct tags of [L]. *)
Definition counts_exact (L : list string) (s : audit_summary_t) : Prop :=
  sum_counts (failure_users s) = auth_failures s /\
  NoDup (map hu_hash (failure_users s)) /\
  incl (map hu_hash (failure_users s)) L.

(** ** Scenarios *)

(** A host on which only the execve query finds something: the audit
    log is readable, every other query runs and finds nothing, and no
    file (SELinux status, baseline) can be opened. *)
Definition only_exec_activity (sys : Env) : Prop :=
  calloc_ok sys = true /\
  access_R_OK sys "/var/log/audit/audit.log" = true /\
  (forall cmd, cmd <> cmd_exec -> popen_r sys cmd = Host.quiet_popen cmd) /\
  (forall path, fopen_r sys path = None).

(** What the specification's scenario expects of the summary. *)
Definition devshm_expectation (s : audit_summary_t) : Prop :=
  devshm_executions s = 1 /\
  (exists a, In a (anomalies s) /\ an_type a = "devshm_execution" /\
             an_severity a = "CRITICAL" /\ an_deviation_pct a = F32.c100) /\
  risk_score s = 6 /\ risk_level s = "medium".

(** The filter of the execve query, [grep -E 'name=(/tmp/|/dev/shm/)']:
    the lines it lets through to the parser. *)
Definition grep_exec (line : string) : bool :=
  is_some (strstr line "name=/tmp/") || is_some (strstr line "name=/dev/shm/").

(** One execve record naming a file under /dev/shm, as [ausearch -i]
    prints it: the name of a plain path carries no quotes. *)
Definition devshm_record : string :=
  "type=PATH msg=audit(01/02/2026 20:39:07.120:631) : item=0 name=/dev/shm/x inode=1042 dev=00:19 mode=file,755 ouid=root ogid=root nametype=NORMAL"
  ++ String LF EmptyString.

Definition devshm_host : Env := Host.with_output cmd_exec devshm_record Host.quiet.

(** The same record with the name in quotes, as the raw format would
    have it. *)
Definition quoted_devshm_record : string :=
  "type=PATH msg=audit(01/02/2026 20:39:07.120:631) : item=0 name="
  ++ dq ++ "/dev/shm/x" ++ dq
  ++ " inode=1042 dev=00:19 mode=file,755 ouid=root ogid=root nametype=NORMAL"
  ++ String LF EmptyString.

(** The scenario of the deviation multiplier: 20 failures, brute-force
    flag, deviation 900. *)
Definition spike_summary : audit_summary_t :=
  set_auth_deviation_pct (F32.of_int 900)
    (set_brute_force_detected true (set_auth_failures 20 zeroed_summary)).

(** A baseline four samples old, and a summary that would raise two
    anomalies against an older one. *)
Definition young_baseline : audit_baseline_t :=
  {| magic := AUDIT_BASELINE_MAGIC; version := AUDIT_BASELINE_VERSION;
     created := 1767300000; updated := 1767380000; sample_count := 4;
     avg_auth_failures := F32.of_int 2; avg_sudo_count := F32.of_int 1;
     avg_sensitive_access := F32.zero; avg_tmp_executions := F32.zero;
     avg_shell_spawns := F32.zero |}.

Definition busy_summary : audit_summary_t :=
  set_devshm_executions 1 (set_auth_failures 20 zeroed_summary).

(** A host whose audit log cannot be read. *)
Definition no_audit_log : Env :=
  {| calloc_ok := true;
     popen_r := popen_r Host.quiet;
     fopen_r := fopen_r Host.quiet;
     access_R_OK := fun _ => false;
     getenv := getenv Host.quiet;
     time_at := time_at Host.quiet |}.

(** One [USER_AUTH] record for a failed or successful authentication of
    [acct]. *)
Definition user_auth_record (acct res : string) : string :=
  "type=USER_AUTH msg=audit(1767386347.120:631): pid=812 uid=0 auid=4294967295 msg='op=PAM:authentication acct="
  ++ dq ++ acct ++ dq ++ " exe=" ++ dq ++ "/usr/sbin/sshd" ++ dq
  ++ " hostname=10.0.0.7 terminal=ssh res=" ++ res ++ "'"
  ++ String LF EmptyString.

(** Seven failures and one success for the same account. *)
Definition brute_force_stream : string :=
  String.concat EmptyString
    (repeat (user_auth_record "alice" "failed") 7
     ++ [user_auth_record "alice" "success"]).

Definition brute_force_host : Env :=
  Host.with_output cmd_auth brute_force_stream Host.quiet.

(** A failed authentication whose account name auditd logged in
    hexadecimal, without quotes. *)
Definition unquoted_acct_record : string :=
  "type=USER_AUTH msg=audit(1767386347.120:640): pid=812 uid=0 auid=4294967295 msg='op=PAM:authentication acct=28696E76616C6964207573657229 exe="
  ++ dq ++ "/usr/sbin/sshd" ++ dq
  ++ " hostname=10.0.0.7 terminal=ssh res=failed'" ++ String LF EmptyString.

Definition unquoted_acct_host : Env :=
  Host.with_output cmd_auth unquoted_acct_record Host.quiet.

(** A 56-byte file that starts with GARBAGE! at the system path. *)
Definition garbage_file : string :=
  "GARBAGE!" ++ string_of_list_ascii (repeat NUL 48).

Definition garbage_host : Env :=
  {| calloc_ok := true;
     popen_r := popen_r Host.quiet;
     fopen_r := fun path =>
                  if String.eqb path AUDIT_BASELINE_PATH_SYSTEM
                  then Some garbage_file else None;
     access_R_OK := access_R_OK Host.quiet;
     getenv := getenv Host.quiet;
     time_at := time_at Host.quiet |}.

(** A file cut short after twelve bytes, at the system path. *)
Definition truncated_file : string :=
  "SNTLAUDT" ++ string_of_list_ascii (repeat NUL 4).

Definition truncated_host : Env :=
  {| calloc_ok := true;
     popen_r := popen_r Host.quiet;
     fopen_r := fun path =>
                  if String.eqb path AUDIT_BASELINE_PATH_SYSTEM
                  then Some truncated_file else None;
     access_R_OK := access_R_OK Host.quiet;
     getenv := getenv Host.quiet;
     time_at := time_at Host.quiet |}.

(** One PATH record of the identity watch. *)
Definition path_record (serial path : string) : string :=
  "type=PATH msg=audit(1767386347.120:" ++ serial ++ "): item=0 name="
  ++ dq ++ path ++ dq
  ++ " inode=1042 dev=fd:00 mode=0100640 ouid=0 ogid=42 nametype=NORMAL"
  ++ String LF EmptyString.

(** The header of the concrete host with a chain check that flags
    every chain, and a PATH record for /etc/shadow whose event has no
    SYSCALL record. *)
Definition wary_header : AuditHeader :=
  with_chain_check (fun _ => true) Host.header.

Definition shadow_line : string := path_record "41" "/etc/shadow".

(** As many distinct paths as [sensitive_files] holds in [Host.header]
    (three), then the first path again. *)
Definition full_then_repeat_stream : string :=
  path_record "41" "/etc/shadow" ++ path_record "42" "/etc/passwd"
  ++ path_record "43" "/etc/group" ++ path_record "44" "/etc/shadow".

Definition full_then_repeat_host : Env :=
  Host.with_output cmd_file full_then_repeat_stream Host.quiet.

(** A baseline file ten samples old whose average of authentication
    failures is 2.0 (bit pattern 0x40000000), and a host that has it at
    the system path and reports twenty failed authentications. *)
Definition seasoned_baseline_file : string :=
  AUDIT_BASELINE_MAGIC ++ Host.le_bytes 4 1 ++ Host.le_bytes 4 0
  ++ Host.le_bytes 8 1766000000 ++ Host.le_bytes 8 1767300000
  ++ Host.le_bytes 4 10
  ++ Host.le_bytes 4 1073741824 ++ Host.le_bytes 16 0.

Definition spike_host : Env :=
  {| calloc_ok := true;
     popen_r :=
       popen_r
         (Host.with_output cmd_auth
            (String.concat EmptyString
               (repeat (user_auth_record "alice" "failed") 20))
            Host.quiet);
     fopen_r := fun path =>
                  if String.eqb path AUDIT_BASELINE_PATH_SYSTEM
                  then Some seasoned_baseline_file else None;
     access_R_OK := access_R_OK Host.quiet;
     getenv := getenv Host.quiet;
     time_at := time_at Host.quiet |}.

(** The SYSCALL record of event 42, and a host where the PATH record
    of the same event names /etc/shadow. *)
Definition syscall_record : string :=
  "type=SYSCALL msg=audit(1767386347.120:42): arch=c000003e syscall=257 success=yes exit=3 ppid=1000 pid=999 auid=1000 uid=0 comm="
  ++ dq ++ "vim" ++ dq ++ " exe=" ++ dq ++ "/usr/bin/vim" ++ dq
  ++ " key=" ++ dq ++ "identity" ++ dq ++ String LF EmptyString.

Definition correlated_host : Env :=
  Host.with_output cmd_syscall syscall_record
    (Host.with_output cmd_file (path_record "42" "/etc/shadow") Host.quiet).

(** The first sample of a new baseline: 3 failures, 1 sudo. *)
Definition first_sample : audit_summary_t :=
  set_sudo_count 1 (set_auth_failures 3 zeroed_summary).

Definition empty_baseline : audit_baseline_t :=
  {| magic := EmptyString; version := 0; created := 0; updated := 0;
     sample_count := 0;
     avg_auth_failures := F32.zero; avg_sudo_count := F32.zero;
     avg_sensitive_access := F32.zero; avg_tmp_executions := F32.zero;
     avg_shell_spawns := F32.zero |}.

(** ** Stages of the probe and the fields they own *)

(** The summary with the fields owned by one stage blanked out: two
    summaries that agree after blanking differ at most in the fields
    of that stage. *)
Definition outside_auth (s : audit_summary_t) : audit_summary_t :=
  set_brute_force_detected false
    (set_failure_users [] (set_auth_successes 0 (set_auth_failures 0 s))).

Definition outside_priv (s : audit_summary_t) : audit_summary_t :=
  set_su_count 0 (set_sudo_count 0 s).

Definition outside_file (s : audit_summary_t) : audit_summary_t :=
  set_suspicious_exec_count 0 (set_sensitive_files [] s).

Definition outside_exec (s : audit_summary_t) : audit_summary_t :=
  set_shell_spawns 0 (set_devshm_executions 0 (set_tmp_executions 0 s)).

Definition outside_security (s : audit_summary_t) : audit_summary_t :=
  set_apparmor_denials 0
    (set_selinux_avc_denials 0 (set_selinux_enforcing false s)).

Definition outside_detect (s : audit_summary_t) : audit_summary_t :=
  set_anomalies []
    (set_sudo_deviation_pct F32.zero
       (set_sudo_baseline_avg F32.zero
          (set_auth_deviation_pct F32.zero
             (set_auth_baseline_avg F32.zero s)))).

Definition outside_risk (s : audit_summary_t) : audit_summary_t :=
  set_risk_level EmptyString (set_risk_score 0 s).

(** The fields that no stage after the set-up of [probe_audit] owns. *)
Definition unowned_view (s : audit_summary_t) : bool * Z * Z * Z * Z :=
  (enabled s, period_seconds s, capture_time s,
   permission_changes s, ownership_changes s).

(** ** Event context cache *)

(** A slot as the parsers leave it: in use, for a non-negative serial,
    [comm] and [exe] within their buffers of 32 and 256 bytes. *)
Definition ctx_slot_ok (c : audit_event_ctx_t) : Prop :=
  ctx_used c = true /\ 0 <= ctx_event_id c /\
  (String.length (ctx_comm c) <= 31)%nat /\
  (String.length (ctx_exe c) <= 255)%nat.

(** The table as the parsers leave it: within capacity, every slot as
    above, no serial in two slots. *)
Definition ctx_table_ok (t : list audit_event_ctx_t) : Prop :=
  Z.of_nat (List.length t) <= MAX_AUDIT_EVENTS /\
  Forall ctx_slot_ok t /\
  NoDup (map ctx_event_id t).

(** The world after one more call of [time]. *)
Definition tick (w : World) : World :=
  {| event_ctx := event_ctx w; clock := S (clock w) |}.

(** ** Tallies of the line-oriented parsers *)



Definition names_tmp (line : string) : bool := is_some (strstr line "/tmp/").




(** ** Entries of [sensitive_files] *)

(** An entry as the file parser leaves it: a path of more than five
    characters that does not end in a slash and fits its buffer, the
    access type write, a process name that fits its buffer. *)
Definition file_entry_ok {hdr : AuditHeader} (fa : file_access_t) : Prop :=
  (5 < String.length (fa_path fa))%nat /\
  last_is_not_slash (fa_path fa) = true /\
  (String.length (fa_path fa) <= AUDIT_PATH_LEN - 1)%nat /\
  fa_access_type fa = "write" /\
  (String.length (fa_process fa) <= sizeof_fa_process - 1)%nat.

(** Records for a directory, a short name and a regular file. *)
Definition filtered_stream : string :=
  path_record "51" "/etc/ssh/" ++ path_record "52" "/etc"
  ++ path_record "53" "/etc/passwd".

Definition filtered_host : Env :=
  Host.with_output cmd_file filtered_stream Host.quiet.

(** ** Anomaly detection *)

(** The four anomalies that [detect_anomalies] can raise, in the order
    in which it considers them. *)
Inductive anomaly_kind : Set :=
| Auth_failure_spike
| Sudo_spike
| Tmp_execution
| Devshm_execution.

Definition all_kinds : list anomaly_kind :=
  [Auth_failure_spike; Sudo_spike; Tmp_execution; Devshm_execution].

(** The deviations of the two counters that are compared with the
    baseline. *)
Definition auth_deviation (b : audit_baseline_t) (s : audit_summary_t) : F32.float :=
  calculate_deviation_pct (F32.of_int (auth_failures s)) (avg_auth_failures b).

Definition sudo_deviation (b : audit_baseline_t) (s : audit_summary_t) : F32.float :=
  calculate_deviation_pct (F32.of_int (sudo_count s)) (avg_sudo_count b).

(** The condition under which each anomaly is raised. *)
Definition fires (b : audit_baseline_t) (s : audit_summary_t) (k : anomaly_kind)
  : bool :=
  match k with
  | Auth_failure_spike => F32.gt (auth_deviation b s) F32.c100
  | Sudo_spike => F32.gt (sudo_deviation b s) F32.c200
  | Tmp_execution => 0 <? tmp_executions s
  | Devshm_execution => 0 <? devshm_executions s
  end.

(** The type, description, severity, current value, baseline value and
    deviation recorded for each anomaly. *)
Definition kind_type (k : anomaly_kind) : string :=
  match k with
  | Auth_failure_spike => "auth_failure_spike"
  | Sudo_spike => "sudo_spike"
  | Tmp_execution => "tmp_execution"
  | Devshm_execution => "devshm_execution"
  end.

Definition kind_description (b : audit_baseline_t) (s : audit_summary_t)
  (k : anomaly_kind) : string :=
  match k with
  | Auth_failure_spike =>
      strn 127 (fmt_d (auth_failures s) ++ " auth failures ("
                ++ fmt_f0 (auth_deviation b s) ++ "% above baseline)")
  | Sudo_spike =>
      strn 127 (fmt_d (sudo_count s) ++ " sudo commands ("
                ++ fmt_f0 (sudo_deviation b s) ++ "% above baseline)")
  | Tmp_execution =>
      strn 127 (fmt_d (tmp_executions s) ++ " executions from /tmp")
  | Devshm_execution =>
      strn 127 (fmt_d (devshm_executions s) ++ " executions from /dev/shm")
  end.

Definition kind_severity (b : audit_baseline_t) (s : audit_summary_t)
  (k : anomaly_kind) : string :=
  match k with
  | Auth_failure_spike => deviation_significance (auth_deviation b s)
  | Sudo_spike => deviation_significance (sudo_deviation b s)
  | Tmp_execution => "HIGH"
  | Devshm_execution => "CRITICAL"
  end.

Definition kind_current (s : audit_summary_t) (k : anomaly_kind) : F32.float :=
  match k with
  | Auth_failure_spike => F32.of_int (auth_failures s)
  | Sudo_spike => F32.of_int (sudo_count s)
  | Tmp_execution => F32.of_int (tmp_executions s)
  | Devshm_execution => F32.of_int (devshm_executions s)
  end.

Definition kind_baseline (b : audit_baseline_t) (k : anomaly_kind) : F32.float :=
  match k with
  | Auth_failure_spike => avg_auth_failures b
  | Sudo_spike => avg_sudo_count b
  | Tmp_execution | Devshm_execution => F32.of_int 0
  end.

Definition kind_deviation (b : audit_baseline_t) (s : audit_summary_t)
  (k : anomaly_kind) : F32.float :=
  match k with
  | Auth_failure_spike => auth_deviation b s
  | Sudo_spike => sudo_deviation b s
  | Tmp_execution | Devshm_execution => F32.c100
  end.

(** The record stored for an anomaly of kind [k] raised at time [now]. *)
Definition anomaly_of {hdr : AuditHeader} (b : audit_baseline_t)
  (s : audit_summary_t) (k : anomaly_kind) (now : Z) : audit_anomaly_t :=
  {| an_type := strn (sizeof_an_type - 1) (kind_type k);
     an_description := strn (sizeof_an_description - 1) (kind_description b s k);
     an_severity := strn (sizeof_an_severity - 1) (kind_severity b s k);
     an_current_value := kind_current s k;
     an_baseline_avg := kind_baseline b k;
     an_deviation_pct := kind_deviation b s k;
     an_timestamp := now |}.

(** The anomalies raised for the kinds [ks], considered in order, when
    the clock stands at [n] and the table holds [count] entries: one
    for each kind that fires while there is room, stamped with
    successive readings of the clock. *)
Fixpoint raise {hdr : AuditHeader} (sys : Env) (b : audit_baseline_t)
  (s : audit_summary_t) (ks : list anomaly_kind) (n : nat) (count : Z)
  : list audit_anomaly_t :=
  match ks with
  | [] => []
  | k :: ks' =>
      if fires b s k && (count <? MAX_AUDIT_ANOMALIES)
      then anomaly_of b s k (time_at sys n) :: raise sys b s ks' (S n) (count + 1)
      else raise sys b s ks' n count
  end.

(** The severities of an anomaly that is raised. *)
Definition raised_severities : list string := ["MEDIUM"; "HIGH"; "CRITICAL"].

(** One step of the detector: the anomaly of kind [k] is appended and
    stamped when it fires and the table has room. *)
Definition emit {hdr : AuditHeader} (sys : Env) (b : audit_baseline_t)
  (s : audit_summary_t) (k : anomaly_kind) (sw : audit_summary_t * World)
  : audit_summary_t * World :=
  if fires b s k && (anomaly_count (fst sw) <? MAX_AUDIT_ANOMALIES)
  then (set_anomalies
          (anomalies (fst sw)
           ++ [anomaly_of b s k (time_at sys (clock (snd sw)))]) (fst sw),
        tick (snd sw))
  else sw.

(** The counters that the detector reads and the comparison fields it
    writes. *)
Definition detector_view (s : audit_summary_t)
  : Z * Z * Z * Z * F32.float * F32.float * F32.float * F32.float :=
  (auth_failures s, sudo_count s, tmp_executions s, devshm_executions s,
   auth_baseline_avg s, auth_deviation_pct s,
   sudo_baseline_avg s, sudo_deviation_pct s).

(** A baseline ten samples old with averages of 2 failures and 1 sudo
    command, and one with all averages at zero. *)
Definition seasoned_baseline : audit_baseline_t :=
  {| magic := AUDIT_BASELINE_MAGIC; version := AUDIT_BASELINE_VERSION;
     created := 1766000000; updated := 1767300000; sample_count := 10;
     avg_auth_failures := F32.of_int 2; avg_sudo_count := F32.of_int 1;
     avg_sensitive_access := F32.zero; avg_tmp_executions := F32.zero;
     avg_shell_spawns := F32.zero |}.

Definition idle_baseline : audit_baseline_t :=
  {| magic := AUDIT_BASELINE_MAGIC; version := AUDIT_BASELINE_VERSION;
     created := 1766000000; updated := 1767300000; sample_count := 10;
     avg_auth_failures := F32.zero; avg_sudo_count := F32.zero;
     avg_sensitive_access := F32.zero; avg_tmp_executions := F32.zero;
     avg_shell_spawns := F32.zero |}.

(** A thousand failed authentications and nothing else. *)
Definition storm_summary : audit_summary_t :=
  set_auth_failures 1000 zeroed_summary.

(** ** Risk score without overflow *)

(** The counters that enter the risk score are non-negative. *)
Definition counters_nonneg (s : audit_summary_t) : Prop :=
  0 <= auth_failures s /\ 0 <= su_count s /\
  0 <= permission_changes s /\ 0 <= ownership_changes s /\
  0 <= tmp_executions s /\ 0 <= devshm_executions s /\
  0 <= suspicious_exec_count s /\
  0 <= selinux_avc_denials s /\ 0 <= apparmor_denials s.

(** Seven failures with the brute-force flag, no baseline. *)
Definition brute_force_summary : audit_summary_t :=
  set_brute_force_detected true (set_auth_failures 7 zeroed_summary).

(** ** Baseline store *)

(** The two paths of the baseline file, as the code builds them. *)
Definition system_path {hdr : AuditHeader} : string :=
  strn (MAX_PATH_LEN - 1) AUDIT_BASELINE_PATH_SYSTEM.

Definition user_path {hdr : AuditHeader} (home : string) : string :=
  strn (MAX_PATH_LEN - 1) (c_str home ++ "/" ++ AUDIT_BASELINE_PATH_USER).

Definition user_dir {hdr : AuditHeader} (home : string) : string :=
  strn (MAX_PATH_LEN - 1) (c_str home ++ "/.sentinel").

(** A call that changes the mode of a file. *)
Definition is_chmod (c : fs_call) : bool :=
  match c with Chmod _ _ => true | _ => false end.

(** A disk on which every file can be written, and one on which only
    files outside /var can. *)
Definition plain_disk : Disk :=
  {| fopen_w := fun _ => true;
     fwrite_one := fun _ => true;
     stored := fun _ bytes => bytes |}.

Definition user_disk : Disk :=
  {| fopen_w := fun path => negb (String.prefix "/var/" path);
     fwrite_one := fun _ => true;
     stored := fun _ bytes => bytes |}.

(** A host with a home directory and no baseline file yet. *)
Definition home_host : Env :=
  {| calloc_ok := true;
     popen_r := popen_r Host.quiet;
     fopen_r := fopen_r Host.quiet;
     access_R_OK := access_R_OK Host.quiet;
     getenv := fun name => if String.eqb name "HOME" then Some "/home/ada" else None;
     time_at := time_at Host.quiet |}.

(** The baseline after one update per sample, in order. *)
Definition feed_baseline (sys : Env) (b : audit_baseline_t)
  (samples : list audit_summary_t) : IO audit_baseline_t :=
  for_each (update_audit_baseline sys) b samples.

(** ** The probe as a pipeline *)

(** The summary after the five parsers of [probe_audit], starting from
    the world [w1] left by the SYSCALL pass. *)
Definition parsed_summary {hdr : AuditHeader} (sys : Env) (window_seconds now : Z)
  (w1 : World) : audit_summary_t * World :=
  let s0 := init_summary window_seconds now in
  let sa := parse_priv_events sys (parse_auth_events sys s0 window_seconds)
              window_seconds in
  let r := parse_file_events sys sa window_seconds w1 in
  (check_security_framework sys (parse_exec_events sys (fst r) window_seconds),
   snd r).



(** The end of [probe_audit]: the event table is cleared, anomalies
    are detected when a baseline loads, and the risk is scored. *)
Definition finish_probe {hdr : AuditHeader} (sys : Env)
  (p : audit_summary_t * World) : option audit_summary_t * World :=
  let w3 := {| event_ctx := []; clock := clock (snd p) |} in
  let '(loaded, bytes) := load_audit_baseline sys zeroed_baseline_bytes in
  let r := if loaded
           then detect_anomalies sys (fst p) (Some (baseline_of_bytes bytes)) w3
           else (fst p, w3) in
  (Some (calculate_risk_score (fst r)), snd r).

(** ** Decimal numbers in the streams *)

(** The string does not start with a decimal digit. *)
Definition no_digit_head (s : string) : Prop :=
  match s with
  | EmptyString => True
  | String c _ => digit_of c = None
  end.


Definition blanks (k : nat) : string :=
  string_of_list_ascii (repeat " "%char k).



(** * Properties *)

(** ** Arithmetic of [int] *)

(** Linear arithmetic with the bounds of [int] spelled out. *)
Ltac int_lia := unfold CInt.INT_MIN, CInt.INT_MAX in *; lia.

Lemma wrap_int_small (z : Z) :
  CInt.INT_MIN <= z <= CInt.INT_MAX -> CInt.wrap_int z = z.
Proof.
  unfold CInt.wrap_int, CInt.INT_MIN, CInt.INT_MAX. intros H.
  rewrite Z.mod_small; lia.
Qed.

(** Nested reductions collapse: only the final one matters. *)
Lemma wrap_int_add_l (a b : Z) :
  CInt.wrap_int (CInt.wrap_int a + b) = CInt.wrap_int (a + b).
Proof.
  unfold CInt.wrap_int. f_equal.
  replace ((a + 2 ^ 31) mod 2 ^ 32 - 2 ^ 31 + b + 2 ^ 31)
    with ((a + 2 ^ 31) mod 2 ^ 32 + b) by lia.
  rewrite Zplus_mod_idemp_l. f_equal. lia.
Qed.

Lemma wrap_int_add_r (a b : Z) :
  CInt.wrap_int (a + CInt.wrap_int b) = CInt.wrap_int (a + b).
Proof. rewrite Z.add_comm, wrap_int_add_l. f_equal. lia. Qed.

Lemma incr_small (z : Z) :
  CInt.INT_MIN <= z < CInt.INT_MAX -> CInt.incr z = z + 1.
Proof. intros H. unfold CInt.incr, CInt.add. apply wrap_int_small. lia. Qed.

(** ** Linear scans *)

Lemma find_index_bound {A} (p : A -> bool) (l : list A) (i j : nat) :
  find_index p l i = Some j -> (i <= j < i + List.length l)%nat.
Proof.
  revert i. induction l as [|x l IH]; intros i H; cbn in H; [discriminate|].
  destruct (p x).
  - inversion H; subst. cbn. lia.
  - apply IH in H. cbn. lia.
Qed.

Lemma find_index_none {A} (p : A -> bool) (l : list A) (i : nat) :
  find_index p l i = None -> forall x, In x l -> p x = false.
Proof.
  revert i. induction l as [|y l IH]; intros i H x Hin; [contradiction|].
  cbn in H. destruct (p y) eqn:Hy; [discriminate|].
  destruct Hin as [->|Hin]; [exact Hy|]. exact (IH _ H x Hin).
Qed.

Lemma find_index_find {A} (p : A -> bool) (l : list A) (k : nat) :
  match find_index p l k with
  | Some i => (k <= i)%nat /\ nth_error l (i - k) = find p l /\ find p l <> None
  | None => find p l = None
  end.
Proof.
  revert k. induction l as [|x l IH]; intros k; cbn; [reflexivity|].
  destruct (p x).
  - rewrite Nat.sub_diag. repeat split; [lia|discriminate].
  - specialize (IH (S k)). destruct (find_index p l (S k)) as [i|]; [|exact IH].
    destruct IH as (Hk & Hn & Hf). split; [lia|]. split; [|exact Hf].
    replace (i - k)%nat with (S (i - S k)) by lia. exact Hn.
Qed.

Lemma find_index_existsb {A} (p : A -> bool) (l : list A) (k : nat) :
  is_some (find_index p l k) = existsb p l.
Proof.
  revert k. induction l as [|x l IH]; intros k; cbn; [reflexivity|].
  destruct (p x); [reflexivity|apply IH].
Qed.

Lemma update_nth_Forall {A} (P : A -> Prop) (f : A -> A) (l : list A) (i : nat) :
  (forall x, P x -> P (f x)) -> Forall P l -> Forall P (update_nth i f l).
Proof.
  intros Hf H. revert i. induction H as [|x l Hx Hl IH]; intros i; [constructor|].
  destruct i; cbn; constructor; auto.
Qed.

Lemma update_nth_map {A B} (g : A -> B) (f : A -> A) (l : list A) (i : nat) :
  (forall x, g (f x) = g x) -> map g (update_nth i f l) = map g l.
Proof.
  intros Hf. revert i. induction l as [|x l IH]; intros i; [reflexivity|].
  destruct i; cbn; [rewrite Hf; reflexivity|]. f_equal. apply IH.
Qed.

(** ** Substrings *)

Lemma prefix_app_strstr (a b hay : string) :
  String.prefix (a ++ b) hay = true -> is_some (strstr hay b) = true.
Proof.
  revert hay. induction a as [|c a IH]; intros hay H.
  - cbn [append] in H. destruct hay; cbn [strstr]; rewrite H; reflexivity.
  - destruct hay as [|d hay]; [discriminate H|].
    cbn [append String.prefix] in H.
    destruct (ascii_dec c d); [|discriminate H].
    specialize (IH hay H). cbn [strstr].
    destruct (String.prefix b (String d hay)); [reflexivity|exact IH].
Qed.

(** A line that contains [a ++ b] contains [b]. *)
Lemma strstr_app_needle (a b hay : string) :
  is_some (strstr hay (a ++ b)) = true -> is_some (strstr hay b) = true.
Proof.
  induction hay as [|c t IH]; intros H.
  - cbn [strstr] in H.
    destruct (String.prefix (a ++ b) EmptyString) eqn:Hp; [|discriminate H].
    apply (prefix_app_strstr a b). exact Hp.
  - cbn [strstr] in H.
    destruct (String.prefix (a ++ b) (String c t)) eqn:Hp.
    + apply (prefix_app_strstr a b). exact Hp.
    + specialize (IH H). cbn [strstr].
      destruct (String.prefix b (String c t)); [reflexivity|exact IH].
Qed.

Lemma substring_app_left (a b : string) :
  String.substring 0 (String.length a) (a ++ b) = a.
Proof.
  induction a as [|c a IH]; cbn.
  - destruct b; reflexivity.
  - f_equal. exact IH.
Qed.

Lemma advance_app_left (a b : string) :
  advance (String.length a) (a ++ b) = b.
Proof. induction a as [|c a IH]; cbn; [reflexivity|exact IH]. Qed.

(** ** Binary32 arithmetic on small integers *)

(** [digits2_pos] is the bit length. *)
Lemma digits2_pos_log2 (p : positive) :
  Zpos (digits2_pos p) = Z.log2 (Zpos p) + 1.
Proof.
  induction p as [p IH|p IH|].
  - change (Z.log2 (Zpos p~1)) with (Zpos (Pos.size p)).
    cbn [digits2_pos]. rewrite Pos2Z.inj_succ, IH.
    destruct p; cbn; try lia.
  - change (Z.log2 (Zpos p~0)) with (Zpos (Pos.size p)).
    cbn [digits2_pos]. rewrite Pos2Z.inj_succ, IH.
    destruct p; cbn; try lia.
  - reflexivity.
Qed.

Lemma iter_pos_nat {A} (f : A -> A) (p : positive) (x : A) :
  iter_pos f p x = Nat.iter (Pos.to_nat p) f x.
Proof.
  revert x. induction p as [p IH|p IH|]; intros x; cbn [iter_pos].
  - rewrite !IH, Pos2Nat.inj_xI, <- Nat.iter_add, <- Nat.iter_succ_r.
    f_equal. lia.
  - rewrite !IH, Pos2Nat.inj_xO, <- Nat.iter_add. f_equal. lia.
  - reflexivity.
Qed.

Lemma shr_1_double (z : Z) :
  0 < z ->
  shr_1 {| shr_m := 2 * z; shr_r := false; shr_s := false |}
  = {| shr_m := z; shr_r := false; shr_s := false |}.
Proof. destruct z as [|q|q]; intros Hz; try lia. reflexivity. Qed.

(** Shifting out [n] zero bits is exact. *)
Lemma shr_zero_bits (n : nat) (z : Z) :
  0 < z ->
  Nat.iter n shr_1
    {| shr_m := z * 2 ^ Z.of_nat n; shr_r := false; shr_s := false |}
  = {| shr_m := z; shr_r := false; shr_s := false |}.
Proof.
  intros Hz. induction n as [|n IH].
  - cbn. f_equal. lia.
  - rewrite Nat.iter_succ_r.
    replace (z * 2 ^ Z.of_nat (S n)) with (2 * (z * 2 ^ Z.of_nat n))
      by (rewrite Nat2Z.inj_succ, Z.pow_succ_r by lia; ring).
    rewrite shr_1_double by (apply Z.mul_pos_pos; [lia|apply Z.pow_pos_nonneg; lia]).
    exact IH.
Qed.

(** Rounding a value [v * 2^j * 2^(-j)] that fits the 24-bit
    significand is exact and yields the normal form of [v]. *)
Lemma binary_round_aux_exact (s : bool) (m : positive) (v j : Z) :
  0 < v < 2 ^ 24 -> 0 <= j ->
  Zpos m = v * 2 ^ j ->
  23 - Z.log2 v <= j ->
  binary_round_aux F32.prec F32.emax s (Zpos m) (- j) loc_Exact
  = S754_finite s (Z.to_pos (v * 2 ^ (23 - Z.log2 v))) (Z.log2 v - 23).
Proof.
  intros Hv Hj Hm Hk.
  assert (Hlog : 0 <= Z.log2 v < 24).
  { split; [apply Z.log2_nonneg|]. apply Z.log2_lt_pow2; lia. }
  unfold binary_round_aux, shr_fexp, Zdigits2.
  rewrite digits2_pos_log2, Hm, Z.log2_mul_pow2 by lia.
  unfold fexp, emin, F32.prec, F32.emax.
  replace (Z.max (j + Z.log2 v + 1 + - j - 24) (3 - 128 - 24) - - j)
    with (j - (23 - Z.log2 v)) by lia.
  cbn [shr_record_of_loc].
  set (k := j - (23 - Z.log2 v)).
  set (v' := v * 2 ^ (23 - Z.log2 v)).
  assert (Hv' : 0 < v') by (apply Z.mul_pos_pos; [lia|apply Z.pow_pos_nonneg; lia]).
  assert (Hshr : shr {| shr_m := v * 2 ^ j; shr_r := false; shr_s := false |} (- j) k
                 = ({| shr_m := v'; shr_r := false; shr_s := false |}, Z.log2 v - 23)).
  { unfold shr. destruct k as [|p|p] eqn:Hkp.
    - f_equal; [|lia]. f_equal. unfold v'. f_equal. f_equal. lia.
    - rewrite iter_pos_nat.
      replace (v * 2 ^ j) with (v' * 2 ^ Z.of_nat (Pos.to_nat p)).
      2:{ unfold v'. rewrite positive_nat_Z, <- Z.mul_assoc, <- Z.pow_add_r by lia.
          f_equal. f_equal. lia. }
      rewrite shr_zero_bits by exact Hv'. f_equal. lia.
    - lia. }
  rewrite Hshr. cbn [shr_m loc_of_shr_record round_nearest_even].
  destruct v' as [|q|q] eqn:Hq; try lia.
  cbn [Zdigits2]. rewrite digits2_pos_log2.
  assert (Hlq : Z.log2 (Zpos q) = 23).
  { rewrite <- Hq. unfold v'. rewrite Z.log2_mul_pow2 by lia. lia. }
  rewrite Hlq.
  replace (Z.max (23 + 1 + (Z.log2 v - 23) - 24) (3 - 128 - 24) - (Z.log2 v - 23))
    with 0 by lia.
  cbn [shr shr_m].
  replace (Z.log2 v - 23 <=? 128 - 24) with true by (symmetry; apply Z.leb_le; lia).
  reflexivity.
Qed.

Lemma iter_xO_pow2 (p d : positive) :
  Zpos (Pos.iter xO p d) = Zpos p * 2 ^ Zpos d.
Proof.
  induction d as [|d IH] using Pos.peano_ind.
  - cbn. lia.
  - rewrite Pos.iter_succ, Pos2Z.inj_xO, IH, Pos2Z.inj_succ, Z.pow_succ_r by lia.
    ring.
Qed.

Lemma of_int_exact (a : Z) :
  0 < a < 2 ^ 24 -> F32.of_int a = normal_form a.
Proof.
  intros Ha.
  assert (Hlog : 0 <= Z.log2 a < 24).
  { split; [apply Z.log2_nonneg|]. apply Z.log2_lt_pow2; lia. }
  destruct a as [|p|p]; try lia.
  unfold F32.of_int, binary_normalize, binary_round.
  rewrite digits2_pos_log2. unfold fexp, emin, F32.prec, F32.emax.
  replace (Z.max (Z.log2 (Zpos p) + 1 + 0 - 24) (3 - 128 - 24))
    with (Z.log2 (Zpos p) - 23) by lia.
  unfold shl_align.
  destruct (Z.log2 (Zpos p) - 23 - 0) as [|d|d] eqn:Hd; try lia.
  - pose proof (binary_round_aux_exact false p (Zpos p) 0) as H.
    change (- 0) with 0 in H. unfold F32.prec, F32.emax in H.
    rewrite H; try lia. reflexivity.
  - replace (Z.log2 (Zpos p) - 23) with (- Zpos d) by lia.
    pose proof (binary_round_aux_exact false (Pos.iter xO p d) (Zpos p) (Zpos d))
      as H.
    unfold F32.prec, F32.emax in H. rewrite H; try lia.
    + reflexivity.
    + apply iter_xO_pow2.
Qed.

Lemma to_int_normal_form (v : Z) :
  0 < v < 2 ^ 24 -> F32.to_int (normal_form v) = v.
Proof.
  intros Hv.
  assert (Hlog : 0 <= Z.log2 v < 24).
  { split; [apply Z.log2_nonneg|]. apply Z.log2_lt_pow2; lia. }
  unfold normal_form, F32.to_int.
  rewrite Z2Pos.id by (apply Z.mul_pos_pos; [lia|apply Z.pow_pos_nonneg; lia]).
  rewrite Z.shiftl_div_pow2 by lia.
  replace (- (Z.log2 v - 23)) with (23 - Z.log2 v) by lia.
  rewrite Z.div_mul by (apply Z.pow_nonzero; lia).
  unfold CInt.in_range, CInt.INT_MIN, CInt.INT_MAX.
  replace (- 2 ^ 31 <=? v) with true by (symmetry; apply Z.leb_le; lia).
  replace (v <=? 2 ^ 31 - 1) with true by (symmetry; apply Z.leb_le; lia).
  reflexivity.
Qed.

(** The product of two integers is exact when it fits 24 bits. *)
Lemma mul_of_int_exact (a k : Z) :
  0 < a -> 0 < k -> a * k < 2 ^ 24 ->
  F32.mul (F32.of_int a) (F32.of_int k) = F32.of_int (a * k).
Proof.
  intros Ha Hk Hak.
  assert (Ha' : a < 2 ^ 24) by nia.
  assert (Hk' : k < 2 ^ 24) by nia.
  assert (Hla : 0 <= Z.log2 a < 24).
  { split; [apply Z.log2_nonneg|]. apply Z.log2_lt_pow2; lia. }
  assert (Hlk : 0 <= Z.log2 k < 24).
  { split; [apply Z.log2_nonneg|]. apply Z.log2_lt_pow2; lia. }
  pose proof (Z.log2_mul_below a k Ha Hk) as Hbelow.
  rewrite !of_int_exact by lia.
  unfold normal_form at 1 2. unfold F32.mul, SFmul. cbn [xorb].
  replace (Z.log2 a - 23 + (Z.log2 k - 23))
    with (- (46 - Z.log2 a - Z.log2 k)) by lia.
  apply binary_round_aux_exact; try lia.
  rewrite Pos2Z.inj_mul, !Z2Pos.id
    by (apply Z.mul_pos_pos; [lia|apply Z.pow_pos_nonneg; lia]).
  replace (46 - Z.log2 a - Z.log2 k)
    with ((23 - Z.log2 a) + (23 - Z.log2 k)) by lia.
  rewrite Z.pow_add_r by lia. ring.
Qed.

Lemma to_int_of_int (a : Z) :
  0 <= a < 2 ^ 24 -> F32.to_int (F32.of_int a) = a.
Proof.
  intros Ha. destruct (Z.eq_dec a 0) as [->|Hnz]; [reflexivity|].
  rewrite of_int_exact by lia. apply to_int_normal_form. lia.
Qed.

Lemma scale_of_int (a k : Z) :
  0 <= a -> 0 < k < 2 ^ 24 -> a * k < 2 ^ 24 ->
  scale a (F32.of_int k) = k * a.
Proof.
  intros Ha Hk Hak. unfold scale.
  destruct (Z.eq_dec a 0) as [->|Hnz].
  - rewrite (of_int_exact k) by lia. cbn. lia.
  - rewrite mul_of_int_exact by lia.
    rewrite to_int_of_int by nia. ring.
Qed.

(** ** The [IO] monad *)

(** A property of the loop state that every iteration preserves holds
    when the loop ends. *)
Lemma for_each_preserves {A S} (P : S -> Prop) (body : S -> A -> IO S) :
  (forall s x w, P s -> P (fst (body s x w))) ->
  forall l s w, P s -> P (fst (for_each body s l w)).
Proof.
  intros Hbody l. induction l as [|x l IH]; intros s w Hs; simpl.
  - exact Hs.
  - unfold bind. specialize (Hbody s x w Hs).
    destruct (body s x w) as [s' w']. apply IH. exact Hbody.
Qed.

Lemma fold_left_preserves {A S} (P : S -> Prop) (body : S -> A -> S) :
  (forall s x, P s -> P (body s x)) ->
  forall l s, P s -> P (fold_left body l s).
Proof.
  intros Hbody l. induction l as [|x l IH]; intros s Hs; simpl; auto.
Qed.

(** ** Frame properties of the parsers *)

Section Frames.

Context {hdr : AuditHeader}.
Variable sys : Env.

Ltac frame_cases :=
  repeat match goal with
         | |- context [match ?x with _ => _ end] => destruct x
         end; reflexivity.

Lemma parse_priv_events_auth_view s win :
  auth_view (parse_priv_events sys s win) = auth_view s.
Proof. unfold parse_priv_events. frame_cases. Qed.

Lemma parse_priv_events_baseline_view s win :
  baseline_view (parse_priv_events sys s win) = baseline_view s.
Proof. unfold parse_priv_events. frame_cases. Qed.

Lemma exec_line_views s line :
  auth_view (exec_line s line) = auth_view s /\
  baseline_view (exec_line s line) = baseline_view s.
Proof. unfold exec_line. split; frame_cases. Qed.

Lemma parse_exec_events_auth_view s win :
  auth_view (parse_exec_events sys s win) = auth_view s.
Proof.
  unfold parse_exec_events. destruct (popen_r sys cmd_exec); [|reflexivity].
  transitivity (auth_view (fold_left exec_line (fgets_all 1024 s0) s)).
  - frame_cases.
  - apply (fold_left_preserves (fun s' => auth_view s' = auth_view s)); auto.
    intros s1 x H. rewrite <- H. apply exec_line_views.
Qed.

Lemma parse_exec_events_baseline_view s win :
  baseline_view (parse_exec_events sys s win) = baseline_view s.
Proof.
  unfold parse_exec_events. destruct (popen_r sys cmd_exec); [|reflexivity].
  transitivity (baseline_view (fold_left exec_line (fgets_all 1024 s0) s)).
  - frame_cases.
  - apply (fold_left_preserves (fun s' => baseline_view s' = baseline_view s)); auto.
    intros s1 x H. rewrite <- H. apply exec_line_views.
Qed.

Lemma check_security_framework_auth_view s :
  auth_view (check_security_framework sys s) = auth_view s.
Proof. unfold check_security_framework. frame_cases. Qed.

Lemma check_security_framework_baseline_view s :
  baseline_view (check_security_framework sys s) = baseline_view s.
Proof. unfold check_security_framework. frame_cases. Qed.

Lemma add_file_access_views s path ctx :
  auth_view (add_file_access s path ctx) = auth_view s /\
  baseline_view (add_file_access s path ctx) = baseline_view s.
Proof.
  unfold add_file_access.
  destruct ctx as [c|]; [destruct (Nat.ltb 0 (strlen (ctx_comm c)));
    [destruct (is_suspicious_chain _)|]|];
    destruct (is_some (strstr path "shadow") || is_some (strstr path "sudoers"));
    split; reflexivity.
Qed.

Lemma file_line_views s line w :
  auth_view (fst (file_line s line w)) = auth_view s /\
  baseline_view (fst (file_line s line w)) = baseline_view s.
Proof.
  unfold file_line, bind.
  destruct ((if 0 <=? extract_event_id line
             then get_event_ctx (extract_event_id line)
             else ret None) w) as [ctx w1].
  destruct (strstr line ("name=" ++ dq)); [|split; reflexivity].
  match goal with |- context [if ?c then _ else _] => destruct c end;
    [|split; reflexivity].
  destruct (find_index _ _ 0); cbn; [split; reflexivity|].
  apply add_file_access_views.
Qed.

Lemma parse_file_events_auth_view s win w :
  auth_view (fst (parse_file_events sys s win w)) = auth_view s.
Proof.
  unfold parse_file_events. destruct (popen_r sys cmd_file); [|reflexivity].
  apply (for_each_preserves (fun s' => auth_view s' = auth_view s)); auto.
  intros s1 x w1 H. rewrite <- H. apply file_line_views.
Qed.

Lemma parse_file_events_baseline_view s win w :
  baseline_view (fst (parse_file_events sys s win w)) = baseline_view s.
Proof.
  unfold parse_file_events. destruct (popen_r sys cmd_file); [|reflexivity].
  apply (for_each_preserves (fun s' => baseline_view s' = baseline_view s)); auto.
  intros s1 x w1 H. rewrite <- H. apply file_line_views.
Qed.

Lemma find_or_add_user_baseline_view s username :
  baseline_view (fst (find_or_add_user s username)) = baseline_view s.
Proof.
  unfold find_or_add_user.
  destruct (find_index _ _ 0); [reflexivity|].
  destruct (failure_user_count s <? MAX_AUDIT_USERS); reflexivity.
Qed.

Lemma auth_line_baseline_view s line :
  baseline_view (auth_line s line) = baseline_view s.
Proof.
  unfold auth_line.
  destruct (strstr line "res=failed").
  - destruct (strstr line ("acct=" ++ dq)); [|reflexivity].
    destruct (Nat.ltb 0 _); [|reflexivity].
    pose proof (find_or_add_user_baseline_view
                  (set_auth_failures (CInt.incr (auth_failures s)) s)
                  (copy_until_quote 63 (advance 6 s1))) as H.
    destruct (find_or_add_user _ _) as [s' [i|]]; cbn in H |- *; exact H.
  - destruct (strstr line "res=success"); reflexivity.
Qed.

Lemma parse_auth_events_baseline_view s win :
  baseline_view (parse_auth_events sys s win) = baseline_view s.
Proof.
  unfold parse_auth_events. destruct (popen_r sys cmd_auth); [|reflexivity].
  transitivity (baseline_view (fold_left auth_line (fgets_all 2048 s0) s)).
  - reflexivity.
  - apply (fold_left_preserves (fun s' => baseline_view s' = baseline_view s)); auto.
    intros s1 x H. rewrite <- H. apply auth_line_baseline_view.
Qed.

Lemma add_anomaly_auth_view s ty d sev c b dv w :
  auth_view (fst (add_anomaly sys s ty d sev c b dv w)) = auth_view s.
Proof.
  unfold add_anomaly. destruct (MAX_AUDIT_ANOMALIES <=? anomaly_count s); reflexivity.
Qed.

Lemma maybe_add_anomaly_auth_view (c : bool) s ty d sev cur b dv w :
  auth_view (fst ((if c then add_anomaly sys s ty d sev cur b dv else ret s) w))
  = auth_view s.
Proof. destruct c; [apply add_anomaly_auth_view | reflexivity]. Qed.

Lemma detect_anomalies_auth_view s b w :
  auth_view (fst (detect_anomalies sys s b w)) = auth_view s.
Proof.
  unfold detect_anomalies, bind. destruct b as [b|]; [|reflexivity].
  destruct (sample_count b <? 5); [reflexivity|].
  match goal with
  | |- context [let '(_, _) := ?m w in _] =>
      pose proof (maybe_add_anomaly_auth_view _ _ _ _ _ _ _ _ w : auth_view (fst (m w)) = _) as H1;
      destruct (m w) as [s1 w1]
  end.
  match goal with
  | |- context [let '(_, _) := ?m w1 in _] =>
      pose proof (maybe_add_anomaly_auth_view _ _ _ _ _ _ _ _ w1 : auth_view (fst (m w1)) = _) as H2;
      destruct (m w1) as [s2 w2]
  end.
  match goal with
  | |- context [let '(_, _) := ?m w2 in _] =>
      pose proof (maybe_add_anomaly_auth_view _ _ _ _ _ _ _ _ w2 : auth_view (fst (m w2)) = _) as H3;
      destruct (m w2) as [s3 w3]
  end.
  rewrite maybe_add_anomaly_auth_view.
  cbn [fst] in H1, H2, H3. rewrite H3, H2. exact H1.
Qed.

Lemma calculate_risk_score_auth_view s :
  auth_view (calculate_risk_score s) = auth_view s.
Proof. unfold calculate_risk_score. frame_cases. Qed.

Lemma calculate_risk_score_baseline_view s :
  baseline_view (calculate_risk_score s) = baseline_view s.
Proof. unfold calculate_risk_score. frame_cases. Qed.

End Frames.

(** ** Structure of one probe *)

Section ProbeStructure.

Context {hdr : AuditHeader}.
Variable sys : Env.

(** What [probe_audit] returns: NULL, the disabled summary, or the
    risk-scored summary [calculate_risk_score s4] where [s4] is the
    parsed summary [s3], annotated by [detect_anomalies] when a
    baseline was loaded. *)
Lemma probe_audit_inv (window_seconds : Z) (w w' : World)
  (r : option audit_summary_t) :
  probe_audit sys window_seconds w = (r, w') ->
  match r with
  | None => calloc_ok sys = false
  | Some s =>
      calloc_ok sys = true /\
      let s0 := init_summary window_seconds (time_at sys (clock w)) in
      if access_R_OK sys "/var/log/audit/audit.log" then
        exists s3 s4 : audit_summary_t,
          auth_view s3 = auth_view (parse_auth_events sys s0 window_seconds) /\
          baseline_view s3 = baseline_view s0 /\
          (let '(loaded, baseline) := load_audit_baseline sys zeroed_baseline_bytes in
           if loaded
           then exists w4, s4 = fst (detect_anomalies sys s3
                                       (Some (baseline_of_bytes baseline)) w4)
           else s4 = s3) /\
          s = calculate_risk_score s4
      else s = set_enabled false s0
  end.
Proof.
  cbv beta iota zeta delta [probe_audit bind time_now clear_event_ctx
                              put_event_table ret negb].
  destruct (calloc_ok sys).
  2:{ intros H; inversion H; reflexivity. }
  destruct (access_R_OK sys "/var/log/audit/audit.log").
  2:{ intros H; inversion H; subst. split; reflexivity. }
  fold (init_summary window_seconds (time_at sys (clock w))).
  set (s0 := init_summary window_seconds (time_at sys (clock w))).
  destruct (parse_syscall_context sys window_seconds _) as [[] w1].
  pose proof (parse_file_events_auth_view sys
                (parse_priv_events sys (parse_auth_events sys s0 window_seconds)
                   window_seconds) window_seconds w1) as Ha.
  pose proof (parse_file_events_baseline_view sys
                (parse_priv_events sys (parse_auth_events sys s0 window_seconds)
                   window_seconds) window_seconds w1) as Hb.
  destruct (parse_file_events sys _ window_seconds w1) as [sf w2].
  cbv beta iota in Ha, Hb |- *. simpl fst in Ha, Hb.
  set (s3 := check_security_framework sys (parse_exec_events sys sf window_seconds)).
  assert (Ha3 : auth_view s3 = auth_view (parse_auth_events sys s0 window_seconds)).
  { unfold s3. rewrite check_security_framework_auth_view,
      parse_exec_events_auth_view, Ha, parse_priv_events_auth_view. reflexivity. }
  assert (Hb3 : baseline_view s3 = baseline_view s0).
  { unfold s3. rewrite check_security_framework_baseline_view,
      parse_exec_events_baseline_view, Hb, parse_priv_events_baseline_view,
      parse_auth_events_baseline_view. reflexivity. }
  destruct (load_audit_baseline sys zeroed_baseline_bytes) as [loaded baseline].
  destruct loaded; cbv beta iota.
  - match goal with
    | |- context [detect_anomalies sys s3 ?b ?w4] =>
        destruct (detect_anomalies sys s3 b w4) as [s4 w5] eqn:Hd
    end.
    intros H; inversion H; subst. split; [reflexivity|].
    exists s3, s4. repeat split; auto.
    eexists. rewrite Hd. reflexivity.
  - intros H; inversion H; subst. split; [reflexivity|].
    exists s3, s3. repeat split; auto.
Qed.

End ProbeStructure.

(** ** Anomaly detection guard *)

(** The guard at the head of [detect_anomalies]. *)
Lemma detect_anomalies_guard
  {hdr : AuditHeader} (sys : Env) (summary : audit_summary_t)
  (baseline : option audit_baseline_t) (w : World) :
  (forall b, baseline = Some b -> sample_count b < 5) ->
  detect_anomalies sys summary baseline w = (summary, w).
Proof.
  intros Hsmall.
  unfold detect_anomalies. destruct baseline as [b|]; [|reflexivity].
  specialize (Hsmall b eq_refl).
  destruct (sample_count b <? 5) eqn:Hc; [reflexivity|].
  apply Z.ltb_ge in Hc. lia.
Qed.

(** In a probe, when no baseline could be loaded or the loaded one has
    fewer than five samples, the returned summary carries no anomaly
    and its four comparison fields are still zero. *)
Lemma probe_without_baseline_no_anomalies
  {hdr : AuditHeader} (sys : Env) (window_seconds : Z) (w w' : World)
  (s : audit_summary_t) :
  probe_audit sys window_seconds w = (Some s, w') ->
  (let '(loaded, bytes) := load_audit_baseline sys zeroed_baseline_bytes in
   loaded = false \/ sample_count (baseline_of_bytes bytes) < 5) ->
  baseline_view s = baseline_view zeroed_summary.
Proof.
  intros Hp Hload. apply probe_audit_inv in Hp. destruct Hp as [_ Hp].
  cbv zeta in Hp. destruct (access_R_OK sys _).
  - destruct Hp as (s3 & s4 & _ & Hb3 & Hl & ->).
    rewrite calculate_risk_score_baseline_view.
    destruct (load_audit_baseline sys zeroed_baseline_bytes) as [loaded bytes].
    destruct loaded.
    + destruct Hload as [Hf|Hsmall]; [discriminate|].
      destruct Hl as [w4 ->].
      rewrite (detect_anomalies_guard sys s3 (Some (baseline_of_bytes bytes)) w4).
      2:{ intros b Hb. inversion Hb; subst. exact Hsmall. }
      cbn [fst]. rewrite Hb3. reflexivity.
    + subst s4. rewrite Hb3. reflexivity.
  - subst s. reflexivity.
Qed.

(** C2.  For every summary and every baseline pointer that is NULL or
    whose [sample_count] is below 5, [detect_anomalies] is a no-op: it
    returns the summary unchanged (so the anomalies vector and the
    four baseline-average and deviation fields keep their prior
    values) and does not even read the clock.  In a probe that loaded
    no baseline, or one with fewer than five samples, the summary
    returned has no anomaly and the four fields are zero. *)
Theorem detect_anomalies_needs_five_samples
  {hdr : AuditHeader} (sys : Env) (summary : audit_summary_t)
  (baseline : option audit_baseline_t) (w : World) :
  (forall b, baseline = Some b -> sample_count b < 5) ->
  detect_anomalies sys summary baseline w = (summary, w) /\
  baseline_view (fst (detect_anomalies sys summary baseline w))
  = baseline_view summary /\
  (forall window_seconds w0 w' s,
     probe_audit sys window_seconds w0 = (Some s, w') ->
     (let '(loaded, bytes) := load_audit_baseline sys zeroed_baseline_bytes in
      loaded = false \/ sample_count (baseline_of_bytes bytes) < 5) ->
     anomalies s = [] /\
     auth_baseline_avg s = F32.zero /\ auth_deviation_pct s = F32.zero /\
     sudo_baseline_avg s = F32.zero /\ sudo_deviation_pct s = F32.zero).
Proof.
  intros Hsmall. rewrite (detect_anomalies_guard sys summary baseline w Hsmall).
  split; [reflexivity|]. split; [reflexivity|].
  intros window_seconds w0 w' s Hp Hload.
  pose proof (probe_without_baseline_no_anomalies sys window_seconds w0 w' s Hp Hload)
    as Hv.
  unfold baseline_view in Hv. inversion Hv as [[H1 H2 H3 H4 H5]].
  repeat split; reflexivity.
Qed.

Lemma detect_anomalies_needs_five_samples_witness :
  (forall b, Some young_baseline = Some b -> sample_count b < 5) /\
  detect_anomalies (hdr := Host.header) Host.quiet busy_summary
    (Some young_baseline) Host.boot = (busy_summary, Host.boot).
Proof.
  assert (H : forall b, Some young_baseline = Some b -> sample_count b < 5).
  { intros b Hb. inversion Hb. cbn. lia. }
  split; [exact H|].
  exact (proj1 (detect_anomalies_needs_five_samples (hdr := Host.header)
                  Host.quiet busy_summary (Some young_baseline) Host.boot H)).
Defined.

(** ** Brute-force flag *)

(** The invariant for the summary returned by a probe, including
    the paths on which the parser did not run or its pipe could not be
    opened (both counters are then as [calloc] left them). *)
Lemma probe_brute_force_invariant
  {hdr : AuditHeader} (sys : Env) (window_seconds : Z) (w w' : World)
  (s : audit_summary_t) :
  probe_audit sys window_seconds w = (Some s, w') ->
  brute_force_detected s = true <-> 5 < auth_failures s.
Proof.
  intros Hp. apply probe_audit_inv in Hp. destruct Hp as [_ Hp].
  cbv zeta in Hp.
  assert (Hv : exists s1, auth_view s = auth_view s1 /\
                 (brute_force_detected s1 = true <-> 5 < auth_failures s1)).
  { destruct (access_R_OK sys _).
    - destruct Hp as (s3 & s4 & Ha3 & _ & Hl & ->).
      eexists. split.
      + rewrite calculate_risk_score_auth_view.
        destruct (load_audit_baseline sys zeroed_baseline_bytes) as [[] bytes].
        * destruct Hl as [w4 ->]. rewrite detect_anomalies_auth_view. exact Ha3.
        * subst s4. exact Ha3.
      + unfold parse_auth_events.
        destruct (popen_r sys cmd_auth); cbn; [apply Z.ltb_lt|].
        split; [discriminate|lia].
    - subst s. exists zeroed_summary. split; [reflexivity|].
      cbn. split; [discriminate|lia]. }
  destruct Hv as (s1 & Hv & Hs1). unfold auth_view in Hv.
  inversion Hv as [[H1 H2 H3]]. rewrite H1, H3. exact Hs1.
Qed.

(** C8.  After the authentication parser has read its stream, whatever
    the stream holds and whatever the summary held before,
    [brute_force_detected] is set exactly when [auth_failures]
    exceeds 5; and the summary that a probe returns satisfies the same
    equivalence. *)
Theorem brute_force_iff_auth_failures
  {hdr : AuditHeader} (sys : Env) (summary : audit_summary_t)
  (window_seconds : Z) (out : string) :
  popen_r sys cmd_auth = Some out ->
  let s' := parse_auth_events sys summary window_seconds in
  (brute_force_detected s' = true <-> 5 < auth_failures s') /\
  auth_failures s'
  = auth_failures (fold_left auth_line (fgets_all 2048 out) summary) /\
  (forall w w' s,
     probe_audit sys window_seconds w = (Some s, w') ->
     (brute_force_detected s = true <-> 5 < auth_failures s)).
Proof.
  intros Hout s'. subst s'. split; [|split].
  - unfold parse_auth_events. rewrite Hout.
    cbn [brute_force_detected auth_failures set_brute_force_detected].
    apply Z.ltb_lt.
  - unfold parse_auth_events. rewrite Hout. reflexivity.
  - intros w w' s Hp. exact (probe_brute_force_invariant sys window_seconds w w' s Hp).
Qed.

Lemma brute_force_iff_auth_failures_witness :
  popen_r brute_force_host cmd_auth = Some brute_force_stream /\
  let s' := parse_auth_events (hdr := Host.header) brute_force_host
              zeroed_summary 3600 in
  (brute_force_detected s' = true <-> 5 < auth_failures s') /\
  auth_failures s' = 7.
Proof.
  assert (H : popen_r brute_force_host cmd_auth = Some brute_force_stream)
    by reflexivity.
  split; [exact H|].
  destruct (brute_force_iff_auth_failures (hdr := Host.header) brute_force_host
              zeroed_summary 3600 brute_force_stream H) as (Hiff & Haf & _).
  split; [exact Hiff|]. rewrite Haf. vm_compute. reflexivity.
Defined.

(** ** Risk level *)

Lemma calculate_risk_score_level (s : audit_summary_t) :
  risk_level (calculate_risk_score s)
  = risk_level_of_score (risk_score (calculate_risk_score s)).
Proof.
  unfold calculate_risk_score. cbv zeta.
  match goal with |- context [31 <=? ?x] => set (score := x) end.
  unfold risk_level_of_score. rewrite !Z.geb_leb.
  destruct (31 <=? score) eqn:H31;
    [cbn [risk_level risk_score set_risk_level set_risk_score];
     rewrite H31; reflexivity|].
  destruct (16 <=? score) eqn:H16;
    [cbn [risk_level risk_score set_risk_level set_risk_score];
     rewrite H31, H16; reflexivity|].
  destruct (6 <=? score) eqn:H6;
    cbn [risk_level risk_score set_risk_level set_risk_score];
    rewrite H31, H16, H6; reflexivity.
Qed.

Lemma risk_level_of_score_in (score : Z) :
  In (risk_level_of_score score) risk_levels.
Proof.
  unfold risk_level_of_score, risk_levels.
  destruct (score >=? 31); [cbn; tauto|].
  destruct (score >=? 16); [cbn; tauto|].
  destruct (score >=? 6); cbn; tauto.
Qed.

Lemma risk_level_of_score_monotone (a b : Z) :
  a <= b -> level_rank (risk_level_of_score a) <= level_rank (risk_level_of_score b).
Proof.
  intros Hab. unfold risk_level_of_score.
  rewrite !Z.geb_leb.
  destruct (31 <=? a) eqn:A31; destruct (31 <=? b) eqn:B31;
  destruct (16 <=? a) eqn:A16; destruct (16 <=? b) eqn:B16;
  destruct (6 <=? a) eqn:A6; destruct (6 <=? b) eqn:B6;
  cbn; try lia;
  repeat match goal with
         | H : (_ <=? _) = true |- _ => apply Z.leb_le in H
         | H : (_ <=? _) = false |- _ => apply Z.leb_gt in H
         end; lia.
Qed.

(** C6, as stated, fails on the early return: with an unreadable audit
    log [probe_audit] returns a summary whose [risk_level] is the
    empty string, which is not one of the four levels and is not the
    classification "low" of its score 0. *)
Lemma probe_disabled_has_no_risk_level :
  ~ (forall s : audit_summary_t,
       fst (probe_audit (hdr := Host.header) no_audit_log 3600 Host.boot) = Some s ->
       In (risk_level s) risk_levels /\
       risk_level s = risk_level_of_score (risk_score s)).
Proof.
  intros H.
  destruct (H (set_enabled false (init_summary 3600 1767386347)) eq_refl) as [_ Hl].
  vm_compute in Hl. discriminate.
Qed.

(** C6 (as the code has it).  Every summary that [probe_audit] returns
    after a readable audit log was found carries a [risk_level] among
    low, medium, high and critical, equal to the classification of its
    [risk_score] (critical from 31, high from 16, medium from 6, else
    low), and that classification is monotone.  When the audit log is
    unreadable the returned summary is disabled, its [risk_score] is 0
    and its [risk_level] is the empty string. *)
Theorem probe_risk_level_classified
  {hdr : AuditHeader} (sys : Env) (window_seconds : Z) (w w' : World)
  (s : audit_summary_t) :
  probe_audit sys window_seconds w = (Some s, w') ->
  (access_R_OK sys "/var/log/audit/audit.log" = true ->
   In (risk_level s) risk_levels /\
   risk_level s = risk_level_of_score (risk_score s)) /\
  (access_R_OK sys "/var/log/audit/audit.log" = false ->
   enabled s = false /\ risk_score s = 0 /\ risk_level s = EmptyString) /\
  (forall a b, a <= b ->
     level_rank (risk_level_of_score a) <= level_rank (risk_level_of_score b)).
Proof.
  intros Hp. apply probe_audit_inv in Hp. destruct Hp as [_ Hp].
  cbv zeta in Hp. repeat split.
  - rewrite H in Hp. destruct Hp as (s3 & s4 & _ & _ & _ & ->).
    rewrite calculate_risk_score_level. apply risk_level_of_score_in.
  - rewrite H in Hp. destruct Hp as (s3 & s4 & _ & _ & _ & ->).
    apply calculate_risk_score_level.
  - rewrite H in Hp. subst s. reflexivity.
  - rewrite H in Hp. subst s. reflexivity.
  - rewrite H in Hp. subst s. reflexivity.
  - apply risk_level_of_score_monotone.
Qed.

Lemma probe_risk_level_classified_witness :
  exists (s : audit_summary_t) (w' : World),
    probe_audit (hdr := Host.header) Host.quiet 3600 Host.boot = (Some s, w') /\
    (access_R_OK Host.quiet "/var/log/audit/audit.log" = true ->
     In (risk_level s) risk_levels /\
     risk_level s = risk_level_of_score (risk_score s)) /\
    (access_R_OK Host.quiet "/var/log/audit/audit.log" = false ->
     enabled s = false /\ risk_score s = 0 /\ risk_level s = EmptyString) /\
    (forall a b, a <= b ->
       level_rank (risk_level_of_score a) <= level_rank (risk_level_of_score b)).
Proof.
  destruct (probe_audit (hdr := Host.header) Host.quiet 3600 Host.boot)
    as [[s|] w'] eqn:E.
  - exists s, w'. split; [reflexivity|].
    exact (probe_risk_level_classified (hdr := Host.header) Host.quiet 3600
             Host.boot w' s E).
  - vm_compute in E. discriminate.
Defined.

(** ** Risk score: where the multiplier applies *)

(** While five times the accumulator fits the 24-bit significand, the
    float multiplication and the conversion back to [int] are exact. *)
Lemma scale_exact (a : Z) :
  0 <= a -> 5 * a < 2 ^ 24 ->
  scale a F32.c5 = 5 * a /\ scale a F32.c3 = 3 * a /\ scale a F32.c2 = 2 * a.
Proof.
  intros Ha Hb. unfold F32.c5, F32.c3, F32.c2.
  repeat split; apply scale_of_int; lia.
Qed.

Lemma files_fold_wrap (l : list file_access_t) (acc : Z) :
  CInt.wrap_int
    (fold_left
       (fun score fa =>
          let score := CInt.add score 2 in
          if fa_suspicious fa then CInt.add score 5 else score) l acc)
  = CInt.wrap_int (acc + files_term l).
Proof.
  revert acc. induction l as [|fa l IH]; intros acc; simpl.
  - f_equal. lia.
  - rewrite IH. unfold CInt.add.
    destruct (fa_suspicious fa);
      repeat (rewrite wrap_int_add_l || rewrite <- Z.add_assoc); f_equal; lia.
Qed.

Lemma apply_multiplier_exact (deviation_pct : F32.float) (acc : Z) :
  0 <= acc -> 5 * acc < 2 ^ 24 ->
  apply_multiplier deviation_pct acc = auth_multiplier deviation_pct * acc.
Proof.
  intros Hacc Hfit. unfold apply_multiplier, auth_multiplier.
  destruct (scale_exact _ Hacc Hfit) as (H5 & H3 & H2).
  destruct (F32.gt deviation_pct F32.c500); [exact H5|].
  destruct (F32.gt deviation_pct F32.c200); [exact H3|].
  destruct (F32.gt deviation_pct F32.c100); [exact H2|]. lia.
Qed.

(** The score is the multiplied authentication accumulator plus the
    later terms, which the multiplier does not touch. *)
Lemma risk_score_structure (s : audit_summary_t) :
  risk_score (calculate_risk_score s)
  = CInt.wrap_int
      (apply_multiplier (auth_deviation_pct s)
         (CInt.wrap_int
            (auth_failures s + (if brute_force_detected s then 10 else 0)))
       + later_terms s).
Proof.
  unfold calculate_risk_score. cbv zeta.
  match goal with |- context [31 <=? ?x] => set (score := x) end.
  assert (Hrs : forall t, risk_score
            (if 31 <=? score then set_risk_level "critical" (set_risk_score score t)
             else if 16 <=? score then set_risk_level "high" (set_risk_score score t)
             else if 6 <=? score then set_risk_level "medium" (set_risk_score score t)
             else set_risk_level "low" (set_risk_score score t)) = score).
  { intros t. destruct (31 <=? score); [reflexivity|].
    destruct (16 <=? score); [reflexivity|].
    destruct (6 <=? score); reflexivity. }
  rewrite Hrs. clear Hrs. subst score.
  assert (E0 : CInt.add 0 (CInt.mul (auth_failures s) 1)
               = CInt.wrap_int (auth_failures s)).
  { unfold CInt.add, CInt.mul. rewrite wrap_int_add_r. f_equal. lia. }
  rewrite !E0.
  assert (E1 : (if brute_force_detected s
                then CInt.add (CInt.wrap_int (auth_failures s)) 10
                else CInt.wrap_int (auth_failures s))
               = CInt.wrap_int
                   (auth_failures s + (if brute_force_detected s then 10 else 0))).
  { destruct (brute_force_detected s).
    - unfold CInt.add. apply wrap_int_add_l.
    - f_equal. lia. }
  rewrite !E1.
  fold (apply_multiplier (auth_deviation_pct s)
          (CInt.wrap_int
             (auth_failures s + (if brute_force_detected s then 10 else 0)))).
  set (acc := apply_multiplier _ _).
  unfold later_terms, CInt.add, CInt.mul.
  rewrite !wrap_int_add_r.
  rewrite <- (wrap_int_add_l (fold_left _ _ _)).
  rewrite files_fold_wrap.
  destruct (F32.gt (sudo_deviation_pct s) F32.c200);
    repeat (rewrite wrap_int_add_l || rewrite <- Z.add_assoc);
    f_equal; lia.
Qed.

(** Below [2^21] failures the multiplication is an integer
    multiplication by 5, 3, 2 or 1. *)
Lemma risk_score_decomposition (s : audit_summary_t) :
  0 <= auth_failures s < 2 ^ 21 ->
  risk_score (calculate_risk_score s)
  = CInt.wrap_int
      (auth_multiplier (auth_deviation_pct s)
       * (auth_failures s + (if brute_force_detected s then 10 else 0))
       + later_terms s).
Proof.
  intros Haf. rewrite risk_score_structure.
  set (acc := auth_failures s + (if brute_force_detected s then 10 else 0)).
  assert (Hacc : 0 <= acc < 2 ^ 21 + 10)
    by (unfold acc; destruct (brute_force_detected s); lia).
  clearbody acc. rewrite (wrap_int_small acc) by int_lia.
  rewrite apply_multiplier_exact by lia. reflexivity.
Qed.

(** C3.  In [calculate_risk_score] the authentication-deviation
    multiplier (5 above 500, else 3 above 200, else 2 above 100, else
    1) is applied to the accumulator made of [auth_failures] and the
    brute-force bonus of 10, and the sudo, su, file, exec and
    security-framework terms are added afterwards, unmultiplied.  The
    code multiplies in binary32; below [2^21] failures the product
    fits the significand and equals the integer product (the
    authentication query keeps only 100 lines).  In particular 20
    failures with the brute-force flag, a deviation of 900 and nothing
    else give a score of 150, level critical. *)
Theorem risk_multiplier_before_later_terms (s : audit_summary_t) :
  risk_score (calculate_risk_score s)
  = CInt.wrap_int
      (apply_multiplier (auth_deviation_pct s)
         (CInt.wrap_int
            (auth_failures s + (if brute_force_detected s then 10 else 0)))
       + later_terms s)
  /\ (0 <= auth_failures s < 2 ^ 21 ->
      risk_score (calculate_risk_score s)
      = CInt.wrap_int
          (auth_multiplier (auth_deviation_pct s)
           * (auth_failures s + (if brute_force_detected s then 10 else 0))
           + later_terms s))
  /\ (auth_failures s = 20 -> brute_force_detected s = true ->
      auth_deviation_pct s = F32.of_int 900 -> later_fields_zero s ->
      risk_score (calculate_risk_score s) = 150 /\
      risk_level (calculate_risk_score s) = "critical").
Proof.
  split; [apply risk_score_structure|].
  split; [apply risk_score_decomposition|].
  intros H20 Hbf Hdev Hz.
  assert (Hscore : risk_score (calculate_risk_score s) = 150).
  { rewrite risk_score_decomposition by lia. rewrite H20, Hbf, Hdev.
    destruct Hz as (Hs & Hsu & Hp & Ho & Hf & Ht & Hds & Hse & Hav & Hap).
    unfold later_terms. rewrite Hs, Hsu, Hp, Ho, Hf, Ht, Hds, Hse, Hav, Hap.
    vm_compute. reflexivity. }
  split; [exact Hscore|].
  rewrite calculate_risk_score_level, Hscore. reflexivity.
Qed.

Lemma risk_multiplier_before_later_terms_witness :
  0 <= auth_failures spike_summary < 2 ^ 21 /\
  risk_score (calculate_risk_score spike_summary)
  = CInt.wrap_int
      (auth_multiplier (auth_deviation_pct spike_summary)
       * (auth_failures spike_summary
          + (if brute_force_detected spike_summary then 10 else 0))
       + later_terms spike_summary) /\
  risk_score (calculate_risk_score spike_summary) = 150 /\
  risk_level (calculate_risk_score spike_summary) = "critical".
Proof.
  assert (Haf : 0 <= auth_failures spike_summary < 2 ^ 21) by (cbn; lia).
  split; [exact Haf|].
  destruct (risk_multiplier_before_later_terms spike_summary) as (_ & Hd & Hex).
  split; [exact (Hd Haf)|].
  apply Hex; try reflexivity.
  unfold later_fields_zero. cbn. repeat split; reflexivity.
Defined.

(** ** Baseline update *)

Lemma F32_mul_comm (x y : F32.float) : F32.mul x y = F32.mul y x.
Proof.
  unfold F32.mul.
  destruct x as [sx|sx| |sx mx ex], y as [sy|sy| |sy my ey]; cbn;
    try reflexivity; rewrite (xorb_comm sx sy); try reflexivity.
  rewrite (Pos.mul_comm mx my), (Z.add_comm ex ey). reflexivity.
Qed.

(** [1 - EMA_ALPHA] evaluates to the literal [0.8f], and [EMA_ALPHA]
    is the float nearest to 2/10. *)
Lemma one_minus_alpha :
  F32.sub (F32.of_int 1) EMA_ALPHA = F32.c0_8 /\
  EMA_ALPHA = F32.div (F32.of_int 2) (F32.of_int 10).
Proof. split; vm_compute; reflexivity. Qed.

Lemma ema_refines_spec (current : Z) (avg : F32.float) :
  ema current avg = ema_spec current avg.
Proof.
  unfold ema, ema_spec. rewrite (proj1 one_minus_alpha).
  rewrite (F32_mul_comm (F32.of_int current)), (F32_mul_comm avg). reflexivity.
Qed.

(** C7.  [update_audit_baseline]: on a baseline with [sample_count = 0]
    it seeds [magic], [version], [created] and the five averages with
    the current sample's counters converted to float, without
    smoothing (the conversion is exact for counters below [2^24]);
    otherwise each average becomes
    [0.2 * current + 0.8 * old] (binary32) and [magic], [version] and
    [created] are kept; in both cases [sample_count] is incremented as
    an [int], that is by exactly 1 below [INT_MAX], and [updated] is
    set to the time of the last clock reading. *)
Theorem update_audit_baseline_ema
  (sys : Env) (baseline : audit_baseline_t) (current : audit_summary_t)
  (w : World) :
  let b' := fst (update_audit_baseline sys baseline current w) in
  let w' := snd (update_audit_baseline sys baseline current w) in
  (sample_count baseline = 0 ->
   magic b' = "SNTLAUDT" /\ version b' = 1 /\
   created b' = time_at sys (clock w) /\
   avg_auth_failures b' = F32.of_int (auth_failures current) /\
   avg_sudo_count b' = F32.of_int (sudo_count current) /\
   avg_sensitive_access b' = F32.of_int (sensitive_file_count current) /\
   avg_tmp_executions b' = F32.of_int (tmp_executions current) /\
   avg_shell_spawns b' = F32.of_int (shell_spawns current) /\
   updated b' = time_at sys (S (clock w)) /\ clock w' = S (S (clock w))) /\
  (sample_count baseline <> 0 ->
   magic b' = magic baseline /\ version b' = version baseline /\
   created b' = created baseline /\
   avg_auth_failures b'
   = ema_spec (auth_failures current) (avg_auth_failures baseline) /\
   avg_sudo_count b'
   = ema_spec (sudo_count current) (avg_sudo_count baseline) /\
   avg_sensitive_access b'
   = ema_spec (sensitive_file_count current) (avg_sensitive_access baseline) /\
   avg_tmp_executions b'
   = ema_spec (tmp_executions current) (avg_tmp_executions baseline) /\
   avg_shell_spawns b'
   = ema_spec (shell_spawns current) (avg_shell_spawns baseline) /\
   updated b' = time_at sys (clock w) /\ clock w' = S (clock w)) /\
  sample_count b' = CInt.incr (sample_count baseline) /\
  (CInt.INT_MIN <= sample_count baseline < CInt.INT_MAX ->
   sample_count b' = sample_count baseline + 1) /\
  (forall n, 0 <= n < 2 ^ 24 -> F32.to_int (F32.of_int n) = n).
Proof.
  cbv zeta. unfold update_audit_baseline, bind, time_now, ret.
  destruct (sample_count baseline =? 0) eqn:H0; cbn [fst snd].
  - apply Z.eqb_eq in H0.
    split; [intros _; cbn; repeat split; reflexivity|].
    split; [intros Hne; contradiction|].
    split; [reflexivity|].
    split; [intros Hr; apply incr_small; exact Hr|apply to_int_of_int].
  - apply Z.eqb_neq in H0.
    split; [intros He; contradiction|].
    split; [intros _; cbn; rewrite <- !ema_refines_spec; repeat split; reflexivity|].
    split; [reflexivity|].
    split; [intros Hr; apply incr_small; exact Hr|apply to_int_of_int].
Qed.

(** ** Baseline load *)

Lemma substring_prefix_prefix (m n : nat) (s : string) :
  (m <= n)%nat ->
  String.substring 0 m (String.substring 0 n s) = String.substring 0 m s.
Proof.
  revert n s. induction m as [|m IH]; intros n s Hmn.
  - destruct (String.substring 0 n s), s; reflexivity.
  - destruct n as [|n]; [lia|]. destruct s as [|c t]; [reflexivity|].
    cbn. f_equal. apply IH. lia.
Qed.

(** C5 (as the code has it).  [load_audit_baseline] returns true
    exactly when a file could be opened, holds a full record and
    starts with the 8 bytes SNTLAUDT; every short read and every other
    magic is rejected.  The record is read straight into the
    out-parameter before the magic is checked: after a full-size file
    was read, accepted or rejected, the out-parameter holds the file's
    bytes.  After a short read its leading bytes are the bytes the
    file had and the rest is as before, so an empty file leaves it as
    it was.  When no file could be opened it is left unchanged. *)
Theorem load_audit_baseline_rejects
  {hdr : AuditHeader} (sys : Env) (obj : string) :
  (8 <= sizeof_baseline)%nat ->
  match open_baseline sys with
  | None => load_audit_baseline sys obj = (false, obj)
  | Some fp =>
      ((String.length fp < sizeof_baseline)%nat ->
       fst (load_audit_baseline sys obj) = false /\
       String.substring 0 (String.length fp) (snd (load_audit_baseline sys obj))
       = fp /\
       advance (String.length fp) (snd (load_audit_baseline sys obj))
       = advance (String.length fp) obj /\
       (fp = EmptyString -> snd (load_audit_baseline sys obj) = obj)) /\
      ((sizeof_baseline <= String.length fp)%nat ->
       snd (load_audit_baseline sys obj) = String.substring 0 sizeof_baseline fp /\
       (fst (load_audit_baseline sys obj) = true
        <-> String.substring 0 8 fp = AUDIT_BASELINE_MAGIC))
  end.
Proof.
  intros Hsize. unfold load_audit_baseline.
  destruct (open_baseline sys) as [fp|]; [|reflexivity].
  unfold fread_one.
  destruct (Nat.leb sizeof_baseline (String.length fp)) eqn:Hlen.
  - apply Nat.leb_le in Hlen. split; [lia|]. intros _.
    cbn [negb]. unfold magic_bytes.
    rewrite (substring_prefix_prefix 8 sizeof_baseline fp Hsize).
    destruct (String.eqb (String.substring 0 8 fp) AUDIT_BASELINE_MAGIC) eqn:Hm;
      cbn [negb fst snd]; (split; [reflexivity|]).
    + apply String.eqb_eq in Hm. tauto.
    + apply String.eqb_neq in Hm. split; [discriminate|contradiction].
  - apply Nat.leb_gt in Hlen. split; [|lia]. intros _. cbn [negb fst snd].
    split; [reflexivity|]. split; [apply substring_app_left|].
    split; [apply advance_app_left|]. intros ->. reflexivity.
Qed.

(** C5, as stated, fails: the rejected file has overwritten the
    out-parameter, whose magic now reads GARBAGE!. *)
Lemma load_garbage_overwrites_baseline :
  let r := load_audit_baseline (hdr := Host.header) garbage_host
             (zeroed_baseline_bytes (hdr := Host.header)) in
  fst r = false /\
  snd r <> zeroed_baseline_bytes (hdr := Host.header) /\
  magic (baseline_of_bytes (AuditHeader := Host.header) (snd r)) = "GARBAGE!".
Proof.
  cbv zeta. split; [vm_compute; reflexivity|]. split.
  - vm_compute. discriminate.
  - vm_compute. reflexivity.
Qed.

Lemma load_audit_baseline_rejects_witness :
  (8 <= sizeof_baseline (AuditHeader := Host.header))%nat /\
  (snd (load_audit_baseline (hdr := Host.header) garbage_host
          (zeroed_baseline_bytes (hdr := Host.header)))
   = String.substring 0 56 garbage_file /\
   (fst (load_audit_baseline (hdr := Host.header) garbage_host
           (zeroed_baseline_bytes (hdr := Host.header))) = true
    <-> String.substring 0 8 garbage_file = AUDIT_BASELINE_MAGIC)) /\
  (fst (load_audit_baseline (hdr := Host.header) truncated_host
          (zeroed_baseline_bytes (hdr := Host.header))) = false /\
   String.substring 0 12
     (snd (load_audit_baseline (hdr := Host.header) truncated_host
             (zeroed_baseline_bytes (hdr := Host.header))))
   = truncated_file /\
   advance 12
     (snd (load_audit_baseline (hdr := Host.header) truncated_host
             (zeroed_baseline_bytes (hdr := Host.header))))
   = advance 12 (zeroed_baseline_bytes (hdr := Host.header))).
Proof.
  assert (H : (8 <= sizeof_baseline (AuditHeader := Host.header))%nat)
    by (cbn; lia).
  split; [exact H|]. split.
  - pose proof (load_audit_baseline_rejects (hdr := Host.header) garbage_host
                  (zeroed_baseline_bytes (hdr := Host.header)) H) as T.
    change (open_baseline (hdr := Host.header) garbage_host)
      with (Some garbage_file) in T.
    apply T. vm_compute. lia.
  - pose proof (load_audit_baseline_rejects (hdr := Host.header) truncated_host
                  (zeroed_baseline_bytes (hdr := Host.header)) H) as T.
    change (open_baseline (hdr := Host.header) truncated_host)
      with (Some truncated_file) in T.
    destruct T as (T & _).
    assert (Hshort : (String.length truncated_file
                      < sizeof_baseline (AuditHeader := Host.header))%nat)
      by (vm_compute; lia).
    destruct (T Hshort) as (T1 & T2 & T3 & _).
    split; [exact T1|]. split; [exact T2|exact T3].
Defined.

(** ** Execution from /dev/shm without a baseline *)

(** C1, as stated, fails.  With the name as [ausearch -i] prints it,
    the record passes the filter of the query and the execution is
    counted, but with no baseline file the anomaly detector does not
    run, so the summary carries no anomaly.  With the name in quotes,
    as the specification writes the record, the filter drops the line:
    the parser reads nothing, as on the quiet host, and nothing is
    counted either. *)
Lemma devshm_without_baseline_no_anomaly :
  (grep_exec devshm_record = true /\
   ~ (exists s : audit_summary_t,
        fst (probe_audit (hdr := Host.header) devshm_host 3600 Host.boot) = Some s /\
        devshm_expectation s)) /\
  (grep_exec quoted_devshm_record = false /\
   ~ (exists s : audit_summary_t,
        fst (probe_audit (hdr := Host.header) Host.quiet 3600 Host.boot) = Some s /\
        devshm_expectation s)).
Proof.
  split; (split; [vm_compute; reflexivity|]).
  - intros (s & Hs & _ & (a & Hin & _) & _).
    vm_compute in Hs. inversion Hs; subst s. exact Hin.
  - intros (s & Hs & _ & (a & Hin & _) & _).
    vm_compute in Hs. inversion Hs; subst s. exact Hin.
Qed.

(** C1 (as the code has it).  When the execve query returns exactly
    one line, which names a path under /dev/shm (name=/dev/shm/...,
    the form the filter of the query lets through), nothing else
    happened and no baseline file exists, the probe returns a summary
    with [devshm_executions = 1], no anomaly at all and [risk_level]
    medium.  When /tmp/ does not occur in the line, as for /dev/shm/x,
    [tmp_executions] is 0 and [risk_score] is 6; when it does, as for
    /dev/shm/tmp/x, the line counts as an execution from /tmp as well
    and [risk_score] is 10. *)
Theorem devshm_probe_without_baseline
  {hdr : AuditHeader} (sys : Env) (window_seconds : Z) (w : World)
  (out line : string) :
  only_exec_activity sys ->
  popen_r sys cmd_exec = Some out ->
  fgets_all 1024 out = [line] ->
  is_some (strstr line "name=/dev/shm/") = true ->
  exists s : audit_summary_t,
    fst (probe_audit sys window_seconds w) = Some s /\
    devshm_executions s = 1 /\ anomalies s = [] /\
    risk_level s = "medium" /\
    (names_tmp line = false -> tmp_executions s = 0 /\ risk_score s = 6) /\
    (names_tmp line = true -> tmp_executions s = 1 /\ risk_score s = 10).
Proof.
  intros (Hc & Ha & Hq & Hf) Hout Hlines Hname.
  assert (Hshm : is_some (strstr line "/dev/shm/") = true)
    by exact (strstr_app_needle "name=" "/dev/shm/" line Hname).
  assert (Hne : forall cmd, String.eqb cmd cmd_exec = false ->
                            popen_r sys cmd = Host.quiet_popen cmd).
  { intros cmd E. apply Hq. apply String.eqb_neq. exact E. }
  unfold probe_audit, parse_syscall_context, parse_auth_events, parse_priv_events,
    parse_file_events, parse_exec_events, check_security_framework,
    load_audit_baseline, open_baseline.
  rewrite Hc, Ha, Hout, Hlines, !Hf.
  rewrite (Hne cmd_syscall), (Hne cmd_auth), (Hne cmd_sudo), (Hne cmd_su),
    (Hne cmd_file), (Hne cmd_shell), (Hne cmd_apparmor) by reflexivity.
  assert (Hopen : match getenv sys "HOME" with
                  | Some home =>
                      fopen_r sys (strn (MAX_PATH_LEN - 1)
                                     (c_str home ++ "/" ++ AUDIT_BASELINE_PATH_USER))
                  | None => None
                  end = None).
  { destruct (getenv sys "HOME"); [apply Hf|reflexivity]. }
  rewrite Hopen.
  cbn [fold_left]. unfold exec_line, names_tmp. rewrite Hshm.
  destruct (is_some (strstr line "/tmp/")).
  - eexists. split; [vm_compute; reflexivity|].
    split; [vm_compute; reflexivity|]. split; [vm_compute; reflexivity|].
    split; [vm_compute; reflexivity|].
    split; [intros H; discriminate H|intros _; split; vm_compute; reflexivity].
  - eexists. split; [vm_compute; reflexivity|].
    split; [vm_compute; reflexivity|]. split; [vm_compute; reflexivity|].
    split; [vm_compute; reflexivity|].
    split; [intros _; split; vm_compute; reflexivity|intros H; discriminate H].
Qed.

Lemma devshm_probe_without_baseline_witness :
  only_exec_activity devshm_host /\
  popen_r devshm_host cmd_exec = Some devshm_record /\
  fgets_all 1024 devshm_record = [devshm_record] /\
  is_some (strstr devshm_record "name=/dev/shm/") = true /\
  names_tmp devshm_record = false /\
  exists s : audit_summary_t,
    fst (probe_audit (hdr := Host.header) devshm_host 3600 Host.boot) = Some s /\
    devshm_executions s = 1 /\ tmp_executions s = 0 /\
    anomalies s = [] /\ risk_score s = 6 /\ risk_level s = "medium".
Proof.
  assert (H1 : only_exec_activity devshm_host).
  { repeat split; try reflexivity.
    intros cmd Hcmd. unfold devshm_host, Host.with_output. cbn [popen_r].
    destruct (String.eqb cmd cmd_exec) eqn:E; [|reflexivity].
    apply String.eqb_eq in E. contradiction. }
  assert (H2 : popen_r devshm_host cmd_exec = Some devshm_record) by reflexivity.
  assert (H3 : fgets_all 1024 devshm_record = [devshm_record])
    by (vm_compute; reflexivity).
  assert (H4 : is_some (strstr devshm_record "name=/dev/shm/") = true)
    by (vm_compute; reflexivity).
  assert (H5 : names_tmp devshm_record = false)
    by (vm_compute; reflexivity).
  repeat (split; [assumption|]).
  destruct (devshm_probe_without_baseline (hdr := Host.header) devshm_host 3600
              Host.boot devshm_record devshm_record H1 H2 H3 H4)
    as (s & Hs & Hd & Han & Hl & Hno & _).
  destruct (Hno H5) as (Ht & Hr).
  exists s. repeat (split; [assumption|]). assumption.
Defined.

(** ** The file parser at capacity *)

(** Once [sensitive_files] is full the guard at the head of the loop
    body skips the line altogether, whether or not its path is already
    listed. *)
Lemma file_line_at_capacity {hdr : AuditHeader}
  (s : audit_summary_t) (line : string) (w : World) :
  MAX_AUDIT_FILES <= sensitive_file_count s ->
  fst (file_line s line w) = s.
Proof.
  intros Hfull. unfold file_line, bind.
  destruct ((if 0 <=? extract_event_id line
             then get_event_ctx (extract_event_id line)
             else ret None) w) as [ctx w1].
  destruct (strstr line ("name=" ++ dq)) as [name|]; [|reflexivity].
  replace (sensitive_file_count s <? MAX_AUDIT_FILES) with false
    by (symmetry; apply Z.ltb_ge; exact Hfull).
  rewrite andb_false_r. reflexivity.
Qed.

(** Below capacity a repeated path increments the count of its entry. *)
Lemma file_line_repeat_below_capacity {hdr : AuditHeader}
  (s : audit_summary_t) (line name : string) (w : World) (j : nat) :
  strstr line ("name=" ++ dq) = Some name ->
  let path := copy_until_quote (AUDIT_PATH_LEN - 1) (advance 6 name) in
  Nat.ltb 5 (strlen path) && last_is_not_slash path = true ->
  sensitive_file_count s < MAX_AUDIT_FILES ->
  find_index (fun fa => String.eqb (fa_path fa) path) (sensitive_files s) 0 = Some j ->
  fst (file_line s line w)
  = set_sensitive_files (update_nth j bump_file (sensitive_files s)) s.
Proof.
  intros Hname path Hok Hroom Hfound. unfold file_line, bind.
  destruct ((if 0 <=? extract_event_id line
             then get_event_ctx (extract_event_id line)
             else ret None) w) as [ctx w1].
  rewrite Hname. fold path. rewrite Hok.
  replace (sensitive_file_count s <? MAX_AUDIT_FILES) with true
    by (symmetry; apply Z.ltb_lt; exact Hroom).
  cbn [andb]. rewrite Hfound. reflexivity.
Qed.

Lemma copy_until_quote_length (n : nat) (p : string) :
  (String.length (copy_until_quote n p) <= n)%nat.
Proof.
  revert p. induction n as [|n IH]; intros p; [cbn; lia|].
  destruct p as [|c t]; cbn; [lia|].
  destruct (Ascii.eqb c DQUOTE); cbn; [lia|]. specialize (IH t). lia.
Qed.

Lemma strn_short (n : nat) (s : string) :
  (String.length s <= n)%nat -> strn n s = s.
Proof.
  revert s. induction n as [|n IH]; intros s Hs.
  - destruct s; [reflexivity|cbn in Hs; lia].
  - destruct s as [|c t]; [reflexivity|]. cbn. f_equal. apply IH. cbn in Hs. lia.
Qed.

Lemma update_nth_paths (j : nat) (l : list file_access_t) :
  map fa_path (update_nth j bump_file l) = map fa_path l.
Proof.
  revert j. induction l as [|fa l IH]; intros j; [reflexivity|].
  destruct j as [|j]; cbn; [reflexivity|]. f_equal. apply IH.
Qed.

Lemma add_file_access_paths {hdr : AuditHeader} (s : audit_summary_t)
  (path : string) (ctx : option audit_event_ctx_t) :
  map fa_path (sensitive_files (add_file_access s path ctx))
  = (map fa_path (sensitive_files s) ++ [strn (AUDIT_PATH_LEN - 1) path])%list.
Proof.
  unfold add_file_access.
  destruct ctx as [c|]; [destruct (Nat.ltb 0 (strlen (ctx_comm c)));
    [destruct (is_suspicious_chain _)|]|];
    destruct (is_some (strstr path "shadow") || is_some (strstr path "sudoers"));
    cbn [sensitive_files set_sensitive_files set_suspicious_exec_count];
    rewrite map_app; reflexivity.
Qed.

(** The other half of the invariant holds: no line of the file parser
    makes a path appear twice. *)
Lemma file_line_paths_distinct {hdr : AuditHeader}
  (s : audit_summary_t) (line : string) (w : World) :
  NoDup (map fa_path (sensitive_files s)) ->
  NoDup (map fa_path (sensitive_files (fst (file_line s line w)))).
Proof.
  intros Hnd. unfold file_line, bind.
  destruct ((if 0 <=? extract_event_id line
             then get_event_ctx (extract_event_id line)
             else ret None) w) as [ctx w1].
  destruct (strstr line ("name=" ++ dq)) as [name|]; [|exact Hnd].
  set (path := copy_until_quote (AUDIT_PATH_LEN - 1) (advance 6 name)).
  match goal with |- context [if ?c then _ else _] => destruct c end; [|exact Hnd].
  destruct (find_index _ _ 0) as [j|] eqn:Hf; cbn [get_event_table fst ret].
  - cbn [sensitive_files set_sensitive_files]. rewrite update_nth_paths. exact Hnd.
  - rewrite add_file_access_paths.
    rewrite (strn_short _ path) by apply copy_until_quote_length.
    apply NoDup_app; [exact Hnd|repeat constructor; intros []|].
    intros x Hx [<-|[]]. apply in_map_iff in Hx. destruct Hx as (fa & Hp & Hin).
    pose proof (find_index_none _ _ _ Hf fa Hin) as Hne. cbv beta in Hne.
    rewrite Hp, String.eqb_refl in Hne. discriminate.
Qed.

Lemma parse_file_events_paths_distinct {hdr : AuditHeader} (sys : Env)
  (s : audit_summary_t) (window_seconds : Z) (w : World) :
  NoDup (map fa_path (sensitive_files s)) ->
  NoDup (map fa_path
           (sensitive_files (fst (parse_file_events sys s window_seconds w)))).
Proof.
  intros Hnd. unfold parse_file_events.
  destruct (popen_r sys cmd_file) as [out|]; [|exact Hnd].
  apply (for_each_preserves
           (fun s' => NoDup (map fa_path (sensitive_files s')))); [|exact Hnd].
  intros s1 x w1 H1. apply file_line_paths_distinct. exact H1.
Qed.

(** C4 (the code departs from it).  The stream fills [sensitive_files]
    with three distinct paths and then repeats the first: the repeated
    event finds the table full and is dropped, so the count of
    /etc/shadow is still 1 although the path was seen twice. *)
Theorem file_repeat_dropped_at_capacity :
  MAX_AUDIT_FILES (AuditHeader := Host.header) = 3 /\
  map (fun fa => (fa_path fa, fa_count fa))
    (sensitive_files
       (fst (parse_file_events (hdr := Host.header) full_then_repeat_host
               zeroed_summary 3600 Host.boot)))
  = [("/etc/shadow", 1); ("/etc/passwd", 1); ("/etc/group", 1)].
Proof. split; vm_compute; reflexivity. Qed.

(** ** The file parser and [suspicious_exec_count] *)

Lemma add_file_access_spec {hdr : AuditHeader} (s : audit_summary_t)
  (path : string) (ctx : option audit_event_ctx_t) :
  exists fa : file_access_t,
    sensitive_files (add_file_access s path ctx) = (sensitive_files s ++ [fa])%list /\
    fa_path fa = strn (AUDIT_PATH_LEN - 1) path /\ fa_count fa = 1 /\
    fa_suspicious fa = chain_flagged ctx || names_sensitive path /\
    suspicious_exec_count (add_file_access s path ctx)
    = (if chain_flagged ctx then CInt.incr (suspicious_exec_count s)
       else suspicious_exec_count s).
Proof.
  unfold add_file_access, chain_flagged, correlated, names_sensitive.
  destruct ctx as [c|].
  - destruct (Nat.ltb 0 (strlen (ctx_comm c))).
    + fold (chain_of c). destruct (is_suspicious_chain (chain_of c));
        destruct (is_some (strstr path "shadow") || is_some (strstr path "sudoers"));
        eexists; repeat split; reflexivity.
    + destruct (is_some (strstr path "shadow") || is_some (strstr path "sudoers"));
        eexists; repeat split; reflexivity.
  - destruct (is_some (strstr path "shadow") || is_some (strstr path "sudoers"));
      eexists; repeat split; reflexivity.
Qed.

Lemma add_file_access_uncorrelated {hdr : AuditHeader} (s : audit_summary_t)
  (path : string) (ctx : option audit_event_ctx_t) (f : process_chain_t -> bool) :
  correlated ctx = None ->
  add_file_access (hdr := with_chain_check f hdr) s path ctx
  = add_file_access s path ctx.
Proof.
  unfold add_file_access, correlated. destruct ctx as [c|]; [|reflexivity].
  destruct (Nat.ltb 0 (strlen (ctx_comm c))); [discriminate|reflexivity].
Qed.

(** The lookup of the slot is all that a line does to the world. *)
Lemma file_line_world {hdr : AuditHeader} (s : audit_summary_t) (line : string)
  (w : World) :
  snd (file_line s line w)
  = snd ((if 0 <=? extract_event_id line
          then get_event_ctx (extract_event_id line) else ret None) w).
Proof.
  unfold file_line, bind.
  destruct ((if 0 <=? extract_event_id line
             then get_event_ctx (extract_event_id line)
             else ret None) w) as [ctx w1].
  destruct (strstr line ("name=" ++ dq)); [|reflexivity].
  match goal with |- context [if ?c then _ else _] => destruct c end;
    [|reflexivity].
  destruct (find_index _ _ 0); reflexivity.
Qed.

(** The slot that the loop body looks up is [line_slot]. *)
Lemma line_slot_lookup (line : string) (w : World) :
  let r := (if 0 <=? extract_event_id line
            then get_event_ctx (extract_event_id line)
            else ret None) w in
  match fst r with
  | Some i => nth_error (event_ctx (snd r)) i
  | None => None
  end = line_slot line w.
Proof.
  cbv zeta. unfold line_slot.
  destruct (0 <=? extract_event_id line); [|reflexivity].
  unfold get_event_ctx, bind, get_event_table, put_event_table, ret, find_ctx,
    event_ctx_count.
  pose proof (find_index_find
                (fun c => ctx_used c && (ctx_event_id c =? extract_event_id line))
                (event_ctx w) 0) as Hf.
  destruct (find_index _ (event_ctx w) 0) as [i|].
  - destruct Hf as (_ & Hn & Hs). cbn [fst snd]. rewrite Nat.sub_0_r in Hn.
    rewrite Hn. destruct (find _ (event_ctx w)); [reflexivity|contradiction].
  - rewrite Hf.
    destruct (MAX_AUDIT_EVENTS <=? Z.of_nat (List.length (event_ctx w)));
      [reflexivity|].
    cbn [fst snd event_ctx]. rewrite nth_error_app2 by lia.
    rewrite Nat.sub_diag. reflexivity.
Qed.

Lemma line_slot_no_context (line : string) (w : World) :
  no_context w -> correlated (line_slot line w) = None.
Proof.
  intros Hw. unfold line_slot.
  destruct (0 <=? extract_event_id line); [|reflexivity].
  destruct (find _ (event_ctx w)) as [c|] eqn:Hf.
  - apply find_some in Hf. destruct Hf as (Hin & _).
    unfold no_context in Hw. rewrite Forall_forall in Hw.
    unfold correlated. rewrite (Hw c Hin). reflexivity.
  - destruct (MAX_AUDIT_EVENTS <=? event_ctx_count w); reflexivity.
Qed.

(** The branch that [file_line] takes. *)
Lemma file_line_cases {hdr : AuditHeader} (s : audit_summary_t) (line : string)
  (w : World) :
  match new_path s line with
  | Some path =>
      fst (file_line s line w) = add_file_access s path (line_slot line w)
  | None =>
      fst (file_line s line w) = s \/
      exists j, fst (file_line s line w)
                = set_sensitive_files (update_nth j bump_file (sensitive_files s)) s
  end.
Proof.
  pose proof (line_slot_lookup line w) as Hslot. cbv zeta in Hslot.
  unfold new_path, line_path, file_line, bind.
  destruct ((if 0 <=? extract_event_id line
             then get_event_ctx (extract_event_id line)
             else ret None) w) as [ctx w1].
  cbn [fst snd] in Hslot.
  destruct (strstr line ("name=" ++ dq)) as [name|]; [|left; reflexivity].
  set (path := copy_until_quote (AUDIT_PATH_LEN - 1) (advance 6 name)).
  rewrite <- (find_index_existsb _ (sensitive_files s) 0).
  destruct (Nat.ltb 5 (strlen path) && last_is_not_slash path
            && (sensitive_file_count s <? MAX_AUDIT_FILES));
    cbn [andb]; [|left; reflexivity].
  destruct (find_index _ (sensitive_files s) 0) as [j|]; cbn [is_some negb].
  - right. exists j. reflexivity.
  - cbn [get_event_table fst ret]. rewrite Hslot. reflexivity.
Qed.

Lemma new_path_fits {hdr : AuditHeader} (s : audit_summary_t) (line path : string) :
  new_path s line = Some path -> strn (AUDIT_PATH_LEN - 1) path = path.
Proof.
  unfold new_path, line_path. intros H.
  destruct (strstr line ("name=" ++ dq)) as [name|]; [|discriminate H].
  match type of H with (if ?c then _ else _) = _ => destruct c end;
    [|discriminate H].
  injection H as <-. apply strn_short, copy_until_quote_length.
Qed.

Lemma new_path_chain_check {hdr : AuditHeader} (f : process_chain_t -> bool)
  (s : audit_summary_t) (line : string) :
  new_path (hdr := with_chain_check f hdr) s line = new_path s line.
Proof. reflexivity. Qed.

Lemma file_line_new_entry {hdr : AuditHeader} (s : audit_summary_t)
  (line path : string) (w : World) :
  new_path s line = Some path ->
  exists fa : file_access_t,
    sensitive_files (fst (file_line s line w)) = (sensitive_files s ++ [fa])%list /\
    fa_path fa = path /\ fa_count fa = 1 /\
    fa_suspicious fa = chain_flagged (line_slot line w) || names_sensitive path /\
    suspicious_exec_count (fst (file_line s line w))
    = (if chain_flagged (line_slot line w)
       then CInt.incr (suspicious_exec_count s)
       else suspicious_exec_count s) /\
    (correlated (line_slot line w) = None ->
     fa_suspicious fa = names_sensitive path /\
     suspicious_exec_count (fst (file_line s line w)) = suspicious_exec_count s /\
     forall f, fst (file_line (hdr := with_chain_check f hdr) s line w)
               = fst (file_line s line w)).
Proof.
  intros Hnew.
  pose proof (file_line_cases s line w) as Hl. rewrite Hnew in Hl.
  destruct (add_file_access_spec s path (line_slot line w))
    as (fa & Hfiles & Hpath & Hone & Hflag & Hcount).
  exists fa. rewrite Hl.
  split; [exact Hfiles|].
  split; [rewrite Hpath; exact (new_path_fits s line path Hnew)|].
  split; [exact Hone|]. split; [exact Hflag|]. split; [exact Hcount|].
  intros Hcor.
  assert (Hno : chain_flagged (line_slot line w) = false)
    by (unfold chain_flagged; rewrite Hcor; reflexivity).
  split; [rewrite Hflag, Hno; reflexivity|].
  split; [rewrite Hcount, Hno; reflexivity|].
  intros f.
  pose proof (file_line_cases (hdr := with_chain_check f hdr) s line w) as Hf.
  rewrite new_path_chain_check, Hnew in Hf. rewrite Hf.
  apply add_file_access_uncorrelated. exact Hcor.
Qed.

Lemma file_line_no_entry {hdr : AuditHeader} (s : audit_summary_t)
  (line : string) (w : World) :
  new_path s line = None ->
  suspicious_exec_count (fst (file_line s line w)) = suspicious_exec_count s /\
  map fa_suspicious (sensitive_files (fst (file_line s line w)))
  = map fa_suspicious (sensitive_files s) /\
  forall f, fst (file_line (hdr := with_chain_check f hdr) s line w)
            = fst (file_line s line w).
Proof.
  intros Hnew.
  assert (Hsame : forall (h : AuditHeader) (j : nat),
            fst (file_line (hdr := h) s line w)
            = set_sensitive_files (update_nth j bump_file (sensitive_files s)) s ->
            suspicious_exec_count (fst (file_line (hdr := h) s line w))
            = suspicious_exec_count s /\
            map fa_suspicious (sensitive_files (fst (file_line (hdr := h) s line w)))
            = map fa_suspicious (sensitive_files s)).
  { intros h j ->. split; [reflexivity|]. cbn [sensitive_files set_sensitive_files].
    apply update_nth_map. intros fa. reflexivity. }
  pose proof (file_line_cases s line w) as Hl. rewrite Hnew in Hl.
  split; [destruct Hl as [->|(j & Hj)]; [reflexivity|apply (Hsame _ j Hj)]|].
  split; [destruct Hl as [->|(j & Hj)]; [reflexivity|apply (Hsame _ j Hj)]|].
  intros f. unfold file_line, bind.
  revert Hnew. unfold new_path, line_path.
  destruct ((if 0 <=? extract_event_id line
             then get_event_ctx (extract_event_id line)
             else ret None) w) as [ctx w1].
  destruct (strstr line ("name=" ++ dq)) as [name|]; [|reflexivity].
  set (path := copy_until_quote (AUDIT_PATH_LEN - 1) (advance 6 name)).
  change (@AUDIT_PATH_LEN (with_chain_check f hdr)) with (@AUDIT_PATH_LEN hdr).
  change (@MAX_AUDIT_FILES (with_chain_check f hdr)) with (@MAX_AUDIT_FILES hdr).
  fold path.
  rewrite <- (find_index_existsb _ (sensitive_files s) 0).
  destruct (Nat.ltb 5 (strlen path) && last_is_not_slash path
            && (sensitive_file_count s <? MAX_AUDIT_FILES));
    cbn [andb]; [|reflexivity].
  destruct (find_index _ (sensitive_files s) 0) as [j|]; cbn [is_some negb];
    [reflexivity|discriminate].
Qed.

Lemma lookup_no_context (line : string) (w : World) :
  no_context w ->
  no_context (snd ((if 0 <=? extract_event_id line
                    then get_event_ctx (extract_event_id line)
                    else ret None) w)).
Proof.
  intros Hw. destruct (0 <=? extract_event_id line); [|exact Hw].
  unfold get_event_ctx, bind, get_event_table, put_event_table, ret.
  destruct (find_ctx _ (event_ctx w)); [exact Hw|].
  destruct (MAX_AUDIT_EVENTS <=? _); [exact Hw|].
  unfold no_context. cbn [snd event_ctx]. apply Forall_app.
  split; [exact Hw|]. constructor; [reflexivity|constructor].
Qed.

Lemma file_line_chain_check {hdr : AuditHeader} (s : audit_summary_t)
  (line : string) (w : World) (f : process_chain_t -> bool) :
  correlated (line_slot line w) = None ->
  file_line (hdr := with_chain_check f hdr) s line w = file_line s line w.
Proof.
  intros Hcor. apply injective_projections.
  - destruct (new_path s line) as [path|] eqn:Hnew.
    + destruct (file_line_new_entry s line path w Hnew) as (fa & _ & _ & _ & _ & _ & H).
      apply H. exact Hcor.
    + apply (file_line_no_entry s line w Hnew).
  - rewrite !file_line_world. reflexivity.
Qed.

Lemma file_line_flagged_by_path {hdr : AuditHeader} (s : audit_summary_t)
  (line : string) (w : World) :
  correlated (line_slot line w) = None ->
  suspicious_exec_count (fst (file_line s line w)) = suspicious_exec_count s /\
  (Forall flagged_by_path (sensitive_files s) ->
   Forall flagged_by_path (sensitive_files (fst (file_line s line w)))).
Proof.
  intros Hcor. destruct (new_path s line) as [path|] eqn:Hnew.
  - destruct (file_line_new_entry s line path w Hnew)
      as (fa & Hfiles & Hpath & _ & _ & _ & H).
    destruct (H Hcor) as (Hflag & Hcount & _).
    split; [exact Hcount|]. intros Hall. rewrite Hfiles. apply Forall_app.
    split; [exact Hall|]. constructor; [|constructor].
    unfold flagged_by_path. rewrite Hpath. exact Hflag.
  - pose proof (file_line_cases s line w) as Hl. rewrite Hnew in Hl.
    destruct Hl as [->|(j & ->)]; [split; [reflexivity|auto]|].
    split; [reflexivity|]. intros Hall. cbn [sensitive_files set_sensitive_files].
    apply update_nth_Forall; [|exact Hall]. intros fa Hfa. exact Hfa.
Qed.

Lemma for_each_file_line_no_context {hdr : AuditHeader} (l : list string) :
  forall (s : audit_summary_t) (w : World),
    no_context w ->
    suspicious_exec_count (fst (for_each file_line s l w)) = suspicious_exec_count s /\
    (Forall flagged_by_path (sensitive_files s) ->
     Forall flagged_by_path (sensitive_files (fst (for_each file_line s l w)))) /\
    forall f, for_each (file_line (hdr := with_chain_check f hdr)) s l w
              = for_each file_line s l w.
Proof.
  induction l as [|line l IH]; intros s w Hw.
  - split; [reflexivity|]. split; [auto|reflexivity].
  - pose proof (line_slot_no_context line w Hw) as Hcor.
    destruct (file_line_flagged_by_path s line w Hcor) as (Hcount & Hall).
    pose proof (lookup_no_context line w Hw) as Hw1.
    rewrite <- (file_line_world s line w) in Hw1.
    cbn [for_each]. unfold bind.
    assert (Hf : forall f, file_line (hdr := with_chain_check f hdr) s line w
                           = file_line s line w)
      by (intros f; apply file_line_chain_check; exact Hcor).
    destruct (file_line s line w) as [s1 w1] eqn:E. cbn [fst snd] in *.
    destruct (IH s1 w1 Hw1) as (Hc & Ha & Hi).
    split; [rewrite Hc; exact Hcount|]. split; [intros H; apply Ha, Hall, H|].
    intros f. rewrite Hf. apply Hi.
Qed.

Lemma parse_file_events_no_context {hdr : AuditHeader} (sys : Env)
  (s : audit_summary_t) (window_seconds : Z) (w : World) :
  no_context w ->
  suspicious_exec_count (fst (parse_file_events sys s window_seconds w))
  = suspicious_exec_count s /\
  (Forall flagged_by_path (sensitive_files s) ->
   Forall flagged_by_path
     (sensitive_files (fst (parse_file_events sys s window_seconds w)))) /\
  forall f, parse_file_events (hdr := with_chain_check f hdr) sys s window_seconds w
            = parse_file_events sys s window_seconds w.
Proof.
  intros Hw. unfold parse_file_events.
  destruct (popen_r sys cmd_file) as [out|].
  - apply for_each_file_line_no_context. exact Hw.
  - split; [reflexivity|]. split; [auto|reflexivity].
Qed.

(** C10.  A line for a path that the parser has room for and has not
    listed yet makes it append one entry, for that path, with count 1.
    The entry is suspicious when the chain of the slot correlated
    with the line was flagged or the path contains shadow or sudoers;
    [suspicious_exec_count] is incremented exactly when the chain was
    flagged, whatever the path.  Without a slot with a non-empty
    [comm] the chain check is not consulted (replacing it changes
    nothing): the flag is the shadow/sudoers rule alone and the
    counter stays.  Any other line leaves the counter and every flag
    as they were.  Hence, while no slot of the event table carries a
    process name, the whole parser leaves [suspicious_exec_count]
    alone and flags entries by their path only. *)
Theorem shadow_rule_leaves_suspicious_exec_count
  {hdr : AuditHeader} (s : audit_summary_t) (line : string) (w : World) :
  (forall path, new_path s line = Some path ->
   exists fa : file_access_t,
     sensitive_files (fst (file_line s line w)) = (sensitive_files s ++ [fa])%list /\
     fa_path fa = path /\ fa_count fa = 1 /\
     fa_suspicious fa = chain_flagged (line_slot line w) || names_sensitive path /\
     suspicious_exec_count (fst (file_line s line w))
     = (if chain_flagged (line_slot line w)
        then CInt.incr (suspicious_exec_count s)
        else suspicious_exec_count s) /\
     (correlated (line_slot line w) = None ->
      fa_suspicious fa = names_sensitive path /\
      suspicious_exec_count (fst (file_line s line w)) = suspicious_exec_count s /\
      forall f, fst (file_line (hdr := with_chain_check f hdr) s line w)
                = fst (file_line s line w))) /\
  (new_path s line = None ->
   suspicious_exec_count (fst (file_line s line w)) = suspicious_exec_count s /\
   map fa_suspicious (sensitive_files (fst (file_line s line w)))
   = map fa_suspicious (sensitive_files s) /\
   forall f, fst (file_line (hdr := with_chain_check f hdr) s line w)
             = fst (file_line s line w)) /\
  (forall (sys : Env) (window_seconds : Z),
     no_context w ->
     suspicious_exec_count (fst (parse_file_events sys s window_seconds w))
     = suspicious_exec_count s /\
     (Forall flagged_by_path (sensitive_files s) ->
      Forall flagged_by_path
        (sensitive_files (fst (parse_file_events sys s window_seconds w)))) /\
     forall f, parse_file_events (hdr := with_chain_check f hdr) sys s window_seconds w
               = parse_file_events sys s window_seconds w).
Proof.
  split; [|split].
  - intros path. apply file_line_new_entry.
  - apply file_line_no_entry.
  - intros sys window_seconds. apply parse_file_events_no_context.
Qed.

(** Under a chain check that flags every chain: the record for
    /etc/shadow without SYSCALL context gives a suspicious entry and
    leaves the counter at 0; the record of event 42, whose SYSCALL
    record named the process, gives a suspicious entry and counts. *)
Lemma shadow_rule_leaves_suspicious_exec_count_witness :
  (new_path (hdr := wary_header) zeroed_summary shadow_line = Some "/etc/shadow" /\
   correlated (line_slot shadow_line Host.boot) = None /\
   exists fa : file_access_t,
     sensitive_files (fst (file_line (hdr := wary_header) zeroed_summary shadow_line
                             Host.boot)) = [fa] /\
     fa_path fa = "/etc/shadow" /\ fa_suspicious fa = true /\
     suspicious_exec_count
       (fst (file_line (hdr := wary_header) zeroed_summary shadow_line Host.boot))
     = 0) /\
  (let w := snd (parse_syscall_context correlated_host 3600 Host.boot) in
   let line := path_record "42" "/etc/shadow" in
   new_path (hdr := wary_header) zeroed_summary line = Some "/etc/shadow" /\
   chain_flagged (hdr := wary_header) (line_slot line w) = true /\
   exists fa : file_access_t,
     sensitive_files (fst (file_line (hdr := wary_header) zeroed_summary line w))
     = [fa] /\
     fa_suspicious fa = true /\
     suspicious_exec_count (fst (file_line (hdr := wary_header) zeroed_summary line w))
     = 1).
Proof.
  split.
  - assert (H1 : new_path (hdr := wary_header) zeroed_summary shadow_line
                 = Some "/etc/shadow") by (vm_compute; reflexivity).
    assert (H2 : correlated (line_slot shadow_line Host.boot) = None)
      by (vm_compute; reflexivity).
    split; [exact H1|]. split; [exact H2|].
    destruct (shadow_rule_leaves_suspicious_exec_count (hdr := wary_header)
                zeroed_summary shadow_line Host.boot) as (T & _).
    destruct (T "/etc/shadow" H1) as (fa & Hfiles & Hpath & _ & _ & _ & Hun).
    destruct (Hun H2) as (Hflag & Hcount & _).
    exists fa. split; [exact Hfiles|]. split; [exact Hpath|].
    split; [rewrite Hflag; vm_compute; reflexivity|exact Hcount].
  - cbv zeta.
    set (w := snd (parse_syscall_context correlated_host 3600 Host.boot)).
    set (line := path_record "42" "/etc/shadow").
    assert (H1 : new_path (hdr := wary_header) zeroed_summary line
                 = Some "/etc/shadow") by (vm_compute; reflexivity).
    assert (H2 : chain_flagged (hdr := wary_header) (line_slot line w) = true)
      by (vm_compute; reflexivity).
    split; [exact H1|]. split; [exact H2|].
    destruct (shadow_rule_leaves_suspicious_exec_count (hdr := wary_header)
                zeroed_summary line w) as (T & _).
    destruct (T "/etc/shadow" H1) as (fa & Hfiles & _ & _ & Hflag & Hcount & _).
    rewrite H2 in Hflag, Hcount.
    exists fa. split; [exact Hfiles|]. split; [exact Hflag|exact Hcount].
Defined.

(** ** Per-user failure counts *)

Lemma update_nth_hashes (i : nat) (l : list hashed_user_t) :
  map hu_hash (update_nth i bump_user l) = map hu_hash l.
Proof.
  revert i. induction l as [|u l IH]; intros i; [reflexivity|].
  destruct i as [|i]; cbn; [reflexivity|]. f_equal. apply IH.
Qed.

Lemma update_nth_last {A} (f : A -> A) (l : list A) (x : A) :
  update_nth (List.length l) f (l ++ [x]) = (l ++ [f x])%list.
Proof. induction l as [|y l IH]; cbn; [reflexivity|]. f_equal. exact IH. Qed.

Lemma sum_counts_app (l1 l2 : list hashed_user_t) :
  sum_counts (l1 ++ l2) = sum_counts l1 + sum_counts l2.
Proof. induction l1 as [|u l1 IH]; cbn; [reflexivity|]. rewrite IH. lia. Qed.

Lemma sum_counts_nonneg (l : list hashed_user_t) :
  Forall (fun u => 0 <= hu_count u) l -> 0 <= sum_counts l.
Proof.
  induction 1 as [|u l Hu _ IH]; cbn; lia.
Qed.

(** Incrementing one entry adds one to the sum, as long as the sum is
    below [INT_MAX] (no entry can then overflow). *)
Lemma sum_counts_bump (l : list hashed_user_t) (i : nat) :
  Forall (fun u => 0 <= hu_count u) l ->
  sum_counts l < CInt.INT_MAX ->
  (i < List.length l)%nat ->
  sum_counts (update_nth i bump_user l) = sum_counts l + 1 /\
  Forall (fun u => 0 <= hu_count u) (update_nth i bump_user l).
Proof.
  intros Hpos. revert i. induction Hpos as [|u l Hu Hl IH]; intros i Hsum Hi.
  - cbn in Hi. lia.
  - pose proof (sum_counts_nonneg l Hl) as Hnn. cbn in Hsum. cbv beta in Hu.
    destruct i as [|i]; cbn.
    + assert (E : CInt.incr (hu_count u) = hu_count u + 1).
      { apply incr_small. int_lia. }
      rewrite E. split; [lia|]. constructor; [cbn; rewrite E; lia|exact Hl].
    + destruct (IH i) as [E F]; [int_lia|cbn in Hi; lia|].
      rewrite E. split; [lia|]. constructor; assumption.
Qed.

Lemma strn_idempotent (n : nat) (s : string) : strn n (strn n s) = strn n s.
Proof.
  revert s. induction n as [|n IH]; intros s; [reflexivity|].
  destruct s as [|c t]; [reflexivity|]. cbn. f_equal. apply IH.
Qed.

(** The tag stored for a new user is the tag that later lookups
    compare with. *)
Lemma stored_hash_is_hash {hdr : AuditHeader} (username : string) :
  strn (HASH_USERNAME_LEN - 1) (hash_username username EmptyString HASH_USERNAME_LEN)
  = hash_username username EmptyString HASH_USERNAME_LEN.
Proof.
  unfold hash_username. rewrite Nat.ltb_irrefl.
  destruct HASH_USERNAME_LEN as [|n]; [reflexivity|].
  rewrite Nat.sub_succ, Nat.sub_0_r. apply strn_idempotent.
Qed.

(** What one line does to [auth_failures] and [failure_users]. *)
Lemma auth_line_cases {hdr : AuditHeader} (s : audit_summary_t) (line : string) :
  let s' := auth_line s line in
  let fu := failure_users s in
  (failed line = false /\ auth_failures s' = auth_failures s /\
   failure_users s' = fu) \/
  (failed line = true /\ auth_failures s' = CInt.incr (auth_failures s) /\
   match acct_of line with
   | None => failure_users s' = fu
   | Some u =>
       let h := hash_username u EmptyString HASH_USERNAME_LEN in
       let found := find_index (fun x => String.eqb (hu_hash x) h) fu 0 in
       (exists i, found = Some i /\ failure_users s' = update_nth i bump_user fu) \/
       (found = None /\ Z.of_nat (List.length fu) < MAX_AUDIT_USERS /\
        failure_users s' = (fu ++ [{| hu_hash := h; hu_count := CInt.incr 0 |}])%list) \/
       (found = None /\ MAX_AUDIT_USERS <= Z.of_nat (List.length fu) /\
        failure_users s' = fu)
   end).
Proof.
  cbv zeta. unfold auth_line, failed, acct_of.
  destruct (strstr line "res=failed") as [r|]; cbn [is_some].
  2:{ left. destruct (strstr line "res=success"); repeat split; reflexivity. }
  right. split; [reflexivity|].
  destruct (strstr line ("acct=" ++ dq)) as [acct|]; [|split; reflexivity].
  set (u := copy_until_quote 63 (advance 6 acct)).
  destruct (Nat.ltb 0 (strlen u)); [|split; reflexivity].
  unfold find_or_add_user, failure_user_count.
  cbn [failure_users set_auth_failures].
  destruct (find_index _ (failure_users s) 0) as [i|] eqn:Hf.
  - split; [reflexivity|]. left. exists i. split; reflexivity.
  - destruct (Z.of_nat (List.length (failure_users s)) <? MAX_AUDIT_USERS) eqn:Hroom.
    + split; [reflexivity|]. right. left. apply Z.ltb_lt in Hroom.
      repeat split; try assumption.
      cbn [failure_users set_failure_users set_auth_failures].
      rewrite update_nth_last, stored_hash_is_hash. reflexivity.
    + split; [reflexivity|]. right. right. apply Z.ltb_ge in Hroom.
      repeat split; assumption.
Qed.

Lemma auth_line_counts_bounded {hdr : AuditHeader}
  (s : audit_summary_t) (line : string) (n : Z) :
  counts_bounded s n -> n < CInt.INT_MAX ->
  counts_bounded (auth_line s line) (n + 1).
Proof.
  intros (Hpos & Hsum & Haf) Hn. unfold counts_bounded.
  destruct (auth_line_cases s line) as [(_ & Ea & Eu)|(_ & Ea & Hu)]; cbv zeta in *.
  - rewrite Ea, Eu. repeat split; try assumption; lia.
  - assert (Einc : CInt.incr (auth_failures s) = auth_failures s + 1)
      by (apply incr_small; int_lia).
    rewrite Ea, Einc.
    destruct (acct_of line) as [u|].
    + destruct Hu as [(i & Hf & Eu)|[(Hf & Hroom & Eu)|(Hf & Hfull & Eu)]]; rewrite Eu.
      * apply find_index_bound in Hf.
        destruct (sum_counts_bump (failure_users s) i Hpos) as [E F]; [lia|lia|].
        rewrite E. repeat split; try assumption; lia.
      * rewrite sum_counts_app. cbn. repeat split; try lia.
        apply Forall_app. split; [exact Hpos|]. constructor; [cbn; lia|constructor].
      * repeat split; try assumption; lia.
    + rewrite Hu. repeat split; try assumption; lia.
Qed.

Lemma fold_auth_line_counts_bounded {hdr : AuditHeader}
  (lines : list string) (s : audit_summary_t) (n : Z) :
  counts_bounded s n ->
  n + Z.of_nat (List.length lines) <= CInt.INT_MAX ->
  counts_bounded (fold_left auth_line lines s) (n + Z.of_nat (List.length lines)).
Proof.
  revert s n. induction lines as [|line lines IH]; intros s n Hinv Hn.
  - cbn. rewrite Z.add_0_r. exact Hinv.
  - cbn [fold_left List.length] in *. rewrite Nat2Z.inj_succ in *.
    replace (n + Z.succ (Z.of_nat (List.length lines)))
      with ((n + 1) + Z.of_nat (List.length lines)) by lia.
    apply IH; [|lia]. apply auth_line_counts_bounded; [exact Hinv|lia].
Qed.

Lemma auth_line_counts_exact {hdr : AuditHeader}
  (L : list string) (s : audit_summary_t) (line : string) (n : Z) :
  (forall l', NoDup l' -> incl l' L -> Z.of_nat (List.length l') <= MAX_AUDIT_USERS) ->
  counts_bounded s n -> n < CInt.INT_MAX -> counts_exact L s ->
  (failed line = true ->
   exists u, acct_of line = Some u /\ In (hash_username u EmptyString HASH_USERNAME_LEN) L) ->
  counts_exact L (auth_line s line).
Proof.
  intros Hcap (Hpos & Hsum & Haf) Hn (Heq & Hnd & Hincl) Hline. unfold counts_exact.
  destruct (auth_line_cases s line) as [(_ & Ea & Eu)|(Hfail & Ea & Hu)]; cbv zeta in *.
  - rewrite Ea, Eu. repeat split; assumption.
  - destruct (Hline Hfail) as (u & Hacct & HinL). rewrite Hacct in Hu.
    assert (Einc : CInt.incr (auth_failures s) = auth_failures s + 1)
      by (apply incr_small; int_lia).
    rewrite Ea, Einc.
    destruct Hu as [(i & Hf & Eu)|[(Hf & Hroom & Eu)|(Hf & Hfull & Eu)]]; rewrite Eu.
    + apply find_index_bound in Hf.
      destruct (sum_counts_bump (failure_users s) i Hpos) as [E _]; [lia|lia|].
      rewrite E, update_nth_hashes. repeat split; try assumption; lia.
    + assert (Hfresh : ~ In (hash_username u EmptyString HASH_USERNAME_LEN)
                         (map hu_hash (failure_users s))).
      { intros Hin. apply in_map_iff in Hin. destruct Hin as (x & Hx & Hin).
        pose proof (find_index_none _ _ _ Hf x Hin) as Hne. cbv beta in Hne.
        rewrite Hx, String.eqb_refl in Hne. discriminate. }
      rewrite sum_counts_app, map_app. cbn. repeat split.
      * lia.
      * apply NoDup_app; [exact Hnd|repeat constructor; intros []|].
        intros x Hx [<-|[]]. exact (Hfresh Hx).
      * apply incl_app; [exact Hincl|]. intros x [<-|[]]. exact HinL.
    + exfalso.
      assert (Hfresh : ~ In (hash_username u EmptyString HASH_USERNAME_LEN)
                         (map hu_hash (failure_users s))).
      { intros Hin. apply in_map_iff in Hin. destruct Hin as (x & Hx & Hin).
        pose proof (find_index_none _ _ _ Hf x Hin) as Hne. cbv beta in Hne.
        rewrite Hx, String.eqb_refl in Hne. discriminate. }
      specialize (Hcap (hash_username u EmptyString HASH_USERNAME_LEN
                          :: map hu_hash (failure_users s))).
      cbn [List.length] in Hcap. rewrite length_map in Hcap.
      assert (Z.of_nat (S (List.length (failure_users s))) <= MAX_AUDIT_USERS).
      { apply Hcap; [constructor; assumption|].
        intros x [<-|Hx]; [exact HinL|exact (Hincl x Hx)]. }
      lia.
Qed.

Lemma fold_auth_line_counts_exact {hdr : AuditHeader}
  (L : list string) (lines : list string) (s : audit_summary_t) (n : Z) :
  (forall l', NoDup l' -> incl l' L -> Z.of_nat (List.length l') <= MAX_AUDIT_USERS) ->
  counts_bounded s n ->
  n + Z.of_nat (List.length lines) <= CInt.INT_MAX ->
  counts_exact L s ->
  (forall line, In line lines -> failed line = true ->
     exists u, acct_of line = Some u /\ In (hash_username u EmptyString HASH_USERNAME_LEN) L) ->
  counts_exact L (fold_left auth_line lines s).
Proof.
  intros Hcap. revert s n.
  induction lines as [|line lines IH]; intros s n Hb Hn Hex Hlines.
  - exact Hex.
  - cbn [fold_left List.length] in *. rewrite Nat2Z.inj_succ in Hn.
    apply (IH _ (n + 1)).
    + apply auth_line_counts_bounded; [exact Hb|lia].
    + lia.
    + apply (auth_line_counts_exact L s line n); try assumption; [lia|].
      apply Hlines. left. reflexivity.
    + intros l Hl. apply Hlines. right. exact Hl.
Qed.

(** As many stored tags fit as there are distinct account names. *)
Lemma distinct_tags_bounded (f : string -> string) (users l' : list string) :
  NoDup l' -> incl l' (map f users) ->
  (List.length l' <= List.length (nodup string_dec users))%nat.
Proof.
  intros Hnd Hincl.
  rewrite <- (length_map f (nodup string_dec users)).
  apply NoDup_incl_length; [exact Hnd|].
  intros x Hx. apply Hincl in Hx. apply in_map_iff in Hx.
  destruct Hx as (u & <- & Hu). apply in_map. apply nodup_In. exact Hu.
Qed.

Lemma failing_users_in (lines : list string) (line u : string) :
  In line lines -> failed line = true -> acct_of line = Some u ->
  In u (failing_users lines).
Proof.
  intros Hin Hf Ha. unfold failing_users. apply in_flat_map.
  exists line. split; [exact Hin|]. rewrite Hf, Ha. left. reflexivity.
Qed.

(** The authentication fields of a probe's summary are those the
    parser left, or zero when the parser did not run. *)
Lemma probe_audit_auth_view {hdr : AuditHeader} (sys : Env)
  (window_seconds : Z) (w w' : World) (s : audit_summary_t) :
  probe_audit sys window_seconds w = (Some s, w') ->
  auth_view s = auth_view zeroed_summary \/
  auth_view s
  = auth_view (parse_auth_events sys
                 (init_summary window_seconds (time_at sys (clock w)))
                 window_seconds).
Proof.
  intros Hp. apply probe_audit_inv in Hp. destruct Hp as [_ Hp].
  cbv zeta in Hp. destruct (access_R_OK sys _).
  - right. destruct Hp as (s3 & s4 & Ha3 & _ & Hl & ->).
    rewrite calculate_risk_score_auth_view.
    destruct (load_audit_baseline sys zeroed_baseline_bytes) as [[] bytes].
    + destruct Hl as [w4 ->]. rewrite detect_anomalies_auth_view. exact Ha3.
    + subst s4. exact Ha3.
  - left. subst s. reflexivity.
Qed.

Lemma parse_auth_events_counts {hdr : AuditHeader} (sys : Env)
  (s0 : audit_summary_t) (window_seconds : Z) :
  failure_users s0 = [] -> auth_failures s0 = 0 ->
  Z.of_nat (List.length (auth_lines sys)) <= CInt.INT_MAX ->
  let s := parse_auth_events sys s0 window_seconds in
  sum_counts (failure_users s) <= auth_failures s /\
  ((forall line, In line (auth_lines sys) -> failed line = true ->
      acct_of line <> None) ->
   Z.of_nat (List.length (nodup string_dec (failing_users (auth_lines sys))))
   <= MAX_AUDIT_USERS ->
   sum_counts (failure_users s) = auth_failures s).
Proof.
  intros Hfu Haf Hlen. cbv zeta. unfold parse_auth_events, auth_lines in *.
  destruct (popen_r sys cmd_auth) as [out|].
  2:{ rewrite Hfu, Haf. cbn. split; [lia|reflexivity]. }
  cbn [failure_users auth_failures set_brute_force_detected].
  set (lines := fgets_all 2048 out) in *.
  assert (Hb0 : counts_bounded s0 0).
  { unfold counts_bounded. rewrite Hfu, Haf. cbn. repeat split; try lia. constructor. }
  split.
  - destruct (fold_auth_line_counts_bounded lines s0 0 Hb0) as (_ & H & _); [lia|].
    exact H.
  - intros Hacct Hdistinct.
    remember (map (fun u => hash_username u EmptyString HASH_USERNAME_LEN) (failing_users lines))
      as L eqn:HL.
    destruct (fold_auth_line_counts_exact L lines s0 0) as (H & _); try assumption.
    + intros l' Hnd Hincl. rewrite HL in Hincl.
      pose proof (distinct_tags_bounded _ _ _ Hnd Hincl) as Hle.
      eapply Z.le_trans; [apply Nat2Z.inj_le; exact Hle|exact Hdistinct].
    + unfold counts_exact. rewrite Hfu, Haf. cbn.
      repeat split; [constructor|intros x []].
    + intros line Hin Hf. specialize (Hacct line Hin Hf).
      destruct (acct_of line) as [u|] eqn:Hu; [|contradiction].
      exists u. split; [reflexivity|].
      rewrite HL. apply (in_map (fun u => hash_username u EmptyString HASH_USERNAME_LEN)).
      exact (failing_users_in lines line u Hin Hf Hu).
Qed.

(** C9 (as the code has it).  After every probe whose authentication
    stream is short enough for an [int] counter, the counts of
    [failure_users] sum to at most [auth_failures].  They sum to
    exactly [auth_failures] when, in addition to the distinct failing
    account names not exceeding [MAX_AUDIT_USERS], every failed line
    carries a quoted, non-empty [acct] field: a failed line without
    one is counted in [auth_failures] only. *)
Theorem failure_user_counts_bounded
  {hdr : AuditHeader} (sys : Env) (window_seconds : Z) (w w' : World)
  (s : audit_summary_t) :
  probe_audit sys window_seconds w = (Some s, w') ->
  Z.of_nat (List.length (auth_lines sys)) <= CInt.INT_MAX ->
  sum_counts (failure_users s) <= auth_failures s /\
  ((forall line, In line (auth_lines sys) -> failed line = true ->
      acct_of line <> None) ->
   Z.of_nat (List.length (nodup string_dec (failing_users (auth_lines sys))))
   <= MAX_AUDIT_USERS ->
   sum_counts (failure_users s) = auth_failures s).
Proof.
  intros Hp Hlen.
  destruct (probe_audit_auth_view sys window_seconds w w' s Hp) as [Hv|Hv];
    unfold auth_view in Hv; inversion Hv as [[Haf Hfu Hbf]].
  - rewrite Haf, Hfu. cbn. split; [lia|reflexivity].
  - rewrite Haf, Hfu. apply parse_auth_events_counts; try reflexivity. exact Hlen.
Qed.

(** C9, as stated, fails in its equality: one failed line without a
    quoted account gives [auth_failures = 1] and an empty
    [failure_users], although no capacity was exceeded. *)
Lemma failed_line_without_acct_breaks_equality :
  ~ (forall s : audit_summary_t,
       fst (probe_audit (hdr := Host.header) unquoted_acct_host 3600 Host.boot)
       = Some s ->
       Z.of_nat (List.length
                   (nodup string_dec (failing_users (auth_lines unquoted_acct_host))))
       <= MAX_AUDIT_USERS (AuditHeader := Host.header) ->
       sum_counts (failure_users s) = auth_failures s).
Proof.
  destruct (fst (probe_audit (hdr := Host.header) unquoted_acct_host 3600 Host.boot))
    as [s|] eqn:E; [|vm_compute in E; discriminate].
  intros H. specialize (H s eq_refl).
  vm_compute in E. inversion E; subst s. clear E.
  assert (Hcap : Z.of_nat (List.length
                   (nodup string_dec (failing_users (auth_lines unquoted_acct_host))))
                 <= MAX_AUDIT_USERS (AuditHeader := Host.header))
    by (vm_compute; discriminate).
  specialize (H Hcap). vm_compute in H. discriminate.
Qed.

Lemma failure_user_counts_bounded_witness :
  exists (s : audit_summary_t) (w' : World),
    probe_audit (hdr := Host.header) brute_force_host 3600 Host.boot = (Some s, w') /\
    Z.of_nat (List.length (auth_lines brute_force_host)) <= CInt.INT_MAX /\
    sum_counts (failure_users s) <= auth_failures s /\
    sum_counts (failure_users s) = auth_failures s.
Proof.
  destruct (probe_audit (hdr := Host.header) brute_force_host 3600 Host.boot)
    as [[s|] w'] eqn:E; [|vm_compute in E; discriminate].
  exists s, w'. split; [reflexivity|].
  assert (Hlen : Z.of_nat (List.length (auth_lines brute_force_host)) <= CInt.INT_MAX)
    by (vm_compute; discriminate).
  split; [exact Hlen|].
  destruct (failure_user_counts_bounded (hdr := Host.header) brute_force_host 3600
              Host.boot w' s E Hlen) as [Hle Heq].
  split; [exact Hle|]. apply Heq.
  - intros line Hin Hf.
    assert (Hall : forallb (fun l => implb (failed l) (is_some (acct_of l)))
                     (auth_lines brute_force_host) = true)
      by (vm_compute; reflexivity).
    rewrite forallb_forall in Hall. specialize (Hall line Hin).
    rewrite Hf in Hall. destruct (acct_of line); [discriminate|discriminate Hall].
  - vm_compute. discriminate.
Defined.

(** * Further properties of the code *)

(** ** Which fields each stage writes *)

Section StageFrames.

Context {hdr : AuditHeader}.
Variable sys : Env.

Ltac stage_cases :=
  repeat match goal with
         | |- context [match ?x with _ => _ end] => destruct x
         end; reflexivity.

Lemma auth_line_outside (s : audit_summary_t) (line : string) :
  outside_auth (auth_line s line) = outside_auth s.
Proof.
  unfold auth_line.
  destruct (strstr line "res=failed").
  - destruct (strstr line ("acct=" ++ dq)); [|reflexivity].
    destruct (Nat.ltb 0 _); [|reflexivity].
    unfold find_or_add_user.
    destruct (find_index _ _ 0); [reflexivity|].
    destruct (failure_user_count _ <? MAX_AUDIT_USERS); reflexivity.
  - destruct (strstr line "res=success"); reflexivity.
Qed.

Lemma parse_auth_events_outside (s : audit_summary_t) (win : Z) :
  outside_auth (parse_auth_events sys s win) = outside_auth s.
Proof.
  unfold parse_auth_events. destruct (popen_r sys cmd_auth) as [out|]; [|reflexivity].
  transitivity (outside_auth (fold_left auth_line (fgets_all 2048 out) s)).
  - reflexivity.
  - apply (fold_left_preserves (fun s' => outside_auth s' = outside_auth s)); auto.
    intros s1 x H. rewrite <- H. apply auth_line_outside.
Qed.

Lemma parse_priv_events_outside (s : audit_summary_t) (win : Z) :
  outside_priv (parse_priv_events sys s win) = outside_priv s.
Proof. unfold parse_priv_events. stage_cases. Qed.

Lemma add_file_access_outside (s : audit_summary_t) (path : string)
  (ctx : option audit_event_ctx_t) :
  outside_file (add_file_access s path ctx) = outside_file s.
Proof.
  unfold add_file_access.
  destruct ctx as [c|]; [destruct (Nat.ltb 0 (strlen (ctx_comm c)));
    [destruct (is_suspicious_chain _)|]|];
    destruct (is_some (strstr path "shadow") || is_some (strstr path "sudoers"));
    reflexivity.
Qed.

Lemma file_line_outside (s : audit_summary_t) (line : string) (w : World) :
  outside_file (fst (file_line s line w)) = outside_file s.
Proof.
  unfold file_line, bind.
  destruct ((if 0 <=? extract_event_id line
             then get_event_ctx (extract_event_id line)
             else ret None) w) as [ctx w1].
  destruct (strstr line ("name=" ++ dq)); [|reflexivity].
  match goal with |- context [if ?c then _ else _] => destruct c end;
    [|reflexivity].
  destruct (find_index _ _ 0); cbn; [reflexivity|].
  apply add_file_access_outside.
Qed.

Lemma parse_file_events_outside (s : audit_summary_t) (win : Z) (w : World) :
  outside_file (fst (parse_file_events sys s win w)) = outside_file s.
Proof.
  unfold parse_file_events. destruct (popen_r sys cmd_file); [|reflexivity].
  apply (for_each_preserves (fun s' => outside_file s' = outside_file s)); auto.
  intros s1 x w1 H. rewrite <- H. apply file_line_outside.
Qed.

Lemma exec_line_outside (s : audit_summary_t) (line : string) :
  outside_exec (exec_line s line) = outside_exec s.
Proof. unfold exec_line. stage_cases. Qed.

Lemma parse_exec_events_outside (s : audit_summary_t) (win : Z) :
  outside_exec (parse_exec_events sys s win) = outside_exec s.
Proof.
  unfold parse_exec_events. destruct (popen_r sys cmd_exec) as [out|]; [|reflexivity].
  transitivity (outside_exec (fold_left exec_line (fgets_all 1024 out) s)).
  - stage_cases.
  - apply (fold_left_preserves (fun s' => outside_exec s' = outside_exec s)); auto.
    intros s1 x H. rewrite <- H. apply exec_line_outside.
Qed.

Lemma check_security_framework_outside (s : audit_summary_t) :
  outside_security (check_security_framework sys s) = outside_security s.
Proof. unfold check_security_framework. stage_cases. Qed.

Lemma add_anomaly_outside s ty d sev c b dv w :
  outside_detect (fst (add_anomaly sys s ty d sev c b dv w)) = outside_detect s.
Proof.
  unfold add_anomaly. destruct (MAX_AUDIT_ANOMALIES <=? anomaly_count s); reflexivity.
Qed.

Lemma maybe_add_anomaly_outside (c : bool) s ty d sev cur b dv w :
  outside_detect (fst ((if c then add_anomaly sys s ty d sev cur b dv else ret s) w))
  = outside_detect s.
Proof. destruct c; [apply add_anomaly_outside | reflexivity]. Qed.

Lemma detect_anomalies_outside s b w :
  outside_detect (fst (detect_anomalies sys s b w)) = outside_detect s.
Proof.
  unfold detect_anomalies, bind. destruct b as [b|]; [|reflexivity].
  destruct (sample_count b <? 5); [reflexivity|].
  match goal with
  | |- context [let '(_, _) := ?m w in _] =>
      pose proof (maybe_add_anomaly_outside _ _ _ _ _ _ _ _ w
                  : outside_detect (fst (m w)) = _) as H1;
      destruct (m w) as [s1 w1]
  end.
  match goal with
  | |- context [let '(_, _) := ?m w1 in _] =>
      pose proof (maybe_add_anomaly_outside _ _ _ _ _ _ _ _ w1
                  : outside_detect (fst (m w1)) = _) as H2;
      destruct (m w1) as [s2 w2]
  end.
  match goal with
  | |- context [let '(_, _) := ?m w2 in _] =>
      pose proof (maybe_add_anomaly_outside _ _ _ _ _ _ _ _ w2
                  : outside_detect (fst (m w2)) = _) as H3;
      destruct (m w2) as [s3 w3]
  end.
  rewrite maybe_add_anomaly_outside.
  cbn [fst] in H1, H2, H3. rewrite H3.
  transitivity (outside_detect s2); [reflexivity|]. rewrite H2.
  transitivity (outside_detect s1); [reflexivity|]. rewrite H1. reflexivity.
Qed.

(** The risk scorer writes [risk_score] and [risk_level]. *)
Lemma level_assignment_shape (score : Z) (s : audit_summary_t) :
  let r := if 31 <=? score then set_risk_level "critical" (set_risk_score score s)
           else if 16 <=? score then set_risk_level "high" (set_risk_score score s)
           else if 6 <=? score then set_risk_level "medium" (set_risk_score score s)
           else set_risk_level "low" (set_risk_score score s) in
  r = set_risk_level (risk_level r) (set_risk_score (risk_score r) s).
Proof.
  cbv zeta.
  destruct (31 <=? score); [reflexivity|].
  destruct (16 <=? score); [reflexivity|].
  destruct (6 <=? score); reflexivity.
Qed.

Lemma calculate_risk_score_shape (s : audit_summary_t) :
  calculate_risk_score s
  = set_risk_level (risk_level (calculate_risk_score s))
      (set_risk_score (risk_score (calculate_risk_score s)) s).
Proof.
  unfold calculate_risk_score. cbv zeta.
  match goal with |- context [31 <=? ?x] => exact (level_assignment_shape x s) end.
Qed.

Lemma calculate_risk_score_outside (s : audit_summary_t) :
  outside_risk (calculate_risk_score s) = outside_risk s.
Proof. rewrite calculate_risk_score_shape. reflexivity. Qed.

End StageFrames.

(** X1.  Every stage of the probe writes its own fields only:
    blanking those fields makes the summary after the stage equal to
    the summary before it. *)
Theorem stages_write_their_own_fields
  {hdr : AuditHeader} (sys : Env) (s : audit_summary_t) (win : Z) (w : World)
  (b : option audit_baseline_t) :
  outside_auth (parse_auth_events sys s win) = outside_auth s /\
  outside_priv (parse_priv_events sys s win) = outside_priv s /\
  outside_file (fst (parse_file_events sys s win w)) = outside_file s /\
  outside_exec (parse_exec_events sys s win) = outside_exec s /\
  outside_security (check_security_framework sys s) = outside_security s /\
  outside_detect (fst (detect_anomalies sys s b w)) = outside_detect s /\
  outside_risk (calculate_risk_score s) = outside_risk s.
Proof.
  repeat split.
  - apply parse_auth_events_outside.
  - apply parse_priv_events_outside.
  - apply parse_file_events_outside.
  - apply parse_exec_events_outside.
  - apply check_security_framework_outside.
  - apply detect_anomalies_outside.
  - apply calculate_risk_score_outside.
Qed.

(** ** Event context cache *)

Lemma find_index_app {A} (p : A -> bool) (l1 l2 : list A) (i : nat) :
  find_index p (l1 ++ l2) i
  = match find_index p l1 i with
    | Some j => Some j
    | None => find_index p l2 (i + List.length l1)
    end.
Proof.
  revert i. induction l1 as [|x l1 IH]; intros i; cbn.
  - rewrite Nat.add_0_r. reflexivity.
  - destruct (p x); [reflexivity|]. rewrite IH. rewrite Nat.add_succ_comm. reflexivity.
Qed.

Lemma find_index_some {A} (p : A -> bool) (l : list A) (i j : nat) :
  find_index p l i = Some j ->
  exists x, nth_error l (j - i) = Some x /\ p x = true.
Proof.
  revert i. induction l as [|y l IH]; intros i H; cbn in H; [discriminate|].
  destruct (p y) eqn:Hy.
  - inversion H; subst. rewrite Nat.sub_diag. exists y. split; [reflexivity|exact Hy].
  - pose proof (find_index_bound _ _ _ _ H) as Hb.
    destruct (IH _ H) as (x & Hx & Hp). exists x. split; [|exact Hp].
    replace (j - i)%nat with (S (j - S i)) by lia. exact Hx.
Qed.

Lemma update_nth_length {A} (f : A -> A) (l : list A) (i : nat) :
  List.length (update_nth i f l) = List.length l.
Proof.
  revert i. induction l as [|x l IH]; intros i; [reflexivity|].
  destruct i; cbn; [reflexivity|]. f_equal. apply IH.
Qed.

(** The three outcomes of [get_event_ctx]: the slot exists; the table
    is full and has no slot for the serial; a slot is appended. *)
Lemma get_event_ctx_cases (event_id : Z) (w : World) :
  (exists i c,
     find_ctx event_id (event_ctx w) = Some i /\
     nth_error (event_ctx w) i = Some c /\
     ctx_used c = true /\ ctx_event_id c = event_id /\
     get_event_ctx event_id w = (Some i, w)) \/
  (find_ctx event_id (event_ctx w) = None /\
   MAX_AUDIT_EVENTS <= event_ctx_count w /\
   get_event_ctx event_id w = (None, w)) \/
  (find_ctx event_id (event_ctx w) = None /\
   event_ctx_count w < MAX_AUDIT_EVENTS /\
   get_event_ctx event_id w
   = (Some (List.length (event_ctx w)),
      {| event_ctx := event_ctx w ++ [fresh_ctx event_id]; clock := clock w |})).
Proof.
  unfold get_event_ctx, bind, get_event_table, put_event_table, ret, event_ctx_count.
  destruct (find_ctx event_id (event_ctx w)) as [i|] eqn:Hf.
  - left. unfold find_ctx in Hf.
    destruct (find_index_some _ _ _ _ Hf) as (c & Hc & Hp).
    rewrite Nat.sub_0_r in Hc. apply andb_prop in Hp. destruct Hp as [Hu He].
    apply Z.eqb_eq in He. exists i, c. repeat split; assumption.
  - right.
    destruct (MAX_AUDIT_EVENTS <=? Z.of_nat (List.length (event_ctx w))) eqn:Hc.
    + left. apply Z.leb_le in Hc. repeat split; assumption.
    + right. apply Z.leb_gt in Hc. repeat split; assumption.
Qed.

Lemma find_ctx_fresh (event_id : Z) (t : list audit_event_ctx_t) :
  find_ctx event_id t = None ->
  find_ctx event_id (t ++ [fresh_ctx event_id]) = Some (List.length t).
Proof.
  intros Hf. unfold find_ctx in *. rewrite find_index_app, Hf. cbn.
  rewrite Z.eqb_refl. reflexivity.
Qed.

(** X2.  [get_event_ctx] returns a slot in use for the
    serial asked for, creating it at the end of the table when the
    serial is new, and asking again returns the same slot without
    changing anything; it returns NULL only when all 256 slots are
    taken by other serials, and then changes nothing. *)
Theorem get_event_ctx_find_or_create (event_id : Z) (w : World) :
  match get_event_ctx event_id w with
  | (Some i, w') =>
      (exists c, nth_error (event_ctx w') i = Some c /\
                 ctx_event_id c = event_id /\ ctx_used c = true) /\
      (w' = w \/
       (event_ctx w' = (event_ctx w ++ [fresh_ctx event_id])%list /\
        i = List.length (event_ctx w) /\
        event_ctx_count w < MAX_AUDIT_EVENTS)) /\
      clock w' = clock w /\
      get_event_ctx event_id w' = (Some i, w')
  | (None, w') =>
      w' = w /\ MAX_AUDIT_EVENTS <= event_ctx_count w /\
      forall c, In c (event_ctx w) ->
                ctx_used c && (ctx_event_id c =? event_id) = false
  end.
Proof.
  destruct (get_event_ctx_cases event_id w)
    as [(i & c & Hf & Hc & Hu & He & ->)|[(Hf & Hfull & ->)|(Hf & Hroom & ->)]].
  - split; [|split; [|split]]; try reflexivity.
    + exists c. repeat split; assumption.
    + left. reflexivity.
    + destruct (get_event_ctx_cases event_id w)
        as [(i' & c' & Hf' & _ & _ & _ & E)|[(Hf' & _)|(Hf' & _)]];
        congruence.
  - split; [reflexivity|]. split; [exact Hfull|].
    intros c Hin. exact (find_index_none _ _ _ Hf c Hin).
  - cbn [event_ctx clock]. split; [|split; [|split]]; try reflexivity.
    + exists (fresh_ctx event_id). split; [|split; reflexivity].
      rewrite nth_error_app2 by lia. rewrite Nat.sub_diag. reflexivity.
    + right. split; [reflexivity|]. split; [reflexivity|exact Hroom].
    + pose proof (find_ctx_fresh event_id _ Hf) as Hf2.
      destruct (get_event_ctx_cases event_id
                  {| event_ctx := event_ctx w ++ [fresh_ctx event_id];
                     clock := clock w |})
        as [(i' & c' & Hf' & _ & _ & _ & E)|[(Hf' & _)|(Hf' & _)]];
        cbn [event_ctx] in Hf'; congruence.
Qed.

(** The IO loop keeps every invariant of state and world that its body
    keeps. *)
Lemma for_each_invariant {A S} (P : S -> World -> Prop) (body : S -> A -> IO S) :
  (forall s x w, P s w -> P (fst (body s x w)) (snd (body s x w))) ->
  forall l s w, P s w -> P (fst (for_each body s l w)) (snd (for_each body s l w)).
Proof.
  intros Hbody l. induction l as [|x l IH]; intros s w Hs; simpl.
  - exact Hs.
  - unfold bind. specialize (Hbody s x w Hs).
    destruct (body s x w) as [s' w']. apply IH. exact Hbody.
Qed.

Lemma fresh_ctx_ok (event_id : Z) : 0 <= event_id -> ctx_slot_ok (fresh_ctx event_id).
Proof. intros H. unfold ctx_slot_ok. cbn. repeat split; try assumption; lia. Qed.

Lemma fill_ctx_ok (line : string) (c : audit_event_ctx_t) :
  ctx_slot_ok c -> ctx_slot_ok (fill_ctx line c).
Proof.
  intros (Hu & Hid & Hc & He). unfold ctx_slot_ok, fill_ctx.
  cbn [ctx_used ctx_event_id ctx_comm ctx_exe].
  repeat split; try assumption.
  - destruct (strstr line (" comm=" ++ dq)); [apply copy_until_quote_length|exact Hc].
  - destruct (strstr line (" exe=" ++ dq)); [apply copy_until_quote_length|exact He].
Qed.

(** Asking for a non-negative serial keeps the table well formed and
    only ever appends an empty slot. *)
Lemma get_event_ctx_table (event_id : Z) (w : World) :
  0 <= event_id ->
  let w' := snd (get_event_ctx event_id w) in
  clock w' = clock w /\
  (exists ids, event_ctx w' = (event_ctx w ++ map fresh_ctx ids)%list /\
               Forall (fun id => 0 <= id) ids) /\
  (ctx_table_ok (event_ctx w) -> ctx_table_ok (event_ctx w')) /\
  match fst (get_event_ctx event_id w) with
  | Some i => (i < List.length (event_ctx w'))%nat
  | None => True
  end.
Proof.
  intros Hid. cbv zeta.
  assert (Hnil : forall t : list audit_event_ctx_t,
             exists ids, t = (t ++ map fresh_ctx ids)%list /\
                         Forall (fun id => 0 <= id) ids).
  { intros t. exists []. cbn. rewrite app_nil_r. split; [reflexivity|constructor]. }
  destruct (get_event_ctx_cases event_id w)
    as [(i & c & Hf & Hc & Hu & He & ->)|[(Hf & Hfull & ->)|(Hf & Hroom & ->)]];
    cbn [fst snd event_ctx clock].
  - split; [reflexivity|]. split; [apply Hnil|]. split; [auto|].
    apply nth_error_Some. congruence.
  - split; [reflexivity|]. split; [apply Hnil|]. split; [auto|exact I].
  - split; [reflexivity|]. split; [|split].
    + exists [event_id]. split; [reflexivity|]. constructor; [exact Hid|constructor].
    + intros (Hlen & Hall & Hnd). unfold event_ctx_count in Hroom.
      split; [|split].
      * rewrite length_app. cbn. lia.
      * apply Forall_app. split; [exact Hall|].
        constructor; [apply fresh_ctx_ok; exact Hid|constructor].
      * rewrite map_app. cbn.
        apply NoDup_app; [exact Hnd|repeat constructor; intros []|].
        intros x Hx [<-|[]]. apply in_map_iff in Hx. destruct Hx as (c & Hc & Hin).
        pose proof (find_index_none _ _ _ Hf c Hin) as Hne. cbv beta in Hne.
        rewrite Forall_forall in Hall. destruct (Hall c Hin) as (Hu & _).
        rewrite Hu, Hc, Z.eqb_refl in Hne. discriminate.
    + rewrite length_app. cbn. lia.
Qed.

Lemma syscall_line_table (line : string) (w : World) :
  ctx_table_ok (event_ctx w) ->
  let w' := snd (syscall_line tt line w) in
  ctx_table_ok (event_ctx w') /\ clock w' = clock w /\
  exists ids, map ctx_event_id (event_ctx w')
              = (map ctx_event_id (event_ctx w) ++ ids)%list /\
              Forall (fun id => 0 <= id) ids.
Proof.
  intros Hok. cbv zeta. unfold syscall_line.
  destruct (extract_event_id line <? 0) eqn:Hneg.
  - cbn. repeat split; try assumption; try apply Hok.
    exists []. rewrite app_nil_r. split; [reflexivity|constructor].
  - apply Z.ltb_ge in Hneg. unfold bind.
    pose proof (get_event_ctx_table (extract_event_id line) w Hneg) as H.
    cbv zeta in H.
    destruct (get_event_ctx (extract_event_id line) w) as [[i|] w1];
      cbn [fst snd] in H; destruct H as (Hclk & (ids & Hev & Hpos) & Hok1 & Hi).
    + specialize (Hok1 Hok). destruct Hok1 as (Hlen & Hall & Hnd).
      cbn [get_event_table put_event_table snd event_ctx clock].
      assert (Hmap : map ctx_event_id (update_nth i (fill_ctx line) (event_ctx w1))
                     = map ctx_event_id (event_ctx w1))
        by (apply update_nth_map; reflexivity).
      repeat split.
      * rewrite update_nth_length. exact Hlen.
      * apply update_nth_Forall; [apply fill_ctx_ok|exact Hall].
      * rewrite Hmap. exact Hnd.
      * exact Hclk.
      * exists ids. rewrite Hmap, Hev, map_app, map_map. cbn.
        rewrite map_id. split; [reflexivity|exact Hpos].
    + cbn [ret snd]. repeat split; try apply (Hok1 Hok); try assumption.
      exists ids. rewrite Hev, map_app, map_map. cbn. rewrite map_id.
      split; [reflexivity|exact Hpos].
Qed.

Lemma parse_syscall_context_world
  (sys : Env) (window_seconds : Z) (w : World) :
  ctx_table_ok (event_ctx w) ->
  ctx_table_ok (event_ctx (snd (parse_syscall_context sys window_seconds w))) /\
  clock (snd (parse_syscall_context sys window_seconds w)) = clock w /\
  exists ids,
    map ctx_event_id (event_ctx (snd (parse_syscall_context sys window_seconds w)))
    = (map ctx_event_id (event_ctx w) ++ ids)%list /\
    Forall (fun id => 0 <= id) ids.
Proof.
  intros Hok. unfold parse_syscall_context.
  destruct (popen_r sys cmd_syscall) as [out|].
  2:{ cbn. repeat split; try apply Hok.
      exists []. rewrite app_nil_r. split; [reflexivity|constructor]. }
  apply (for_each_invariant
           (fun (_ : unit) w' =>
              ctx_table_ok (event_ctx w') /\ clock w' = clock w /\
              exists ids, map ctx_event_id (event_ctx w')
                          = (map ctx_event_id (event_ctx w) ++ ids)%list /\
                          Forall (fun id => 0 <= id) ids)).
  - intros [] line w1 (Hok1 & Hclk & ids & Hids & Hpos).
    destruct (syscall_line_table line w1 Hok1) as (Hok2 & Hclk2 & ids2 & Hids2 & Hpos2).
    repeat split; try apply Hok2; [congruence|].
    exists (ids ++ ids2)%list. rewrite Hids2, Hids, app_assoc.
    split; [reflexivity|]. apply Forall_app. split; assumption.
  - repeat split; try apply Hok.
    exists []. rewrite app_nil_r. split; [reflexivity|constructor].
Qed.

(** X3.  [parse_syscall_context] keeps the table well
    formed (at most 256 slots, all in use, distinct non-negative
    serials, [comm] and [exe] within their buffers); it never removes
    or reorders a slot, and it does not read the clock. *)
Theorem parse_syscall_context_keeps_table
  (sys : Env) (window_seconds : Z) (w : World) :
  ctx_table_ok (event_ctx w) ->
  ctx_table_ok (event_ctx (snd (parse_syscall_context sys window_seconds w))) /\
  clock (snd (parse_syscall_context sys window_seconds w)) = clock w /\
  exists ids,
    map ctx_event_id (event_ctx (snd (parse_syscall_context sys window_seconds w)))
    = (map ctx_event_id (event_ctx w) ++ ids)%list /\
    Forall (fun id => 0 <= id) ids.
Proof. apply parse_syscall_context_world. Qed.

Lemma parse_syscall_context_keeps_table_witness :
  ctx_table_ok (event_ctx Host.boot) /\
  ctx_table_ok (event_ctx (snd (parse_syscall_context correlated_host 3600 Host.boot))) /\
  map ctx_event_id (event_ctx (snd (parse_syscall_context correlated_host 3600 Host.boot)))
  = [42].
Proof.
  assert (H : ctx_table_ok (event_ctx Host.boot)).
  { unfold ctx_table_ok. cbn. repeat split; [discriminate|constructor|constructor]. }
  split; [exact H|].
  split; [exact (proj1 (parse_syscall_context_keeps_table correlated_host 3600
                          Host.boot H))|].
  vm_compute. reflexivity.
Defined.

Lemma parse_file_events_world
  {hdr : AuditHeader} (sys : Env) (s : audit_summary_t) (window_seconds : Z)
  (w : World) :
  exists ids,
    event_ctx (snd (parse_file_events sys s window_seconds w))
    = (event_ctx w ++ map fresh_ctx ids)%list /\
    Forall (fun id => 0 <= id) ids /\
    clock (snd (parse_file_events sys s window_seconds w)) = clock w /\
    (ctx_table_ok (event_ctx w) ->
     ctx_table_ok (event_ctx (snd (parse_file_events sys s window_seconds w)))).
Proof.
  unfold parse_file_events.
  destruct (popen_r sys cmd_file) as [out|].
  2:{ exists []. cbn. rewrite app_nil_r.
      split; [reflexivity|]. split; [constructor|]. split; [reflexivity|auto]. }
  apply (for_each_invariant
           (fun (_ : audit_summary_t) w' =>
              exists ids,
                event_ctx w' = (event_ctx w ++ map fresh_ctx ids)%list /\
                Forall (fun id => 0 <= id) ids /\
                clock w' = clock w /\
                (ctx_table_ok (event_ctx w) -> ctx_table_ok (event_ctx w')))).
  - intros s1 line w1 (ids & Hev & Hpos & Hclk & Hok).
    rewrite file_line_world.
    destruct (0 <=? extract_event_id line) eqn:Hid.
    + apply Z.leb_le in Hid.
      destruct (get_event_ctx_table (extract_event_id line) w1 Hid)
        as (Hclk2 & (ids2 & Hev2 & Hpos2) & Hok2 & _).
      exists (ids ++ ids2)%list. split; [|split; [|split]].
      * rewrite Hev2, Hev, map_app, app_assoc. reflexivity.
      * apply Forall_app. split; assumption.
      * congruence.
      * intros H. apply Hok2, Hok, H.
    + cbn [ret snd]. exists ids. split; [|split; [|split]]; assumption.
  - exists []. cbn. rewrite app_nil_r.
    split; [reflexivity|]. split; [constructor|]. split; [reflexivity|auto].
Qed.


(** ** Tallies of the authentication and execve parsers *)
















(** ** The table of failing users *)

Lemma find_or_add_user_cases {hdr : AuditHeader} (s : audit_summary_t)
  (username : string) :
  let h := hash_username username EmptyString HASH_USERNAME_LEN in
  let found := find_index (fun u => String.eqb (hu_hash u) h) (failure_users s) 0 in
  (exists i e, found = Some i /\ nth_error (failure_users s) i = Some e /\
               hu_hash e = h /\ find_or_add_user s username = (s, Some i)) \/
  (found = None /\ MAX_AUDIT_USERS <= failure_user_count s /\
   find_or_add_user s username = (s, None)) \/
  (found = None /\ failure_user_count s < MAX_AUDIT_USERS /\
   find_or_add_user s username
   = (set_failure_users
        (failure_users s ++ [{| hu_hash := h; hu_count := 0 |}]) s,
      Some (List.length (failure_users s)))).
Proof.
  cbv zeta. unfold find_or_add_user.
  destruct (find_index _ (failure_users s) 0) as [i|] eqn:Hf.
  - left. destruct (find_index_some _ _ _ _ Hf) as (e & He & Hp).
    rewrite Nat.sub_0_r in He. apply String.eqb_eq in Hp.
    exists i, e. repeat split; assumption.
  - right. destruct (failure_user_count s <? MAX_AUDIT_USERS) eqn:Hc.
    + right. apply Z.ltb_lt in Hc. rewrite stored_hash_is_hash.
      repeat split; assumption.
    + left. apply Z.ltb_ge in Hc. repeat split; assumption.
Qed.

Lemma tag_not_listed {hdr : AuditHeader} (h : string) (l : list hashed_user_t) :
  find_index (fun u => String.eqb (hu_hash u) h) l 0 = None ->
  ~ In h (map hu_hash l).
Proof.
  intros Hf Hin. apply in_map_iff in Hin. destruct Hin as (x & Hx & Hin).
  pose proof (find_index_none _ _ _ Hf x Hin) as Hne. cbv beta in Hne.
  rewrite Hx, String.eqb_refl in Hne. discriminate.
Qed.

(** X7.  [find_or_add_user] returns the entry whose
    tag is the hash of the user name, appending it with a count of 0
    when the tag is new and there is room; asking again returns the
    same entry and changes nothing.  It returns NULL only when the
    table is full and does not list the tag, and then changes
    nothing. *)
Theorem find_or_add_user_find_or_create
  {hdr : AuditHeader} (s : audit_summary_t) (username : string) :
  match find_or_add_user s username with
  | (s', Some i) =>
      (exists e, nth_error (failure_users s') i = Some e /\
                 hu_hash e = hash_username username EmptyString HASH_USERNAME_LEN) /\
      (s' = s \/
       (failure_users s'
        = (failure_users s
           ++ [{| hu_hash := hash_username username EmptyString HASH_USERNAME_LEN;
                  hu_count := 0 |}])%list /\
        i = List.length (failure_users s) /\
        failure_user_count s < MAX_AUDIT_USERS)) /\
      find_or_add_user s' username = (s', Some i)
  | (s', None) =>
      s' = s /\ MAX_AUDIT_USERS <= failure_user_count s /\
      ~ In (hash_username username EmptyString HASH_USERNAME_LEN)
           (map hu_hash (failure_users s))
  end.
Proof.
  destruct (find_or_add_user_cases s username)
    as [(i & e & Hf & He & Hh & ->)|[(Hf & Hfull & ->)|(Hf & Hroom & ->)]].
  - split; [|split].
    + exists e. split; assumption.
    + left. reflexivity.
    + destruct (find_or_add_user_cases s username)
        as [(i' & e' & Hf' & _ & _ & E)|[(Hf' & _)|(Hf' & _)]]; congruence.
  - split; [reflexivity|]. split; [exact Hfull|]. apply tag_not_listed. exact Hf.
  - cbn [failure_users set_failure_users]. split; [|split].
    + exists {| hu_hash := hash_username username EmptyString HASH_USERNAME_LEN; hu_count := 0 |}.
      split; [|reflexivity].
      rewrite nth_error_app2 by lia. rewrite Nat.sub_diag. reflexivity.
    + right. split; [reflexivity|]. split; [reflexivity|exact Hroom].
    + set (h := hash_username username EmptyString HASH_USERNAME_LEN) in *.
      set (s' := set_failure_users _ s).
      assert (Hf2 : find_index (fun u => String.eqb (hu_hash u) h)
                      (failure_users s') 0 = Some (List.length (failure_users s))).
      { unfold s'. cbn [failure_users set_failure_users].
        rewrite find_index_app, Hf. cbn. rewrite String.eqb_refl. reflexivity. }
      destruct (find_or_add_user_cases s' username)
        as [(i' & e' & Hf' & _ & _ & E)|[(Hf' & _)|(Hf' & _)]];
        fold h in Hf'; congruence.
Qed.

(** One line keeps the tags distinct, appends at most one and never
    goes beyond the capacity. *)
Lemma auth_line_user_table {hdr : AuditHeader} (s : audit_summary_t)
  (line : string) :
  NoDup (map hu_hash (failure_users s)) ->
  NoDup (map hu_hash (failure_users (auth_line s line))) /\
  failure_user_count (auth_line s line)
  <= Z.max (failure_user_count s) MAX_AUDIT_USERS /\
  exists new, map hu_hash (failure_users (auth_line s line))
              = (map hu_hash (failure_users s) ++ new)%list.
Proof.
  intros Hnd.
  assert (Hsame : forall l, map hu_hash l = map hu_hash (failure_users s) ->
            NoDup (map hu_hash l) /\
            Z.of_nat (List.length l) <= Z.max (failure_user_count s) MAX_AUDIT_USERS /\
            exists new, map hu_hash l = (map hu_hash (failure_users s) ++ new)%list).
  { intros l Hl. rewrite Hl. split; [exact Hnd|]. split.
    - unfold failure_user_count.
      rewrite <- (length_map hu_hash l), Hl, length_map. lia.
    - exists []. rewrite app_nil_r. reflexivity. }
  unfold failure_user_count at 1.
  destruct (auth_line_cases s line) as [(_ & _ & Eu)|(_ & _ & Hu)]; cbv zeta in *.
  - rewrite Eu. apply Hsame. reflexivity.
  - destruct (acct_of line) as [u|]; [|rewrite Hu; apply Hsame; reflexivity].
    destruct Hu as [(i & Hf & Eu)|[(Hf & Hroom & Eu)|(Hf & Hfull & Eu)]]; rewrite Eu.
    + apply Hsame. apply update_nth_hashes.
    + rewrite map_app, length_app. cbn [map List.length]. split; [|split].
      * apply NoDup_app; [exact Hnd|repeat constructor; intros []|].
        intros x Hx [<-|[]]. exact (tag_not_listed _ _ Hf Hx).
      * lia.
      * eexists. reflexivity.
    + apply Hsame. reflexivity.
Qed.

Lemma parse_auth_events_users
  {hdr : AuditHeader} (sys : Env) (s : audit_summary_t) (window_seconds : Z) :
  NoDup (map hu_hash (failure_users s)) ->
  NoDup (map hu_hash (failure_users (parse_auth_events sys s window_seconds))) /\
  failure_user_count (parse_auth_events sys s window_seconds)
  <= Z.max (failure_user_count s) MAX_AUDIT_USERS /\
  exists new,
    map hu_hash (failure_users (parse_auth_events sys s window_seconds))
    = (map hu_hash (failure_users s) ++ new)%list.
Proof.
  intros Hnd. unfold parse_auth_events.
  destruct (popen_r sys cmd_auth) as [out|].
  2:{ split; [exact Hnd|]. split; [lia|]. exists []. rewrite app_nil_r. reflexivity. }
  unfold failure_user_count at 1.
  cbn [failure_users set_brute_force_detected].
  change (Z.of_nat (List.length (failure_users ?x))) with (failure_user_count x).
  apply (fold_left_preserves
           (fun s' =>
              NoDup (map hu_hash (failure_users s')) /\
              failure_user_count s' <= Z.max (failure_user_count s) MAX_AUDIT_USERS /\
              exists new, map hu_hash (failure_users s')
                          = (map hu_hash (failure_users s) ++ new)%list)).
  - intros s1 line (Hnd1 & Hcap1 & new1 & Hnew1).
    destruct (auth_line_user_table s1 line Hnd1) as (Hnd2 & Hcap2 & new2 & Hnew2).
    split; [exact Hnd2|]. split; [lia|].
    exists (new1 ++ new2)%list. rewrite Hnew2, Hnew1, app_assoc. reflexivity.
  - split; [exact Hnd|]. split; [lia|]. exists []. rewrite app_nil_r. reflexivity.
Qed.

(** X8.  The authentication parser keeps the
    tags of [failure_users] distinct, never removes or reorders an
    entry, and never lets the table grow beyond [MAX_AUDIT_USERS]. *)
Theorem parse_auth_events_user_table
  {hdr : AuditHeader} (sys : Env) (s : audit_summary_t) (window_seconds : Z) :
  NoDup (map hu_hash (failure_users s)) ->
  NoDup (map hu_hash (failure_users (parse_auth_events sys s window_seconds))) /\
  failure_user_count (parse_auth_events sys s window_seconds)
  <= Z.max (failure_user_count s) MAX_AUDIT_USERS /\
  exists new,
    map hu_hash (failure_users (parse_auth_events sys s window_seconds))
    = (map hu_hash (failure_users s) ++ new)%list.
Proof. apply parse_auth_events_users. Qed.

Lemma parse_auth_events_user_table_witness :
  NoDup (map hu_hash (failure_users zeroed_summary)) /\
  NoDup (map hu_hash
           (failure_users (parse_auth_events (hdr := Host.header) brute_force_host
                             zeroed_summary 3600))) /\
  failure_user_count (parse_auth_events (hdr := Host.header) brute_force_host
                        zeroed_summary 3600)
  <= Z.max (failure_user_count zeroed_summary)
           (MAX_AUDIT_USERS (AuditHeader := Host.header)).
Proof.
  assert (H : NoDup (map hu_hash (failure_users zeroed_summary))) by constructor.
  split; [exact H|].
  destruct (parse_auth_events_user_table (hdr := Host.header) brute_force_host
              zeroed_summary 3600 H) as (H1 & H2 & _).
  split; assumption.
Defined.

(** ** Username tags *)

Lemma strn_length (n : nat) (s : string) :
  (String.length (strn n s) <= n)%nat.
Proof.
  revert s. induction n as [|n IH]; intros s; [cbn; lia|].
  destruct s as [|c t]; cbn; [lia|]. specialize (IH t). lia.
Qed.

Lemma strn_length_le (n : nat) (s : string) :
  (String.length (strn n s) <= String.length s)%nat.
Proof.
  revert s. induction n as [|n IH]; intros s; [cbn; lia|].
  destruct s as [|c t]; cbn; [lia|]. specialize (IH t). lia.
Qed.

Lemma strn_length_exact (n : nat) (s : string) :
  (n <= String.length s)%nat -> String.length (strn n s) = n.
Proof.
  revert s. induction n as [|n IH]; intros s Hs; [reflexivity|].
  destruct s as [|c t]; cbn in *; [lia|]. f_equal. apply IH. lia.
Qed.

(** X9.  [hash_username] stores nothing when [outsize] is 0.  With a
    buffer of at least one byte the result does not depend on what
    the buffer held: it is the empty string when the buffer is shorter
    than [HASH_USERNAME_LEN]; otherwise the tag fits the buffer and has
    at most 9 characters, and in a buffer of 10 bytes or more it is
    user_ followed by the first characters of the digest (4 of them
    when the digest has that many). *)
Theorem hash_username_shape
  {hdr : AuditHeader} (username output : string) (outsize : nat) :
  (outsize = 0%nat -> hash_username username output outsize = output) /\
  ((0 < outsize)%nat ->
   hash_username username output outsize
   = hash_username username EmptyString outsize /\
   (String.length (hash_username username output outsize) <= outsize - 1)%nat /\
   (String.length (hash_username username output outsize) <= 9)%nat) /\
  ((0 < outsize < HASH_USERNAME_LEN)%nat ->
   hash_username username output outsize = EmptyString) /\
  ((HASH_USERNAME_LEN <= outsize)%nat -> (10 <= outsize)%nat ->
   let digest :=
     c_str (sha256_string (strn 255 (username_salt ++ ":" ++ username))) in
   hash_username username output outsize = "user_" ++ strn 4 digest /\
   ((4 <= String.length digest)%nat ->
    String.length (hash_username username output outsize) = 9%nat)).
Proof.
  unfold hash_username. cbv zeta.
  set (digest := c_str (sha256_string (strn 255 (username_salt ++ ":" ++ username)))).
  assert (Hlen : (String.length ("user_" ++ strn 4 digest) <= 9)%nat).
  { cbn [append String.length]. pose proof (strn_length 4 digest). lia. }
  destruct outsize as [|n].
  - split; [intros _; destruct (Nat.ltb 0 HASH_USERNAME_LEN); reflexivity|].
    split; [intros H; lia|]. split; [intros H; lia|]. intros _ H. lia.
  - split; [intros H; discriminate H|].
    destruct (Nat.ltb (S n) HASH_USERNAME_LEN) eqn:Hlt.
    + apply Nat.ltb_lt in Hlt. cbn [Nat.ltb Nat.leb].
      split; [intros _; split; [reflexivity|cbn; lia]|].
      split; [intros _; reflexivity|]. intros H. lia.
    + apply Nat.ltb_ge in Hlt.
      split.
      { intros _. split; [reflexivity|]. split.
        - pose proof (strn_length n ("user_" ++ strn 4 digest)). lia.
        - eapply Nat.le_trans; [apply strn_length_le|exact Hlen]. }
      split; [intros H; lia|].
      intros _ H10.
      rewrite strn_short by lia.
      split; [reflexivity|].
      intros H4. cbn [append String.length].
      rewrite strn_length_exact by exact H4. reflexivity.
Qed.

(** ** Entries of the file parser *)

Lemma add_file_access_entry {hdr : AuditHeader} (s : audit_summary_t)
  (path : string) (ctx : option audit_event_ctx_t) :
  exists fa : file_access_t,
    sensitive_files (add_file_access s path ctx) = (sensitive_files s ++ [fa])%list /\
    fa_path fa = strn (AUDIT_PATH_LEN - 1) path /\
    fa_access_type fa = "write" /\ fa_count fa = 1 /\
    (String.length (fa_process fa) <= sizeof_fa_process - 1)%nat.
Proof.
  unfold add_file_access.
  destruct ctx as [c|]; [destruct (Nat.ltb 0 (strlen (ctx_comm c)));
    [destruct (is_suspicious_chain _)|]|];
    destruct (is_some (strstr path "shadow") || is_some (strstr path "sudoers"));
    eexists; (split; [reflexivity|]);
    cbn [fa_path fa_access_type fa_count fa_process mark_suspicious attach_process];
    repeat split; try apply strn_length; cbn; lia.
Qed.

Lemma bump_file_entry_ok {hdr : AuditHeader} (fa : file_access_t) :
  file_entry_ok fa -> file_entry_ok (bump_file fa).
Proof. intros H. exact H. Qed.

Lemma file_line_entries {hdr : AuditHeader} (s : audit_summary_t)
  (line : string) (w : World) :
  Forall file_entry_ok (sensitive_files s) ->
  Forall file_entry_ok (sensitive_files (fst (file_line s line w))) /\
  sensitive_file_count (fst (file_line s line w))
  <= Z.max (sensitive_file_count s) MAX_AUDIT_FILES /\
  exists new, map fa_path (sensitive_files (fst (file_line s line w)))
              = (map fa_path (sensitive_files s) ++ new)%list.
Proof.
  intros Hall.
  assert (Hsame : Forall file_entry_ok (sensitive_files s) /\
            sensitive_file_count s <= Z.max (sensitive_file_count s) MAX_AUDIT_FILES /\
            exists new, map fa_path (sensitive_files s)
                        = (map fa_path (sensitive_files s) ++ new)%list).
  { split; [exact Hall|]. split; [lia|]. exists []. rewrite app_nil_r. reflexivity. }
  unfold file_line, bind.
  destruct ((if 0 <=? extract_event_id line
             then get_event_ctx (extract_event_id line)
             else ret None) w) as [ctx w1].
  destruct (strstr line ("name=" ++ dq)) as [name|]; [|exact Hsame].
  set (path := copy_until_quote (AUDIT_PATH_LEN - 1) (advance 6 name)).
  destruct (Nat.ltb 5 (strlen path)) eqn:Hlen; [|exact Hsame].
  destruct (last_is_not_slash path) eqn:Hslash; [|exact Hsame].
  destruct (sensitive_file_count s <? MAX_AUDIT_FILES) eqn:Hroom; [|exact Hsame].
  cbn [andb]. apply Z.ltb_lt in Hroom. apply Nat.ltb_lt in Hlen.
  destruct (find_index _ _ 0) as [j|] eqn:Hf; cbn [get_event_table fst ret].
  - unfold sensitive_file_count. cbn [sensitive_files set_sensitive_files].
    rewrite update_nth_length, update_nth_paths.
    split; [apply update_nth_Forall; [apply bump_file_entry_ok|exact Hall]|].
    split; [unfold sensitive_file_count; lia|].
    exists []. rewrite app_nil_r. reflexivity.
  - match goal with |- context [add_file_access s path ?slot] =>
      destruct (add_file_access_entry s path slot) as (fa & Hl & Hp & Ht & _ & Hpr)
    end.
    unfold sensitive_file_count in *. rewrite Hl, map_app, length_app.
    cbn [List.length map].
    assert (Hpath : fa_path fa = path).
    { rewrite Hp. apply strn_short. apply copy_until_quote_length. }
    split; [|split].
    + apply Forall_app. split; [exact Hall|]. constructor; [|constructor].
      unfold file_entry_ok. rewrite Hpath.
      repeat split; try assumption. apply copy_until_quote_length.
    + lia.
    + eexists. reflexivity.
Qed.

Lemma parse_file_events_files
  {hdr : AuditHeader} (sys : Env) (s : audit_summary_t) (window_seconds : Z)
  (w : World) :
  Forall file_entry_ok (sensitive_files s) ->
  NoDup (map fa_path (sensitive_files s)) ->
  Forall file_entry_ok
    (sensitive_files (fst (parse_file_events sys s window_seconds w))) /\
  NoDup (map fa_path
           (sensitive_files (fst (parse_file_events sys s window_seconds w)))) /\
  sensitive_file_count (fst (parse_file_events sys s window_seconds w))
  <= Z.max (sensitive_file_count s) MAX_AUDIT_FILES /\
  exists new,
    map fa_path (sensitive_files (fst (parse_file_events sys s window_seconds w)))
    = (map fa_path (sensitive_files s) ++ new)%list.
Proof.
  intros Hall Hnd. unfold parse_file_events.
  destruct (popen_r sys cmd_file) as [out|].
  2:{ cbn [ret fst]. split; [exact Hall|]. split; [exact Hnd|]. split; [lia|].
      exists []. rewrite app_nil_r. reflexivity. }
  apply (for_each_preserves
           (fun s' =>
              Forall file_entry_ok (sensitive_files s') /\
              NoDup (map fa_path (sensitive_files s')) /\
              sensitive_file_count s'
              <= Z.max (sensitive_file_count s) MAX_AUDIT_FILES /\
              exists new, map fa_path (sensitive_files s')
                          = (map fa_path (sensitive_files s) ++ new)%list)).
  - intros s1 line w1 (Hall1 & Hnd1 & Hcap1 & new1 & Hnew1).
    destruct (file_line_entries s1 line w1 Hall1) as (Hall2 & Hcap2 & new2 & Hnew2).
    split; [exact Hall2|].
    split; [apply file_line_paths_distinct; exact Hnd1|].
    split; [lia|].
    exists (new1 ++ new2)%list. rewrite Hnew2, Hnew1, app_assoc. reflexivity.
  - split; [exact Hall|]. split; [exact Hnd|]. split; [lia|].
    exists []. rewrite app_nil_r. reflexivity.
Qed.

(** X10.  Whatever the stream holds, every
    entry of [sensitive_files] has a path of more than five characters
    that does not end in a slash, the access type write, and strings
    within their buffers; no path is listed twice; entries are never
    removed or reordered; and the table never grows beyond
    [MAX_AUDIT_FILES]. *)
Theorem parse_file_events_entries
  {hdr : AuditHeader} (sys : Env) (s : audit_summary_t) (window_seconds : Z)
  (w : World) :
  Forall file_entry_ok (sensitive_files s) ->
  NoDup (map fa_path (sensitive_files s)) ->
  Forall file_entry_ok
    (sensitive_files (fst (parse_file_events sys s window_seconds w))) /\
  NoDup (map fa_path
           (sensitive_files (fst (parse_file_events sys s window_seconds w)))) /\
  sensitive_file_count (fst (parse_file_events sys s window_seconds w))
  <= Z.max (sensitive_file_count s) MAX_AUDIT_FILES /\
  exists new,
    map fa_path (sensitive_files (fst (parse_file_events sys s window_seconds w)))
    = (map fa_path (sensitive_files s) ++ new)%list.
Proof. apply parse_file_events_files. Qed.

Lemma parse_file_events_entries_witness :
  Forall (file_entry_ok (hdr := Host.header)) (sensitive_files zeroed_summary) /\
  NoDup (map fa_path (sensitive_files zeroed_summary)) /\
  Forall (file_entry_ok (hdr := Host.header))
    (sensitive_files
       (fst (parse_file_events (hdr := Host.header) filtered_host zeroed_summary
               3600 Host.boot))) /\
  map fa_path
    (sensitive_files
       (fst (parse_file_events (hdr := Host.header) filtered_host zeroed_summary
               3600 Host.boot)))
  = ["/etc/passwd"].
Proof.
  assert (H1 : Forall (file_entry_ok (hdr := Host.header))
                 (sensitive_files zeroed_summary)) by constructor.
  assert (H2 : NoDup (map fa_path (sensitive_files zeroed_summary))) by constructor.
  split; [exact H1|]. split; [exact H2|].
  split.
  - exact (proj1 (parse_file_events_entries (hdr := Host.header) filtered_host
                    zeroed_summary 3600 Host.boot H1 H2)).
  - vm_compute. reflexivity.
Defined.

(** ** What the anomaly detector raises *)

Section Detection.

Context {hdr : AuditHeader}.
Variable sys : Env.

Lemma maybe_add_anomaly_step (c : bool) (s : audit_summary_t)
  (ty d sev : string) (cur bas dv : F32.float) (w : World) :
  (if c then add_anomaly sys s ty d sev cur bas dv else ret s) w
  = if c && (anomaly_count s <? MAX_AUDIT_ANOMALIES)
    then (set_anomalies
            (anomalies s
             ++ [{| an_type := strn (sizeof_an_type - 1) ty;
                    an_description := strn (sizeof_an_description - 1) d;
                    an_severity := strn (sizeof_an_severity - 1) sev;
                    an_current_value := cur;
                    an_baseline_avg := bas;
                    an_deviation_pct := dv;
                    an_timestamp := time_at sys (clock w) |}]) s,
          tick w)
    else (s, w).
Proof.
  destruct c; [|reflexivity]. unfold add_anomaly.
  rewrite Z.ltb_antisym.
  destruct (MAX_AUDIT_ANOMALIES <=? anomaly_count s); reflexivity.
Qed.

Lemma anomaly_count_snoc (s : audit_summary_t) (l : list audit_anomaly_t)
  (a : audit_anomaly_t) :
  anomaly_count (set_anomalies (l ++ [a]) s)
  = anomaly_count (set_anomalies l s) + 1.
Proof.
  unfold anomaly_count. cbn [anomalies set_anomalies].
  rewrite length_app. cbn [List.length]. lia.
Qed.

End Detection.

Section DetectorSteps.

Context {hdr : AuditHeader}.
Variable sys : Env.
Variable b : audit_baseline_t.
Variable s : audit_summary_t.

Lemma detector_view_fields (x y : audit_summary_t) :
  detector_view x = detector_view y ->
  auth_failures x = auth_failures y /\ sudo_count x = sudo_count y /\
  tmp_executions x = tmp_executions y /\
  devshm_executions x = devshm_executions y /\
  auth_baseline_avg x = auth_baseline_avg y /\
  auth_deviation_pct x = auth_deviation_pct y /\
  sudo_baseline_avg x = sudo_baseline_avg y /\
  sudo_deviation_pct x = sudo_deviation_pct y.
Proof.
  unfold detector_view. intros H. inversion H. repeat split; reflexivity.
Qed.

Lemma emit_spec (k : anomaly_kind) (ks : list anomaly_kind)
  (s1 : audit_summary_t) (w1 : World) :
  let e := emit sys b s k (s1, w1) in
  (anomalies s1 ++ raise sys b s (k :: ks) (clock w1) (anomaly_count s1))%list
  = (anomalies (fst e)
     ++ raise sys b s ks (clock (snd e)) (anomaly_count (fst e)))%list /\
  (clock w1 + List.length (raise sys b s (k :: ks) (clock w1) (anomaly_count s1)))%nat
  = (clock (snd e)
     + List.length (raise sys b s ks (clock (snd e)) (anomaly_count (fst e))))%nat /\
  event_ctx (snd e) = event_ctx w1 /\
  detector_view (fst e) = detector_view s1.
Proof.
  cbv zeta. unfold emit. cbn [raise fst snd].
  destruct (fires b s k && (anomaly_count s1 <? MAX_AUDIT_ANOMALIES)).
  - cbn [fst snd tick clock event_ctx anomalies set_anomalies].
    replace (anomaly_count (set_anomalies _ s1)) with (anomaly_count s1 + 1).
    2:{ unfold anomaly_count. cbn [anomalies set_anomalies].
        rewrite length_app. cbn [List.length]. lia. }
    split; [rewrite <- app_assoc; reflexivity|].
    split; [cbn [List.length]; lia|]. split; reflexivity.
  - cbn [fst snd]. repeat split; reflexivity.
Qed.

Lemma auth_step (s1 : audit_summary_t) (w1 : World) :
  auth_failures s1 = auth_failures s ->
  auth_deviation_pct s1 = auth_deviation b s ->
  (if F32.gt (auth_deviation_pct s1) F32.c100 then
     add_anomaly sys s1 "auth_failure_spike"
       (strn 127 (fmt_d (auth_failures s1) ++ " auth failures ("
                  ++ fmt_f0 (auth_deviation_pct s1) ++ "% above baseline)"))
       (deviation_significance (auth_deviation_pct s1))
       (F32.of_int (auth_failures s1))
       (avg_auth_failures b) (auth_deviation_pct s1)
   else ret s1) w1
  = emit sys b s Auth_failure_spike (s1, w1).
Proof. intros E1 E2. rewrite maybe_add_anomaly_step, E1, E2. reflexivity. Qed.

Lemma sudo_step (s1 : audit_summary_t) (w1 : World) :
  sudo_count s1 = sudo_count s ->
  sudo_deviation_pct s1 = sudo_deviation b s ->
  (if F32.gt (sudo_deviation_pct s1) F32.c200 then
     add_anomaly sys s1 "sudo_spike"
       (strn 127 (fmt_d (sudo_count s1) ++ " sudo commands ("
                  ++ fmt_f0 (sudo_deviation_pct s1) ++ "% above baseline)"))
       (deviation_significance (sudo_deviation_pct s1))
       (F32.of_int (sudo_count s1))
       (avg_sudo_count b) (sudo_deviation_pct s1)
   else ret s1) w1
  = emit sys b s Sudo_spike (s1, w1).
Proof. intros E1 E2. rewrite maybe_add_anomaly_step, E1, E2. reflexivity. Qed.

Lemma tmp_step (s1 : audit_summary_t) (w1 : World) :
  tmp_executions s1 = tmp_executions s ->
  (if 0 <? tmp_executions s1 then
     add_anomaly sys s1 "tmp_execution"
       (strn 127 (fmt_d (tmp_executions s1) ++ " executions from /tmp")) "HIGH"
       (F32.of_int (tmp_executions s1)) (F32.of_int 0) F32.c100
   else ret s1) w1
  = emit sys b s Tmp_execution (s1, w1).
Proof. intros E1. rewrite maybe_add_anomaly_step, E1. reflexivity. Qed.

Lemma devshm_step (s1 : audit_summary_t) (w1 : World) :
  devshm_executions s1 = devshm_executions s ->
  (if 0 <? devshm_executions s1 then
     add_anomaly sys s1 "devshm_execution"
       (strn 127 (fmt_d (devshm_executions s1) ++ " executions from /dev/shm"))
       "CRITICAL"
       (F32.of_int (devshm_executions s1)) (F32.of_int 0) F32.c100
   else ret s1) w1
  = emit sys b s Devshm_execution (s1, w1).
Proof. intros E1. rewrite maybe_add_anomaly_step, E1. reflexivity. Qed.

(** What [detect_anomalies] does once the baseline is seasoned: it
    records the two comparisons and appends the anomalies of [raise]. *)
Lemma detect_anomalies_raise (w : World) :
  5 <= sample_count b ->
  let r := detect_anomalies sys s (Some b) w in
  anomalies (fst r)
  = (anomalies s ++ raise sys b s all_kinds (clock w) (anomaly_count s))%list /\
  clock (snd r)
  = (clock w + List.length (raise sys b s all_kinds (clock w) (anomaly_count s)))%nat /\
  event_ctx (snd r) = event_ctx w /\
  auth_baseline_avg (fst r) = avg_auth_failures b /\
  auth_deviation_pct (fst r) = auth_deviation b s /\
  sudo_baseline_avg (fst r) = avg_sudo_count b /\
  sudo_deviation_pct (fst r) = sudo_deviation b s.
Proof.
  intros Hn. cbv zeta. unfold detect_anomalies.
  replace (sample_count b <? 5) with false by (symmetry; apply Z.ltb_ge; exact Hn).
  unfold bind.
  set (s1 := set_auth_deviation_pct _ (set_auth_baseline_avg _ s)).
  rewrite (auth_step s1 w) by reflexivity.
  destruct (emit_spec Auth_failure_spike [Sudo_spike; Tmp_execution; Devshm_execution]
              s1 w) as (Ha1 & Hc1 & He1 & Hv1).
  destruct (emit sys b s Auth_failure_spike (s1, w)) as [a1 w1].
  cbn [fst snd] in Ha1, Hc1, He1, Hv1.
  apply detector_view_fields in Hv1.
  destruct Hv1 as (V1 & V2 & V3 & V4 & V5 & V6 & V7 & V8).
  set (s2 := set_sudo_deviation_pct _ (set_sudo_baseline_avg _ a1)).
  assert (E2 : sudo_deviation_pct s2 = sudo_deviation b s).
  { unfold s2. cbn [sudo_deviation_pct set_sudo_deviation_pct sudo_count
                      set_sudo_baseline_avg]. rewrite V2. reflexivity. }
  rewrite (sudo_step s2 w1) by (try exact E2; exact V2).
  destruct (emit_spec Sudo_spike [Tmp_execution; Devshm_execution] s2 w1)
    as (Ha2 & Hc2 & He2 & Hv2).
  destruct (emit sys b s Sudo_spike (s2, w1)) as [a2 w2].
  cbn [fst snd] in Ha2, Hc2, He2, Hv2.
  apply detector_view_fields in Hv2.
  destruct Hv2 as (U1 & U2 & U3 & U4 & U5 & U6 & U7 & U8).
  rewrite (tmp_step a2 w2) by (rewrite U3; exact V3).
  destruct (emit_spec Tmp_execution [Devshm_execution] a2 w2)
    as (Ha3 & Hc3 & He3 & Hv3).
  destruct (emit sys b s Tmp_execution (a2, w2)) as [a3 w3].
  cbn [fst snd] in Ha3, Hc3, He3, Hv3.
  apply detector_view_fields in Hv3.
  destruct Hv3 as (T1 & T2 & T3 & T4 & T5 & T6 & T7 & T8).
  rewrite (devshm_step a3 w3) by (rewrite T4, U4; exact V4).
  destruct (emit_spec Devshm_execution [] a3 w3) as (Ha4 & Hc4 & He4 & Hv4).
  destruct (emit sys b s Devshm_execution (a3, w3)) as [a4 w4].
  cbn [fst snd] in Ha4, Hc4, He4, Hv4 |- *.
  apply detector_view_fields in Hv4.
  destruct Hv4 as (S1 & S2 & S3 & S4 & S5 & S6 & S7 & S8).
  change (raise sys b s [] (clock w4) (anomaly_count a4)) with (@nil audit_anomaly_t)
    in Ha4, Hc4.
  rewrite app_nil_r in Ha4. cbn [List.length] in Hc4. rewrite Nat.add_0_r in Hc4.
  change (anomalies s2) with (anomalies a1) in Ha2.
  change (anomaly_count s2) with (anomaly_count a1) in Ha2, Hc2.
  change (anomalies s1) with (anomalies s) in Ha1.
  change (anomaly_count s1) with (anomaly_count s) in Ha1, Hc1.
  unfold all_kinds.
  split; [rewrite Ha1, Ha2, Ha3; symmetry; exact Ha4|].
  split; [rewrite Hc1, Hc2, Hc3; symmetry; exact Hc4|].
  split; [congruence|].
  split.
  { rewrite S5, T5, U5. change (auth_baseline_avg s2) with (auth_baseline_avg a1).
    rewrite V5. reflexivity. }
  split.
  { rewrite S6, T6, U6. change (auth_deviation_pct s2) with (auth_deviation_pct a1).
    rewrite V6. reflexivity. }
  split; [rewrite S7, T7, U7; reflexivity|].
  rewrite S8, T8, U8. exact E2.
Qed.

End DetectorSteps.

Section Raise.

Context {hdr : AuditHeader}.
Variable sys : Env.
Variable b : audit_baseline_t.
Variable s : audit_summary_t.

Lemma raise_length (ks : list anomaly_kind) (n : nat) (count : Z) :
  (List.length (raise sys b s ks n count) <= List.length ks)%nat.
Proof.
  revert n count. induction ks as [|k ks IH]; intros n count; cbn [raise List.length].
  - lia.
  - destruct (fires b s k && (count <? MAX_AUDIT_ANOMALIES)); cbn [List.length].
    + specialize (IH (S n) (count + 1)). lia.
    + specialize (IH n count). lia.
Qed.

Lemma raise_capacity (ks : list anomaly_kind) (n : nat) (count : Z) :
  count + Z.of_nat (List.length (raise sys b s ks n count))
  <= Z.max count MAX_AUDIT_ANOMALIES.
Proof.
  revert n count. induction ks as [|k ks IH]; intros n count; cbn [raise List.length].
  - lia.
  - destruct (fires b s k && (count <? MAX_AUDIT_ANOMALIES)) eqn:E.
    + apply andb_prop in E. destruct E as [_ E]. apply Z.ltb_lt in E.
      cbn [List.length]. specialize (IH (S n) (count + 1)). lia.
    + apply IH.
Qed.

Lemma raise_full (ks : list anomaly_kind) (n : nat) (count : Z) :
  MAX_AUDIT_ANOMALIES <= count -> raise sys b s ks n count = [].
Proof.
  intros Hfull. revert n. induction ks as [|k ks IH]; intros n; cbn [raise].
  - reflexivity.
  - replace (count <? MAX_AUDIT_ANOMALIES) with false
      by (symmetry; apply Z.ltb_ge; exact Hfull).
    rewrite andb_false_r. apply IH.
Qed.

Lemma raise_timestamps (ks : list anomaly_kind) (n : nat) (count : Z) :
  map an_timestamp (raise sys b s ks n count)
  = map (time_at sys) (seq n (List.length (raise sys b s ks n count))).
Proof.
  revert n count. induction ks as [|k ks IH]; intros n count; cbn [raise].
  - reflexivity.
  - destruct (fires b s k && (count <? MAX_AUDIT_ANOMALIES)).
    + cbn [map List.length seq an_timestamp anomaly_of]. f_equal. apply IH.
    + apply IH.
Qed.

(** Every anomaly raised is the record of a kind that fired. *)
Lemma raise_kinds (ks : list anomaly_kind) (n : nat) (count : Z) :
  Forall (fun a => exists k now, In k ks /\ fires b s k = true /\
                                 a = anomaly_of b s k now)
    (raise sys b s ks n count).
Proof.
  revert n count. induction ks as [|k ks IH]; intros n count; cbn [raise].
  - constructor.
  - assert (Hweak : forall n' c',
              Forall (fun a => exists k0 now, In k0 (k :: ks) /\ fires b s k0 = true /\
                                              a = anomaly_of b s k0 now)
                (raise sys b s ks n' c')).
    { intros n' c'. eapply Forall_impl; [|apply IH].
      intros a (k0 & now & Hin & Hf & Ha). exists k0, now.
      split; [right; exact Hin|]. split; assumption. }
    destruct (fires b s k && (count <? MAX_AUDIT_ANOMALIES)) eqn:E; [|apply Hweak].
    apply andb_prop in E. destruct E as [E _].
    constructor; [|apply Hweak].
    exists k, (time_at sys n). split; [left; reflexivity|]. split; [exact E|reflexivity].
Qed.

(** While the table has room for all of them, every kind that fires is
    raised. *)
Lemma raise_complete (ks : list anomaly_kind) (n : nat) (count : Z) (k : anomaly_kind) :
  count + Z.of_nat (List.length ks) <= MAX_AUDIT_ANOMALIES ->
  In k ks -> fires b s k = true ->
  exists now, In (anomaly_of b s k now) (raise sys b s ks n count).
Proof.
  revert n count. induction ks as [|k0 ks IH]; intros n count Hroom Hin Hf;
    [contradiction|].
  cbn [List.length] in Hroom. rewrite Nat2Z.inj_succ in Hroom.
  cbn [raise].
  destruct Hin as [->|Hin].
  - rewrite Hf. replace (count <? MAX_AUDIT_ANOMALIES) with true
      by (symmetry; apply Z.ltb_lt; lia).
    cbn [andb]. exists (time_at sys n). left. reflexivity.
  - destruct (fires b s k0 && (count <? MAX_AUDIT_ANOMALIES)).
    + destruct (IH (S n) (count + 1)) as (now & Hnow); [lia|exact Hin|exact Hf|].
      exists now. right. exact Hnow.
    + apply IH; [lia|exact Hin|exact Hf].
Qed.

(** The severity of a kind that fires. *)
Lemma kind_severity_raised (k : anomaly_kind) :
  fires b s k = true -> In (kind_severity b s k) raised_severities.
Proof.
  unfold raised_severities.
  destruct k; cbn [fires kind_severity]; intros Hf.
  - unfold deviation_significance.
    destruct (F32.gt (auth_deviation b s) F32.c500); [cbn; tauto|].
    destruct (F32.gt (auth_deviation b s) F32.c200); [cbn; tauto|].
    rewrite Hf. cbn. tauto.
  - unfold deviation_significance.
    destruct (F32.gt (sudo_deviation b s) F32.c500); [cbn; tauto|].
    rewrite Hf. cbn. tauto.
  - cbn. tauto.
  - cbn. tauto.
Qed.

End Raise.

(** X11.  With a baseline of five samples or
    more, [detect_anomalies] records the two baseline averages and the
    two deviations, and appends to [anomalies], in the fixed order
    auth-failure spike, sudo spike, /tmp execution, /dev/shm execution,
    one record for every kind whose condition holds while the table
    has room; what does not fit is dropped silently.  It appends at
    most four records, never goes beyond [MAX_AUDIT_ANOMALIES], leaves
    the earlier records in place, reads the clock once per record (the
    records carry successive readings), and appends nothing to a full
    table. *)
Theorem detect_anomalies_appends_in_order
  {hdr : AuditHeader} (sys : Env) (s : audit_summary_t) (b : audit_baseline_t)
  (w : World) :
  5 <= sample_count b ->
  exists new : list audit_anomaly_t,
    new = raise sys b s all_kinds (clock w) (anomaly_count s) /\
    anomalies (fst (detect_anomalies sys s (Some b) w)) = (anomalies s ++ new)%list /\
    (List.length new <= 4)%nat /\
    anomaly_count (fst (detect_anomalies sys s (Some b) w))
    <= Z.max (anomaly_count s) MAX_AUDIT_ANOMALIES /\
    (MAX_AUDIT_ANOMALIES <= anomaly_count s -> new = []) /\
    clock (snd (detect_anomalies sys s (Some b) w))
    = (clock w + List.length new)%nat /\
    map an_timestamp new = map (time_at sys) (seq (clock w) (List.length new)) /\
    event_ctx (snd (detect_anomalies sys s (Some b) w)) = event_ctx w /\
    auth_baseline_avg (fst (detect_anomalies sys s (Some b) w))
    = avg_auth_failures b /\
    auth_deviation_pct (fst (detect_anomalies sys s (Some b) w))
    = auth_deviation b s /\
    sudo_baseline_avg (fst (detect_anomalies sys s (Some b) w)) = avg_sudo_count b /\
    sudo_deviation_pct (fst (detect_anomalies sys s (Some b) w))
    = sudo_deviation b s.
Proof.
  intros Hn.
  destruct (detect_anomalies_raise sys b s w Hn)
    as (Ha & Hc & He & H1 & H2 & H3 & H4).
  exists (raise sys b s all_kinds (clock w) (anomaly_count s)).
  split; [reflexivity|]. split; [exact Ha|].
  split; [apply (raise_length sys b s all_kinds)|].
  split.
  { unfold anomaly_count at 1. rewrite Ha, length_app, Nat2Z.inj_add.
    apply raise_capacity. }
  split; [apply raise_full|].
  split; [exact Hc|].
  split; [apply raise_timestamps|].
  repeat split; assumption.
Qed.

Lemma detect_anomalies_appends_in_order_witness :
  5 <= sample_count seasoned_baseline /\
  map (fun a => (an_type a, an_severity a, an_timestamp a))
    (anomalies (fst (detect_anomalies (hdr := Host.header) Host.quiet busy_summary
                       (Some seasoned_baseline) Host.boot)))
  = [("auth_failure_spike", "CRITICAL", 1767386347);
     ("devshm_execution", "CRITICAL", 1767386348)].
Proof.
  assert (H : 5 <= sample_count seasoned_baseline) by (cbn; lia).
  split; [exact H|].
  destruct (detect_anomalies_appends_in_order (hdr := Host.header) Host.quiet
              busy_summary seasoned_baseline Host.boot H)
    as (new & Hnew & Ha & _).
  rewrite Ha, Hnew. vm_compute. reflexivity.
Defined.

(** X12.  Every anomaly that the detector
    appends is the record of one of the four kinds whose condition
    held, and its severity is MEDIUM, HIGH or CRITICAL (cut to the
    severity buffer): NORMAL and LOW are never recorded.  While the
    table has room for four more records, every kind whose condition
    holds is recorded; in particular any execution from /dev/shm is
    recorded as CRITICAL and any execution from /tmp as HIGH, both with
    a deviation of 100 against a baseline of 0, whatever the baseline
    holds. *)
Theorem detect_anomalies_severities
  {hdr : AuditHeader} (sys : Env) (s : audit_summary_t) (b : audit_baseline_t)
  (w : World) :
  5 <= sample_count b ->
  exists new : list audit_anomaly_t,
    anomalies (fst (detect_anomalies sys s (Some b) w)) = (anomalies s ++ new)%list /\
    Forall (fun a => exists k now,
                fires b s k = true /\ a = anomaly_of b s k now /\
                In (kind_severity b s k) raised_severities) new /\
    (anomaly_count s + 4 <= MAX_AUDIT_ANOMALIES ->
     (forall k, fires b s k = true -> exists now, In (anomaly_of b s k now) new) /\
     (0 < devshm_executions s ->
      exists a, In a new /\
                an_type a = strn (sizeof_an_type - 1) "devshm_execution" /\
                an_severity a = strn (sizeof_an_severity - 1) "CRITICAL" /\
                an_deviation_pct a = F32.c100 /\ an_baseline_avg a = F32.of_int 0) /\
     (0 < tmp_executions s ->
      exists a, In a new /\
                an_type a = strn (sizeof_an_type - 1) "tmp_execution" /\
                an_severity a = strn (sizeof_an_severity - 1) "HIGH" /\
                an_deviation_pct a = F32.c100 /\ an_baseline_avg a = F32.of_int 0)).
Proof.
  intros Hn.
  destruct (detect_anomalies_raise sys b s w Hn) as (Ha & _).
  exists (raise sys b s all_kinds (clock w) (anomaly_count s)).
  split; [exact Ha|]. split.
  { eapply Forall_impl; [|apply raise_kinds].
    intros a (k & now & _ & Hf & Hk). exists k, now.
    split; [exact Hf|]. split; [exact Hk|]. apply kind_severity_raised. exact Hf. }
  intros Hroom.
  assert (Hall : forall k, fires b s k = true ->
            exists now, In (anomaly_of b s k now)
                          (raise sys b s all_kinds (clock w) (anomaly_count s))).
  { intros k Hf. apply raise_complete; [cbn; lia| |exact Hf].
    unfold all_kinds. destruct k; cbn; tauto. }
  split; [exact Hall|]. split.
  - intros Hd. destruct (Hall Devshm_execution) as (now & Hin).
    { cbn. apply Z.ltb_lt. exact Hd. }
    eexists. split; [exact Hin|]. repeat split.
  - intros Ht. destruct (Hall Tmp_execution) as (now & Hin).
    { cbn. apply Z.ltb_lt. exact Ht. }
    eexists. split; [exact Hin|]. repeat split.
Qed.

Lemma detect_anomalies_severities_witness :
  5 <= sample_count seasoned_baseline /\
  exists a,
    In a (anomalies (fst (detect_anomalies (hdr := Host.header) Host.quiet
                            busy_summary (Some seasoned_baseline) Host.boot))) /\
    an_type a = "devshm_execution" /\ an_severity a = "CRITICAL".
Proof.
  assert (H : 5 <= sample_count seasoned_baseline) by (cbn; lia).
  split; [exact H|].
  destruct (detect_anomalies_severities (hdr := Host.header) Host.quiet
              busy_summary seasoned_baseline Host.boot H)
    as (new & Ha & _ & Hroom).
  destruct Hroom as (_ & Hd & _); [vm_compute; discriminate|].
  destruct Hd as (a & Hin & Ht & Hs & _); [cbn; lia|].
  exists a. split; [rewrite Ha; apply in_or_app; right; exact Hin|].
  split; [exact Ht|exact Hs].
Defined.

(** ** Deviation from a baseline average *)

(** Below 0.1 the average is treated as zero: the deviation is 100 for
    a positive counter and 0 otherwise, never more. *)
Lemma calculate_deviation_pct_near_zero (current baseline_avg : F32.float) :
  F32.lt baseline_avg F32.c0_1 = true ->
  (calculate_deviation_pct current baseline_avg = F32.c100 \/
   calculate_deviation_pct current baseline_avg = F32.zero) /\
  F32.gt (calculate_deviation_pct current baseline_avg) F32.c100 = false /\
  F32.gt (calculate_deviation_pct current baseline_avg) F32.c200 = false /\
  In (deviation_significance (calculate_deviation_pct current baseline_avg))
     ["LOW"; "NORMAL"] /\
  auth_multiplier (calculate_deviation_pct current baseline_avg) = 1.
Proof.
  intros Hlt. unfold calculate_deviation_pct. rewrite Hlt.
  destruct (F32.gt current (F32.of_int 0)).
  - split; [left; reflexivity|]. repeat split; try reflexivity. left. reflexivity.
  - split; [right; reflexivity|]. repeat split; try reflexivity.
    right. left. reflexivity.
Qed.

(** X13.  When the baseline averages of failed
    authentications and of sudo commands are below 0.1, the deviations
    recorded are 100 or 0, which is not above the thresholds of 100 and
    200: however many failures or sudo commands the probe counted, no
    auth-failure spike and no sudo spike is raised, the severity of the
    deviation is LOW or NORMAL and the risk multiplier stays 1.  Only
    executions from /tmp and /dev/shm are reported, and nothing at all
    is appended when there are none. *)
Theorem near_zero_baseline_never_spikes
  {hdr : AuditHeader} (sys : Env) (s : audit_summary_t) (b : audit_baseline_t)
  (w : World) :
  5 <= sample_count b ->
  F32.lt (avg_auth_failures b) F32.c0_1 = true ->
  F32.lt (avg_sudo_count b) F32.c0_1 = true ->
  fires b s Auth_failure_spike = false /\
  fires b s Sudo_spike = false /\
  (exists new,
     anomalies (fst (detect_anomalies sys s (Some b) w)) = (anomalies s ++ new)%list /\
     Forall (fun a => exists k now,
                 (k = Tmp_execution \/ k = Devshm_execution) /\
                 a = anomaly_of b s k now) new /\
     (tmp_executions s <= 0 -> devshm_executions s <= 0 -> new = [])) /\
  In (deviation_significance
        (auth_deviation_pct (fst (detect_anomalies sys s (Some b) w))))
     ["LOW"; "NORMAL"] /\
  auth_multiplier (auth_deviation_pct (fst (detect_anomalies sys s (Some b) w))) = 1 /\
  (auth_deviation_pct (fst (detect_anomalies sys s (Some b) w)) = F32.c100 \/
   auth_deviation_pct (fst (detect_anomalies sys s (Some b) w)) = F32.zero) /\
  (sudo_deviation_pct (fst (detect_anomalies sys s (Some b) w)) = F32.c100 \/
   sudo_deviation_pct (fst (detect_anomalies sys s (Some b) w)) = F32.zero).
Proof.
  intros Hn Hauth Hsudo.
  destruct (calculate_deviation_pct_near_zero (F32.of_int (auth_failures s)) _ Hauth)
    as (Ha01 & Ha100 & _ & Hsig & Hmul).
  destruct (calculate_deviation_pct_near_zero (F32.of_int (sudo_count s)) _ Hsudo)
    as (Hs01 & _ & Hs200 & _).
  fold (auth_deviation b s) in Ha01, Ha100, Hsig, Hmul.
  fold (sudo_deviation b s) in Hs01, Hs200.
  destruct (detect_anomalies_raise sys b s w Hn)
    as (Ha & _ & _ & _ & Hdev & _ & Hsdev).
  split; [exact Ha100|]. split; [exact Hs200|]. split.
  - exists (raise sys b s all_kinds (clock w) (anomaly_count s)).
    split; [exact Ha|]. split.
    + eapply Forall_impl; [|apply raise_kinds].
      intros a (k & now & _ & Hf & Hk). exists k, now. split; [|exact Hk].
      destruct k; cbn [fires] in Hf; [congruence|congruence|left|right]; reflexivity.
    + intros Ht Hd. unfold all_kinds. cbn [raise fires].
      rewrite Ha100, Hs200.
      replace (0 <? tmp_executions s) with false by (symmetry; apply Z.ltb_ge; exact Ht).
      replace (0 <? devshm_executions s) with false
        by (symmetry; apply Z.ltb_ge; exact Hd).
      reflexivity.
  - rewrite Hdev, Hsdev. split; [assumption|]. split; [assumption|].
    split; assumption.
Qed.

Lemma near_zero_baseline_never_spikes_witness :
  5 <= sample_count idle_baseline /\
  auth_failures storm_summary = 1000 /\
  anomalies (fst (detect_anomalies (hdr := Host.header) Host.quiet storm_summary
                    (Some idle_baseline) Host.boot)) = [] /\
  auth_multiplier
    (auth_deviation_pct
       (fst (detect_anomalies (hdr := Host.header) Host.quiet storm_summary
               (Some idle_baseline) Host.boot))) = 1.
Proof.
  assert (H1 : 5 <= sample_count idle_baseline) by (cbn; lia).
  assert (H2 : F32.lt (avg_auth_failures idle_baseline) F32.c0_1 = true)
    by reflexivity.
  assert (H3 : F32.lt (avg_sudo_count idle_baseline) F32.c0_1 = true)
    by reflexivity.
  destruct (near_zero_baseline_never_spikes (hdr := Host.header) Host.quiet
              storm_summary idle_baseline Host.boot H1 H2 H3)
    as (_ & _ & (new & Ha & _ & Hnone) & _ & Hmul & _).
  split; [exact H1|]. split; [reflexivity|]. split; [|exact Hmul].
  rewrite Ha, Hnone; [reflexivity|cbn; lia|cbn; lia].
Defined.

(** X14.  A counter that equals a baseline
    average of at least 0.1 deviates by exactly 0; and a baseline
    average that is not a number gives a deviation that is not a
    number, which is above no threshold: it raises nothing, is rated
    NORMAL and leaves the risk multiplier at 1. *)
Theorem calculate_deviation_pct_edges :
  (forall (sign : bool) (m : positive) (e : Z),
     F32.lt (S754_finite sign m e) F32.c0_1 = false ->
     calculate_deviation_pct (S754_finite sign m e) (S754_finite sign m e)
     = F32.zero) /\
  (forall current : F32.float,
     calculate_deviation_pct current S754_nan = S754_nan) /\
  F32.gt S754_nan F32.c100 = false /\
  deviation_significance S754_nan = "NORMAL" /\
  auth_multiplier S754_nan = 1.
Proof.
  split; [|split; [|repeat split]].
  - intros sign m e Hlt.
    destruct sign; [discriminate Hlt|].
    unfold calculate_deviation_pct. rewrite Hlt.
    unfold F32.sub, SFsub.
    rewrite Z.min_id. unfold shl_align. rewrite Z.sub_diag. cbn [fst].
    replace (cond_Zopp false (Zpos m) + cond_Zopp (negb false) (Zpos m)) with 0
      by (unfold cond_Zopp, negb; lia).
    reflexivity.
  - intros current. unfold calculate_deviation_pct.
    destruct current as [sc| sc| |sc mc ec]; reflexivity.
Qed.

(** ** Risk score: floors and recomputation *)

Lemma files_term_nonneg (l : list file_access_t) : 0 <= files_term l.
Proof.
  induction l as [|fa l IH]; cbn [files_term]; [lia|].
  destruct (fa_suspicious fa); lia.
Qed.

Lemma files_term_suspicious (l : list file_access_t) (fa : file_access_t) :
  In fa l -> fa_suspicious fa = true -> 7 <= files_term l.
Proof.
  induction l as [|x l IH]; intros Hin Hs; [contradiction|].
  cbn [files_term]. pose proof (files_term_nonneg l) as Hnn.
  destruct Hin as [->|Hin].
  - rewrite Hs. lia.
  - specialize (IH Hin Hs). destruct (fa_suspicious x); lia.
Qed.

Lemma auth_multiplier_range (d : F32.float) : 1 <= auth_multiplier d <= 5.
Proof.
  unfold auth_multiplier.
  destruct (F32.gt d F32.c500); [lia|].
  destruct (F32.gt d F32.c200); [lia|].
  destruct (F32.gt d F32.c100); lia.
Qed.

Lemma later_terms_lower (s : audit_summary_t) :
  counters_nonneg s ->
  files_term (sensitive_files s) + tmp_executions s * 4
  + devshm_executions s * 6 + suspicious_exec_count s * 10 <= later_terms s.
Proof.
  intros (H1 & H2 & H3 & H4 & H5 & H6 & H7 & H8 & H9). unfold later_terms.
  destruct (F32.gt (sudo_deviation_pct s) F32.c200); lia.
Qed.

(** The score without wrap-around, and bounds on it. *)
Lemma risk_score_exact (s : audit_summary_t) :
  counters_nonneg s -> auth_failures s < 2 ^ 21 ->
  5 * (auth_failures s + 10) + later_terms s <= CInt.INT_MAX ->
  risk_score (calculate_risk_score s)
  = auth_multiplier (auth_deviation_pct s)
    * (auth_failures s + (if brute_force_detected s then 10 else 0))
    + later_terms s /\
  auth_failures s + (if brute_force_detected s then 10 else 0) + later_terms s
  <= risk_score (calculate_risk_score s).
Proof.
  intros Hnn Haf Hmax.
  pose proof (later_terms_lower s Hnn) as Hlow.
  pose proof (files_term_nonneg (sensitive_files s)) as Hft.
  pose proof (auth_multiplier_range (auth_deviation_pct s)) as Hm.
  destruct Hnn as (H1 & H2 & H3 & H4 & H5 & H6 & H7 & H8 & H9).
  rewrite risk_score_decomposition by lia.
  set (acc := auth_failures s + (if brute_force_detected s then 10 else 0)) in *.
  assert (Hacc : 0 <= acc <= auth_failures s + 10)
    by (unfold acc; destruct (brute_force_detected s); lia).
  set (m := auth_multiplier (auth_deviation_pct s)) in *.
  set (lt := later_terms s) in *.
  clearbody acc m lt.
  assert (Hprod : acc <= m * acc <= 5 * acc) by nia.
  rewrite wrap_int_small by int_lia. lia.
Qed.

(** X15.  As long as the counters are non-negative, [auth_failures]
    is below 2^21 (so that the binary32 product with the multiplier
    is exact) and five times the authentication terms plus the later
    terms stay within an [int], the score is the plain sum of its
    terms, and the level cannot be lower than what one finding alone
    is worth: a brute-force detection (more than 5 failures and the
    flag) rates at least high; an execution from /dev/shm, a
    suspicious process chain, a suspicious file or two executions from
    /tmp rate at least medium. *)
Theorem risk_level_floors (s : audit_summary_t) :
  counters_nonneg s -> auth_failures s < 2 ^ 21 ->
  5 * (auth_failures s + 10) + later_terms s <= CInt.INT_MAX ->
  risk_score (calculate_risk_score s)
  = auth_multiplier (auth_deviation_pct s)
    * (auth_failures s + (if brute_force_detected s then 10 else 0))
    + later_terms s /\
  (brute_force_detected s = true -> 5 < auth_failures s ->
   2 <= level_rank (risk_level (calculate_risk_score s))) /\
  (0 < devshm_executions s ->
   1 <= level_rank (risk_level (calculate_risk_score s))) /\
  (0 < suspicious_exec_count s ->
   1 <= level_rank (risk_level (calculate_risk_score s))) /\
  (2 <= tmp_executions s ->
   1 <= level_rank (risk_level (calculate_risk_score s))) /\
  (forall fa, In fa (sensitive_files s) -> fa_suspicious fa = true ->
   1 <= level_rank (risk_level (calculate_risk_score s))).
Proof.
  intros Hnn Haf Hmax.
  destruct (risk_score_exact s Hnn Haf Hmax) as [Hexact Hlow].
  pose proof (later_terms_lower s Hnn) as Hlater.
  pose proof (files_term_nonneg (sensitive_files s)) as Hft.
  pose proof Hnn as (H1 & H2 & H3 & H4 & H5 & H6 & H7 & H8 & H9).
  rewrite calculate_risk_score_level.
  assert (Hhigh : forall x, 16 <= x -> 2 <= level_rank (risk_level_of_score x)).
  { intros x Hx.
    apply (Z.le_trans _ (level_rank (risk_level_of_score 16)));
      [cbn; lia|apply risk_level_of_score_monotone; exact Hx]. }
  assert (Hmed : forall x, 6 <= x -> 1 <= level_rank (risk_level_of_score x)).
  { intros x Hx.
    apply (Z.le_trans _ (level_rank (risk_level_of_score 6)));
      [cbn; lia|apply risk_level_of_score_monotone; exact Hx]. }
  split; [exact Hexact|].
  split; [intros Hbf H5'; apply Hhigh; rewrite Hbf in Hlow; lia|].
  split; [intros Hd; apply Hmed; destruct (brute_force_detected s); lia|].
  split; [intros Hx; apply Hmed; destruct (brute_force_detected s); lia|].
  split; [intros Ht; apply Hmed; destruct (brute_force_detected s); lia|].
  intros fa Hin Hs. pose proof (files_term_suspicious _ fa Hin Hs) as H7'.
  apply Hmed. destruct (brute_force_detected s); lia.
Qed.

Lemma risk_level_floors_witness :
  counters_nonneg brute_force_summary /\
  risk_score (calculate_risk_score brute_force_summary) = 17 /\
  2 <= level_rank (risk_level (calculate_risk_score brute_force_summary)).
Proof.
  assert (H1 : counters_nonneg brute_force_summary).
  { unfold counters_nonneg. cbn. repeat split; lia. }
  assert (H2 : auth_failures brute_force_summary < 2 ^ 21) by (cbn; lia).
  assert (H3 : 5 * (auth_failures brute_force_summary + 10)
               + later_terms brute_force_summary <= CInt.INT_MAX)
    by (vm_compute; discriminate).
  destruct (risk_level_floors brute_force_summary H1 H2 H3) as (Hs & Hbf & _).
  split; [exact H1|]. split; [rewrite Hs; vm_compute; reflexivity|].
  apply Hbf; [reflexivity|cbn; lia].
Defined.

Lemma risk_inputs_outside_risk (t : audit_summary_t) :
  later_terms (outside_risk t) = later_terms t /\
  auth_deviation_pct (outside_risk t) = auth_deviation_pct t /\
  auth_failures (outside_risk t) = auth_failures t /\
  brute_force_detected (outside_risk t) = brute_force_detected t.
Proof. repeat split; reflexivity. Qed.

Lemma risk_outputs_outside_risk (level : string) (score : Z) (t : audit_summary_t) :
  set_risk_level level (set_risk_score score (outside_risk t))
  = set_risk_level level (set_risk_score score t).
Proof. reflexivity. Qed.

(** The score and the level depend on the other fields only. *)
Lemma calculate_risk_score_depends (s t : audit_summary_t) :
  outside_risk t = outside_risk s ->
  calculate_risk_score t = calculate_risk_score s.
Proof.
  intros Ht.
  assert (Hscore : risk_score (calculate_risk_score t)
                   = risk_score (calculate_risk_score s)).
  { rewrite !risk_score_structure.
    destruct (risk_inputs_outside_risk t) as (T1 & T2 & T3 & T4).
    destruct (risk_inputs_outside_risk s) as (S1 & S2 & S3 & S4).
    rewrite <- T1, <- T2, <- T3, <- T4, <- S1, <- S2, <- S3, <- S4, Ht.
    reflexivity. }
  assert (Hlevel : risk_level (calculate_risk_score t)
                   = risk_level (calculate_risk_score s)).
  { rewrite !calculate_risk_score_level, Hscore. reflexivity. }
  rewrite (calculate_risk_score_shape t), (calculate_risk_score_shape s).
  rewrite Hscore, Hlevel.
  rewrite <- (risk_outputs_outside_risk _ _ t), <- (risk_outputs_outside_risk _ _ s).
  rewrite Ht. reflexivity.
Qed.

(** X16.  [calculate_risk_score] reads none of
    the fields it writes: applying it again changes nothing, and the
    score and level it computes do not depend on the [risk_score] and
    [risk_level] the summary held before. *)
Theorem calculate_risk_score_idempotent (s : audit_summary_t) :
  calculate_risk_score (calculate_risk_score s) = calculate_risk_score s /\
  forall (score : Z) (level : string),
    calculate_risk_score (set_risk_level level (set_risk_score score s))
    = calculate_risk_score s.
Proof.
  split.
  - apply calculate_risk_score_depends. apply calculate_risk_score_outside.
  - intros score level. apply calculate_risk_score_depends.
    apply (risk_outputs_outside_risk EmptyString 0).
Qed.

(** ** Saving and reloading the baseline *)

Lemma substring_full (s : string) :
  String.substring 0 (String.length s) s = s.
Proof. induction s as [|c t IH]; cbn; [reflexivity|]. rewrite IH. reflexivity. Qed.

Section Store.

Context {hdr : AuditHeader}.
Variable sys : Env.
Variable disk : Disk.

(** The outcomes of [save_audit_baseline]. *)
Lemma save_audit_baseline_cases (obj : string) :
  let bytes := String.substring 0 sizeof_baseline obj in
  let store path := Store path (stored disk path bytes) in
  (fopen_w disk system_path = true /\
   save_audit_baseline sys disk obj
   = if fwrite_one disk system_path
     then (true, [store system_path; Chmod system_path 384])
     else (false, [store system_path])) \/
  (fopen_w disk system_path = false /\ getenv sys "HOME" = None /\
   save_audit_baseline sys disk obj = (false, [])) \/
  (exists home,
     fopen_w disk system_path = false /\ getenv sys "HOME" = Some home /\
     save_audit_baseline sys disk obj
     = if fopen_w disk (user_path home)
       then if fwrite_one disk (user_path home)
            then (true, [Mkdir (user_dir home) 448; store (user_path home);
                         Chmod (user_path home) 384])
            else (false, [Mkdir (user_dir home) 448; store (user_path home)])
       else (false, [Mkdir (user_dir home) 448])).
Proof.
  cbv zeta. unfold save_audit_baseline. fold system_path.
  destruct (fopen_w disk system_path).
  - left. split; [reflexivity|]. destruct (fwrite_one disk system_path); reflexivity.
  - right. destruct (getenv sys "HOME") as [home|].
    + right. exists home. split; [reflexivity|]. split; [reflexivity|].
      fold (user_path home). fold (user_dir home).
      destruct (fopen_w disk (user_path home)); [|reflexivity].
      destruct (fwrite_one disk (user_path home)); reflexivity.
    + left. repeat split; reflexivity.
Qed.

End Store.

Lemma load_after_store {hdr : AuditHeader} (sys : Env) (path obj obj0 : string)
  (calls : list fs_call) :
  String.length obj = sizeof_baseline ->
  open_baseline (after_calls calls sys) = Some obj ->
  load_audit_baseline (after_calls calls sys) obj0
  = (String.eqb (magic_bytes obj) AUDIT_BASELINE_MAGIC, obj).
Proof.
  intros Hlen Hopen. unfold load_audit_baseline. rewrite Hopen.
  unfold fread_one. rewrite <- Hlen, Nat.leb_refl, substring_full.
  cbn [negb]. destruct (String.eqb (magic_bytes obj) AUDIT_BASELINE_MAGIC);
    reflexivity.
Qed.

(** X17.  When [save_audit_baseline] reports success
    for a full record and the file holds what was written, a following
    [load_audit_baseline] reads the same bytes back, provided the
    record went to the system path or no file can be read there; it
    then answers true exactly when the record starts with the magic
    (saving does not check it).  When the record went to the user path
    while a file at the system path can be read but not written, the
    load never sees what was saved: it reads the system file as
    before. *)
Theorem save_then_load_round_trip
  {hdr : AuditHeader} (sys : Env) (disk : Disk) (obj obj0 : string)
  (calls : list fs_call) :
  save_audit_baseline sys disk obj = (true, calls) ->
  String.length obj = sizeof_baseline ->
  (forall path, stored disk path obj = obj) ->
  (fopen_w disk system_path = true \/ fopen_r sys system_path = None ->
   load_audit_baseline (after_calls calls sys) obj0
   = (String.eqb (magic_bytes obj) AUDIT_BASELINE_MAGIC, obj)) /\
  (fopen_w disk system_path = false -> fopen_r sys system_path <> None ->
   load_audit_baseline (after_calls calls sys) obj0 = load_audit_baseline sys obj0).
Proof.
  intros Hsave Hlen Hstored.
  assert (Hbytes : String.substring 0 sizeof_baseline obj = obj)
    by (rewrite <- Hlen; apply substring_full).
  destruct (save_audit_baseline_cases sys disk obj)
    as [(Hw & E)|[(Hw & Hh & E)|(home & Hw & Hh & E)]];
    cbv zeta in E; rewrite E in Hsave; clear E.
  - destruct (fwrite_one disk system_path); [|discriminate].
    inversion Hsave; subst calls. rewrite Hbytes, Hstored. split.
    + intros _. apply (load_after_store sys system_path); [exact Hlen|].
      unfold open_baseline. fold system_path. cbn [after_calls fopen_r].
      rewrite String.eqb_refl. reflexivity.
    + intros Hno. congruence.
  - discriminate.
  - destruct (fopen_w disk (user_path home)) eqn:Hu; [|discriminate].
    destruct (fwrite_one disk (user_path home)); [|discriminate].
    inversion Hsave; subst calls. rewrite Hbytes, Hstored.
    assert (Hne : String.eqb system_path (user_path home) = false).
    { destruct (String.eqb system_path (user_path home)) eqn:Heq; [|reflexivity].
      apply String.eqb_eq in Heq. congruence. }
    split.
    + intros [Hyes|Hnone]; [congruence|].
      apply (load_after_store sys (user_path home)); [exact Hlen|].
      unfold open_baseline. fold system_path. cbn [after_calls fopen_r getenv].
      rewrite Hne, Hnone, Hh. fold (user_path home).
      rewrite String.eqb_refl. reflexivity.
    + intros _ Hsome. unfold load_audit_baseline, open_baseline.
      fold system_path. cbn [after_calls fopen_r getenv]. rewrite Hne.
      destruct (fopen_r sys system_path); [reflexivity|congruence].
Qed.

Lemma save_then_load_round_trip_witness :
  exists calls,
    save_audit_baseline (hdr := Host.header) home_host user_disk
      seasoned_baseline_file = (true, calls) /\
    calls = [Mkdir "/home/ada/.sentinel" 448;
             Store "/home/ada/.sentinel/audit_baseline.dat" seasoned_baseline_file;
             Chmod "/home/ada/.sentinel/audit_baseline.dat" 384] /\
    load_audit_baseline (hdr := Host.header) (after_calls calls home_host)
      (zeroed_baseline_bytes (hdr := Host.header))
    = (true, seasoned_baseline_file).
Proof.
  destruct (save_audit_baseline (hdr := Host.header) home_host user_disk
              seasoned_baseline_file) as [ok calls] eqn:E.
  assert (Hok : ok = true) by (vm_compute in E; congruence).
  subst ok. exists calls. split; [reflexivity|].
  split.
  { pose proof E as E'. vm_compute in E'. inversion E'. vm_compute. reflexivity. }
  assert (Hlen : String.length seasoned_baseline_file
                 = sizeof_baseline (AuditHeader := Host.header)) by reflexivity.
  assert (Hst : forall path, stored user_disk path seasoned_baseline_file
                             = seasoned_baseline_file) by reflexivity.
  destruct (save_then_load_round_trip (hdr := Host.header) home_host user_disk
              seasoned_baseline_file
              (zeroed_baseline_bytes (hdr := Host.header)) calls E Hlen Hst)
    as [Hload _].
  rewrite Hload; [reflexivity|]. right. reflexivity.
Defined.

(** X18.  [save_audit_baseline] succeeds only
    after storing the record and setting the mode of that file to
    0600, as its last call; on failure it changes no mode.  When the
    system file opens it never turns to the home directory, even if
    the write then fails; when it does not open and HOME is unset
    nothing is touched; otherwise the directory .sentinel is created
    with mode 0700 before the user file is opened. *)
Theorem save_audit_baseline_calls
  {hdr : AuditHeader} (sys : Env) (disk : Disk) (obj : string) :
  (fst (save_audit_baseline sys disk obj) = true ->
   exists path pre,
     snd (save_audit_baseline sys disk obj)
     = (pre ++ [Store path
                  (stored disk path (String.substring 0 sizeof_baseline obj));
                Chmod path 384])%list /\
     fwrite_one disk path = true /\
     ((pre = [] /\ path = system_path) \/
      (exists home, getenv sys "HOME" = Some home /\
                    pre = [Mkdir (user_dir home) 448] /\ path = user_path home /\
                    fopen_w disk system_path = false))) /\
  (fst (save_audit_baseline sys disk obj) = false ->
   existsb is_chmod (snd (save_audit_baseline sys disk obj)) = false) /\
  (fopen_w disk system_path = true ->
   save_audit_baseline sys disk obj
   = if fwrite_one disk system_path
     then (true,
           [Store system_path
              (stored disk system_path (String.substring 0 sizeof_baseline obj));
            Chmod system_path 384])
     else (false,
           [Store system_path
              (stored disk system_path (String.substring 0 sizeof_baseline obj))])) /\
  (fopen_w disk system_path = false -> getenv sys "HOME" = None ->
   save_audit_baseline sys disk obj = (false, [])).
Proof.
  destruct (save_audit_baseline_cases sys disk obj)
    as [(Hw & E)|[(Hw & Hh & E)|(home & Hw & Hh & E)]];
    cbv zeta in E; rewrite E; clear E.
  - split; [|split; [|split]].
    + destruct (fwrite_one disk system_path) eqn:Hf; [|discriminate].
      intros _. exists system_path, []. split; [reflexivity|]. split; [exact Hf|].
      left. split; reflexivity.
    + destruct (fwrite_one disk system_path); [discriminate|reflexivity].
    + reflexivity.
    + congruence.
  - split; [|split; [|split]].
    + discriminate.
    + reflexivity.
    + congruence.
    + reflexivity.
  - split; [|split; [|split]].
    + destruct (fopen_w disk (user_path home)); [|discriminate].
      destruct (fwrite_one disk (user_path home)) eqn:Hf; [|discriminate].
      intros _. exists (user_path home), [Mkdir (user_dir home) 448].
      split; [reflexivity|]. split; [exact Hf|].
      right. exists home. repeat split; assumption.
    + destruct (fopen_w disk (user_path home)); [|reflexivity].
      destruct (fwrite_one disk (user_path home)); [discriminate|reflexivity].
    + congruence.
    + congruence.
Qed.

(** ** A sequence of baseline updates *)

Section Updates.

Variable sys : Env.

(** What one update does to the bookkeeping fields and to the clock. *)
Lemma update_audit_baseline_bookkeeping (b : audit_baseline_t)
  (current : audit_summary_t) (w : World) :
  let r := update_audit_baseline sys b current w in
  sample_count (fst r) = CInt.incr (sample_count b) /\
  event_ctx (snd r) = event_ctx w /\
  (sample_count b = 0 ->
   magic (fst r) = AUDIT_BASELINE_MAGIC /\
   version (fst r) = AUDIT_BASELINE_VERSION /\
   created (fst r) = time_at sys (clock w) /\
   updated (fst r) = time_at sys (S (clock w)) /\
   clock (snd r) = S (S (clock w))) /\
  (sample_count b <> 0 ->
   magic (fst r) = magic b /\ version (fst r) = version b /\
   created (fst r) = created b /\
   updated (fst r) = time_at sys (clock w) /\
   clock (snd r) = S (clock w)).
Proof.
  cbv zeta. unfold update_audit_baseline, bind, time_now, ret.
  destruct (sample_count b =? 0) eqn:E.
  - apply Z.eqb_eq in E. cbn. repeat split; intros; congruence.
  - apply Z.eqb_neq in E. cbn. repeat split; intros; congruence.
Qed.

(** Updates of a baseline that already holds samples. *)
Lemma feed_baseline_seasoned (samples : list audit_summary_t)
  (b : audit_baseline_t) (w : World) :
  0 < sample_count b ->
  sample_count b + Z.of_nat (List.length samples) <= CInt.INT_MAX ->
  let r := feed_baseline sys b samples w in
  sample_count (fst r) = sample_count b + Z.of_nat (List.length samples) /\
  magic (fst r) = magic b /\ version (fst r) = version b /\
  created (fst r) = created b /\
  clock (snd r) = (clock w + List.length samples)%nat /\
  event_ctx (snd r) = event_ctx w /\
  (samples <> [] ->
   updated (fst r) = time_at sys (clock w + List.length samples - 1)%nat).
Proof.
  revert b w. induction samples as [|cur samples IH]; intros b w Hpos Hmax; cbv zeta.
  - cbn. rewrite Z.add_0_r, Nat.add_0_r. repeat split; congruence.
  - unfold feed_baseline. cbn [for_each]. unfold bind.
    destruct (update_audit_baseline_bookkeeping b cur w) as (Hsc & Hev & _ & Hrest).
    cbv zeta in Hsc, Hev, Hrest.
    destruct Hrest as (Hm & Hv & Hc & Hu & Hclk); [lia|].
    destruct (update_audit_baseline sys b cur w) as [b1 w1].
    cbn [fst snd] in *.
    cbn [List.length] in Hmax |- *. rewrite Nat2Z.inj_succ in Hmax |- *.
    rewrite incr_small in Hsc by int_lia.
    fold (feed_baseline sys b1 samples).
    destruct (IH b1 w1) as (I1 & I2 & I3 & I4 & I5 & I6 & I7); [lia|lia|].
    cbv zeta in I1, I2, I3, I4, I5, I6, I7.
    repeat split; try congruence; try lia.
    intros _. destruct samples as [|cur2 samples].
    + cbn. rewrite Hu. f_equal. lia.
    + rewrite I7 by discriminate. f_equal. cbn [List.length]. lia.
Qed.

End Updates.

(** X19.  Feeding one sample after another to an
    empty baseline (sample count 0) counts the samples, stamps the
    magic and version and the time of creation once, at the first
    update, and the time of the last update; the clock is read once
    per update and once more for the creation.  Anomaly detection
    against the grown baseline stays switched off for the first four
    samples and is active from the fifth. *)
Theorem feed_baseline_bookkeeping
  {hdr : AuditHeader} (sys : Env) (b : audit_baseline_t)
  (samples : list audit_summary_t) (w : World) :
  sample_count b = 0 -> samples <> [] ->
  Z.of_nat (List.length samples) <= CInt.INT_MAX ->
  sample_count (fst (feed_baseline sys b samples w))
  = Z.of_nat (List.length samples) /\
  magic (fst (feed_baseline sys b samples w)) = AUDIT_BASELINE_MAGIC /\
  version (fst (feed_baseline sys b samples w)) = AUDIT_BASELINE_VERSION /\
  created (fst (feed_baseline sys b samples w)) = time_at sys (clock w) /\
  updated (fst (feed_baseline sys b samples w))
  = time_at sys (clock w + List.length samples)%nat /\
  clock (snd (feed_baseline sys b samples w))
  = (clock w + List.length samples + 1)%nat /\
  ((List.length samples < 5)%nat ->
   forall s w2,
     detect_anomalies sys s (Some (fst (feed_baseline sys b samples w))) w2
     = (s, w2)) /\
  ((5 <= List.length samples)%nat ->
   forall s w2,
     auth_deviation_pct
       (fst (detect_anomalies sys s
               (Some (fst (feed_baseline sys b samples w))) w2))
     = auth_deviation (fst (feed_baseline sys b samples w)) s).
Proof.
  intros Hzero Hne Hmax.
  destruct samples as [|cur samples]; [congruence|]. clear Hne.
  unfold feed_baseline. cbn [for_each]. unfold bind.
  destruct (update_audit_baseline_bookkeeping sys b cur w) as (Hsc & Hev & Hfirst & _).
  cbv zeta in Hsc, Hev, Hfirst.
  destruct (Hfirst Hzero) as (Hm & Hv & Hc & Hu & Hclk). clear Hfirst.
  destruct (update_audit_baseline sys b cur w) as [b1 w1].
  cbn [fst snd] in *.
  cbn [List.length] in Hmax |- *. rewrite Nat2Z.inj_succ in Hmax |- *.
  rewrite Hzero in Hsc. change (CInt.incr 0) with 1 in Hsc.
  fold (feed_baseline sys b1 samples).
  destruct (feed_baseline_seasoned sys samples b1 w1)
    as (I1 & I2 & I3 & I4 & I5 & I6 & I7); [lia|int_lia|].
  cbv zeta in I1, I2, I3, I4, I5, I6, I7.
  assert (Hcount : sample_count (fst (feed_baseline sys b1 samples w1))
                   = Z.succ (Z.of_nat (List.length samples))) by lia.
  split; [exact Hcount|].
  split; [congruence|]. split; [congruence|]. split; [congruence|].
  split.
  { destruct samples as [|cur2 samples].
    - cbn. rewrite Hu. f_equal. lia.
    - rewrite I7 by discriminate. f_equal. cbn [List.length]. lia. }
  split; [lia|].
  split.
  - intros Hlt s w2. apply detect_anomalies_guard.
    intros b' Hb'. inversion Hb'; subst b'. lia.
  - intros Hge s w2.
    destruct (detect_anomalies_raise sys (fst (feed_baseline sys b1 samples w1)) s w2)
      as (_ & _ & _ & _ & Hd & _); [lia|exact Hd].
Qed.

Lemma feed_baseline_bookkeeping_witness :
  sample_count empty_baseline = 0 /\
  sample_count (fst (feed_baseline Host.quiet empty_baseline
                       [first_sample; first_sample; first_sample] Host.boot)) = 3 /\
  detect_anomalies (hdr := Host.header) Host.quiet busy_summary
    (Some (fst (feed_baseline Host.quiet empty_baseline
                  [first_sample; first_sample; first_sample] Host.boot)))
    Host.boot
  = (busy_summary, Host.boot).
Proof.
  assert (H1 : sample_count empty_baseline = 0) by reflexivity.
  assert (H2 : [first_sample; first_sample; first_sample] <> []) by discriminate.
  assert (H3 : Z.of_nat (List.length [first_sample; first_sample; first_sample])
               <= CInt.INT_MAX) by (vm_compute; discriminate).
  destruct (feed_baseline_bookkeeping (hdr := Host.header) Host.quiet empty_baseline
              [first_sample; first_sample; first_sample] Host.boot H1 H2 H3)
    as (Hc & _ & _ & _ & _ & _ & Hoff & _).
  split; [exact H1|]. split; [exact Hc|].
  apply Hoff. cbn. lia.
Defined.

(** ** The probe, stage by stage *)

Lemma some_eq {A} (x y : A) : Some x = Some y -> x = y.
Proof. congruence. Qed.

Section Pipeline.

Context {hdr : AuditHeader}.
Variable sys : Env.

(** [probe_audit] on a host with memory and a readable audit log. *)
Lemma probe_audit_pipeline (window_seconds : Z) (w : World) :
  calloc_ok sys = true ->
  access_R_OK sys "/var/log/audit/audit.log" = true ->
  probe_audit sys window_seconds w
  = finish_probe sys
      (parsed_summary sys window_seconds (time_at sys (clock w))
         (snd (parse_syscall_context sys window_seconds
                 {| event_ctx := []; clock := S (clock w) |}))).
Proof.
  intros Hc Ha.
  cbv beta iota zeta delta [probe_audit bind time_now clear_event_ctx
                              put_event_table ret negb parsed_summary
                              finish_probe].
  rewrite Hc, Ha.
  fold (init_summary window_seconds (time_at sys (clock w))).
  destruct (parse_syscall_context sys window_seconds _) as [[] w1].
  cbn [snd fst].
  destruct (parse_file_events sys _ window_seconds w1) as [sf w2].
  cbn [snd fst event_ctx clock].
  destruct (load_audit_baseline sys zeroed_baseline_bytes) as [loaded bytes].
  destruct loaded; [|reflexivity].
  destruct (detect_anomalies sys _ _ _) as [s4 w4]. reflexivity.
Qed.

Lemma detect_anomalies_world (s : audit_summary_t) (b : option audit_baseline_t)
  (w : World) :
  event_ctx (snd (detect_anomalies sys s b w)) = event_ctx w /\
  (clock w <= clock (snd (detect_anomalies sys s b w)))%nat /\
  Z.of_nat (clock (snd (detect_anomalies sys s b w))) - Z.of_nat (clock w)
  = anomaly_count (fst (detect_anomalies sys s b w)) - anomaly_count s.
Proof.
  destruct b as [b|]; [|cbn; repeat split; lia].
  destruct (Z_lt_le_dec (sample_count b) 5) as [Hlt|Hge].
  - rewrite detect_anomalies_guard; [cbn; repeat split; lia|].
    intros b' Hb'. inversion Hb'; subst. exact Hlt.
  - destruct (detect_anomalies_raise sys b s w Hge) as (Ha & Hc & He & _).
    cbv zeta in Ha, Hc, He. split; [exact He|]. split; [lia|].
    unfold anomaly_count. rewrite Ha, length_app, Hc. lia.
Qed.

(** What the end of the probe does to a parsed summary [p]. *)
Lemma finish_probe_spec (p : audit_summary_t * World) :
  exists s4 : audit_summary_t,
    fst (finish_probe sys p) = Some (calculate_risk_score s4) /\
    outside_detect s4 = outside_detect (fst p) /\
    event_ctx (snd (finish_probe sys p)) = [] /\
    Z.of_nat (clock (snd (finish_probe sys p))) - Z.of_nat (clock (snd p))
    = anomaly_count s4 - anomaly_count (fst p).
Proof.
  unfold finish_probe. cbv zeta.
  destruct (load_audit_baseline sys zeroed_baseline_bytes) as [loaded bytes].
  destruct loaded.
  - match goal with
    | |- context [detect_anomalies sys (fst p) ?b ?w3] =>
        destruct (detect_anomalies_world (fst p) b w3) as (He & _ & Hd);
        pose proof (detect_anomalies_outside sys (fst p) b w3) as Ho;
        destruct (detect_anomalies sys (fst p) b w3) as [s4 w4]
    end.
    cbn [fst snd event_ctx clock] in *.
    exists s4. repeat split; assumption.
  - cbn [fst snd event_ctx clock]. exists (fst p). repeat split. lia.
Qed.

(** [probe_audit] on the two early returns. *)
Lemma probe_audit_early (window_seconds : Z) (w : World) :
  (calloc_ok sys = false -> probe_audit sys window_seconds w = (None, w)) /\
  (calloc_ok sys = true ->
   access_R_OK sys "/var/log/audit/audit.log" = false ->
   probe_audit sys window_seconds w
   = (Some (set_enabled false
              (init_summary window_seconds (time_at sys (clock w)))),
      tick w)).
Proof.
  cbv beta iota zeta delta [probe_audit bind time_now ret negb].
  split.
  - intros ->. reflexivity.
  - intros -> ->. reflexivity.
Qed.

Lemma unowned_view_outside (s s' : audit_summary_t) :
  outside_auth s' = outside_auth s \/ outside_priv s' = outside_priv s \/
  outside_file s' = outside_file s \/ outside_exec s' = outside_exec s \/
  outside_security s' = outside_security s \/
  outside_detect s' = outside_detect s \/ outside_risk s' = outside_risk s ->
  unowned_view s' = unowned_view s.
Proof.
  intros [H|[H|[H|[H|[H|[H|H]]]]]].
  - change (unowned_view (outside_auth s') = unowned_view (outside_auth s)).
    rewrite H. reflexivity.
  - change (unowned_view (outside_priv s') = unowned_view (outside_priv s)).
    rewrite H. reflexivity.
  - change (unowned_view (outside_file s') = unowned_view (outside_file s)).
    rewrite H. reflexivity.
  - change (unowned_view (outside_exec s') = unowned_view (outside_exec s)).
    rewrite H. reflexivity.
  - change (unowned_view (outside_security s') = unowned_view (outside_security s)).
    rewrite H. reflexivity.
  - change (unowned_view (outside_detect s') = unowned_view (outside_detect s)).
    rewrite H. reflexivity.
  - change (unowned_view (outside_risk s') = unowned_view (outside_risk s)).
    rewrite H. reflexivity.
Qed.

Lemma parsed_summary_unowned (window_seconds now : Z) (w1 : World) :
  unowned_view (fst (parsed_summary sys window_seconds now w1))
  = (true, window_seconds, now, 0, 0).
Proof.
  unfold parsed_summary. cbn [fst].
  rewrite (unowned_view_outside _ _
             (or_intror (or_intror (or_intror (or_intror (or_introl
                (check_security_framework_outside sys _))))))).
  rewrite (unowned_view_outside _ _
             (or_intror (or_intror (or_intror (or_introl
                (parse_exec_events_outside sys _ window_seconds)))))).
  rewrite (unowned_view_outside _ _
             (or_intror (or_intror (or_introl
                (parse_file_events_outside sys _ window_seconds w1))))).
  rewrite (unowned_view_outside _ _
             (or_intror (or_introl (parse_priv_events_outside sys _ window_seconds)))).
  rewrite (unowned_view_outside _ _
             (or_introl (parse_auth_events_outside sys _ window_seconds))).
  reflexivity.
Qed.

End Pipeline.

(** X20.  In every summary that [probe_audit]
    returns, [enabled] tells whether the audit log was readable,
    [period_seconds] is the window asked for, [capture_time] is the
    first reading of the clock, and [permission_changes] and
    [ownership_changes] are 0: no parser ever sets them, so their
    terms never contribute to the risk score of a probe. *)
Theorem probe_audit_unowned_fields
  {hdr : AuditHeader} (sys : Env) (window_seconds : Z) (w w' : World)
  (s : audit_summary_t) :
  probe_audit sys window_seconds w = (Some s, w') ->
  enabled s = access_R_OK sys "/var/log/audit/audit.log" /\
  period_seconds s = window_seconds /\
  capture_time s = time_at sys (clock w) /\
  permission_changes s = 0 /\ ownership_changes s = 0.
Proof.
  intros Hp.
  assert (Hv : unowned_view s
               = (access_R_OK sys "/var/log/audit/audit.log", window_seconds,
                  time_at sys (clock w), 0, 0)).
  { apply (f_equal fst) in Hp. cbn [fst] in Hp.
    destruct (calloc_ok sys) eqn:Hc.
    2:{ rewrite (proj1 (probe_audit_early sys window_seconds w) Hc) in Hp.
        discriminate. }
    destruct (access_R_OK sys "/var/log/audit/audit.log") eqn:Ha.
    2:{ rewrite (proj2 (probe_audit_early sys window_seconds w) Hc Ha) in Hp.
        cbn [fst] in Hp. apply some_eq in Hp. subst s. reflexivity. }
    rewrite (probe_audit_pipeline sys window_seconds w Hc Ha) in Hp.
    destruct (finish_probe_spec sys
                (parsed_summary sys window_seconds (time_at sys (clock w))
                   (snd (parse_syscall_context sys window_seconds
                           {| event_ctx := []; clock := S (clock w) |}))))
      as (s4 & Hs4 & Ho & _).
    rewrite Hs4 in Hp. apply some_eq in Hp. subst s.
    rewrite (unowned_view_outside _ _
               (or_intror (or_intror (or_intror (or_intror (or_intror (or_intror
                  (calculate_risk_score_outside _)))))))).
    rewrite (unowned_view_outside _ _
               (or_intror (or_intror (or_intror (or_intror (or_intror (or_introl
                  Ho))))))).
    apply parsed_summary_unowned. }
  unfold unowned_view in Hv. inversion Hv. repeat split; reflexivity.
Qed.

Lemma probe_audit_unowned_fields_witness :
  exists (s : audit_summary_t) (w' : World),
    probe_audit (hdr := Host.header) brute_force_host 3600 Host.boot = (Some s, w') /\
    enabled s = true /\ period_seconds s = 3600 /\
    permission_changes s = 0 /\ ownership_changes s = 0.
Proof.
  destruct (probe_audit (hdr := Host.header) brute_force_host 3600 Host.boot)
    as [[s|] w'] eqn:E; [|vm_compute in E; discriminate].
  exists s, w'. split; [reflexivity|].
  destruct (probe_audit_unowned_fields (hdr := Host.header) brute_force_host 3600
              Host.boot w' s E) as (H1 & H2 & _ & H4 & H5).
  split; [rewrite H1; reflexivity|]. repeat split; assumption.
Defined.

Lemma parsed_summary_no_anomaly {hdr : AuditHeader} (sys : Env)
  (window_seconds now : Z) (w1 : World) :
  anomalies (fst (parsed_summary sys window_seconds now w1)) = [].
Proof.
  pose proof (check_security_framework_baseline_view sys
                (parse_exec_events sys
                   (fst (parse_file_events sys
                           (parse_priv_events sys
                              (parse_auth_events sys
                                 (init_summary window_seconds now) window_seconds)
                              window_seconds) window_seconds w1)) window_seconds))
    as H.
  rewrite parse_exec_events_baseline_view, parse_file_events_baseline_view,
    parse_priv_events_baseline_view, parse_auth_events_baseline_view in H.
  unfold baseline_view in H.
  apply (f_equal (fun v => fst (fst (fst (fst v))))) in H. exact H.
Qed.

Lemma parsed_summary_clock {hdr : AuditHeader} (sys : Env)
  (window_seconds now : Z) (w1 : World) :
  clock (snd (parsed_summary sys window_seconds now w1)) = clock w1.
Proof.
  unfold parsed_summary. cbn [snd].
  destruct (parse_file_events_world sys
              (parse_priv_events sys
                 (parse_auth_events sys (init_summary window_seconds now)
                    window_seconds) window_seconds) window_seconds w1)
    as (ids & _ & _ & Hk & _).
  exact Hk.
Qed.

Lemma parse_syscall_context_clock (sys : Env) (window_seconds : Z) (n : nat) :
  clock (snd (parse_syscall_context sys window_seconds
                {| event_ctx := []; clock := n |})) = n.
Proof.
  destruct (parse_syscall_context_world sys window_seconds
              {| event_ctx := []; clock := n |}) as (_ & Hk & _).
  - unfold ctx_table_ok. cbn. repeat split; [discriminate|constructor|constructor].
  - exact Hk.
Qed.

Lemma anomalies_outside_risk (x : audit_summary_t) :
  anomalies (outside_risk x) = anomalies x.
Proof. reflexivity. Qed.

Lemma anomaly_count_risk (x : audit_summary_t) :
  anomaly_count (calculate_risk_score x) = anomaly_count x.
Proof.
  unfold anomaly_count.
  rewrite <- (anomalies_outside_risk (calculate_risk_score x)).
  rewrite calculate_risk_score_outside. rewrite anomalies_outside_risk.
  reflexivity.
Qed.

(** X21.  A probe that finds the audit
    log readable starts from an empty event table and leaves an empty
    one: its summary and the number of clock readings do not depend on
    what an earlier probe left in the table.  On the two early returns
    (no memory, unreadable log) the table is left as it was.  The
    clock is read once for the capture time and once for every anomaly
    recorded. *)
Theorem probe_audit_event_table
  {hdr : AuditHeader} (sys : Env) (window_seconds : Z) (w : World) :
  (calloc_ok sys = true ->
   access_R_OK sys "/var/log/audit/audit.log" = true ->
   event_ctx (snd (probe_audit sys window_seconds w)) = [] /\
   forall t : list audit_event_ctx_t,
     fst (probe_audit sys window_seconds {| event_ctx := t; clock := clock w |})
     = fst (probe_audit sys window_seconds w) /\
     clock (snd (probe_audit sys window_seconds
                   {| event_ctx := t; clock := clock w |}))
     = clock (snd (probe_audit sys window_seconds w))) /\
  (calloc_ok sys = false \/ access_R_OK sys "/var/log/audit/audit.log" = false ->
   event_ctx (snd (probe_audit sys window_seconds w)) = event_ctx w) /\
  (forall s, fst (probe_audit sys window_seconds w) = Some s ->
     Z.of_nat (clock (snd (probe_audit sys window_seconds w)))
     = Z.of_nat (clock w) + 1 + anomaly_count s).
Proof.
  split; [|split].
  - intros Hc Ha. split.
    + rewrite (probe_audit_pipeline sys window_seconds w Hc Ha).
      destruct (finish_probe_spec sys
                  (parsed_summary sys window_seconds (time_at sys (clock w))
                     (snd (parse_syscall_context sys window_seconds
                             {| event_ctx := []; clock := S (clock w) |}))))
        as (s4 & _ & _ & He & _).
      exact He.
    + intros t.
      rewrite (probe_audit_pipeline sys window_seconds
                 {| event_ctx := t; clock := clock w |} Hc Ha).
      rewrite (probe_audit_pipeline sys window_seconds w Hc Ha).
      split; reflexivity.
  - intros [Hc|Ha].
    + rewrite (proj1 (probe_audit_early sys window_seconds w) Hc). reflexivity.
    + destruct (calloc_ok sys) eqn:Hc.
      * rewrite (proj2 (probe_audit_early sys window_seconds w) Hc Ha). reflexivity.
      * rewrite (proj1 (probe_audit_early sys window_seconds w) Hc). reflexivity.
  - intros s Hs.
    destruct (calloc_ok sys) eqn:Hc.
    2:{ rewrite (proj1 (probe_audit_early sys window_seconds w) Hc) in Hs.
        discriminate. }
    destruct (access_R_OK sys "/var/log/audit/audit.log") eqn:Ha.
    2:{ rewrite (proj2 (probe_audit_early sys window_seconds w) Hc Ha) in Hs |- *.
        cbn [fst] in Hs. apply some_eq in Hs. subst s.
        cbn [snd tick clock].
        change (anomaly_count
                  (set_enabled false
                     (init_summary window_seconds (time_at sys (clock w)))))
          with 0.
        rewrite Nat2Z.inj_succ. lia. }
    rewrite (probe_audit_pipeline sys window_seconds w Hc Ha) in Hs |- *.
    pose proof (parsed_summary_clock sys window_seconds (time_at sys (clock w))
                  (snd (parse_syscall_context sys window_seconds
                          {| event_ctx := []; clock := S (clock w) |}))) as Hclk.
    rewrite parse_syscall_context_clock in Hclk.
    pose proof (parsed_summary_no_anomaly sys window_seconds (time_at sys (clock w))
                  (snd (parse_syscall_context sys window_seconds
                          {| event_ctx := []; clock := S (clock w) |}))) as Hzero.
    destruct (finish_probe_spec sys
                (parsed_summary sys window_seconds (time_at sys (clock w))
                   (snd (parse_syscall_context sys window_seconds
                           {| event_ctx := []; clock := S (clock w) |}))))
      as (s4 & Hs4 & _ & _ & Hd).
    rewrite Hs4 in Hs. apply some_eq in Hs. subst s.
    rewrite anomaly_count_risk. unfold anomaly_count in Hd at 2. rewrite Hzero, Hclk in Hd.
    cbn [List.length] in Hd. rewrite Nat2Z.inj_succ in Hd. lia.
Qed.

(** ** The tallies of a probe *)





Section ProbeTallies.

Context {hdr : AuditHeader}.
Variable sys : Env.


End ProbeTallies.



(** ** Decimal numbers: [snprintf ("%d")] read back by [atoi] *)

Ltac eval_digit :=
  match goal with
  | |- context [digit_of ?c] =>
      let v := eval vm_compute in (digit_of c) in change (digit_of c) with v
  end; cbv beta iota.

Lemma read_digits_uint_acc (d : Decimal.uint) (acc : positive) (tail : string) :
  no_digit_head tail ->
  read_digits (Zpos acc) (DecimalString.NilEmpty.string_of_uint d ++ tail)
  = Zpos (Pos.of_uint_acc d acc).
Proof.
  intros Htail. revert acc.
  induction d as [|d IH|d IH|d IH|d IH|d IH|d IH|d IH|d IH|d IH|d IH]; intros acc;
    cbn [DecimalString.NilEmpty.string_of_uint append Pos.of_uint_acc].
  1:{ destruct tail as [|c t]; [reflexivity|].
      cbn [read_digits]. cbn in Htail. rewrite Htail. reflexivity. }
  all: cbn [read_digits]; eval_digit; rewrite <- IH; f_equal; try lia.
Qed.

Lemma read_digits_uint (d : Decimal.uint) (tail : string) :
  no_digit_head tail ->
  read_digits 0 (DecimalString.NilEmpty.string_of_uint d ++ tail)
  = Z.of_N (Pos.of_uint d).
Proof.
  intros Htail.
  induction d as [|d IH|d IH|d IH|d IH|d IH|d IH|d IH|d IH|d IH|d IH];
    cbn [DecimalString.NilEmpty.string_of_uint append Pos.of_uint].
  1:{ destruct tail as [|c t]; [reflexivity|].
      cbn [read_digits]. cbn in Htail. rewrite Htail. reflexivity. }
  1:{ cbn [read_digits]. eval_digit. exact IH. }
  all: cbn [read_digits]; eval_digit; cbn [Z.of_N];
    rewrite <- (read_digits_uint_acc d _ tail Htail); reflexivity.
Qed.

(** The first character of a non-empty numeral is neither a blank nor
    a sign. *)
Lemma strtol_numeral (d : Decimal.uint) (tail : string) :
  d <> Decimal.Nil -> no_digit_head tail ->
  strtol (DecimalString.NilEmpty.string_of_uint d ++ tail)
  = Z.max LONG_MIN (Z.min LONG_MAX (Z.of_N (Pos.of_uint d))).
Proof.
  intros Hd Htail. rewrite <- (read_digits_uint d tail Htail).
  destruct d; [congruence|..]; reflexivity.
Qed.

Lemma skip_spaces_blanks (k : nat) (s : string) :
  skip_spaces (blanks k ++ s) = skip_spaces s.
Proof. induction k as [|k IH]; [reflexivity|]. exact IH. Qed.

Lemma numeral_of_positive (p : positive) :
  DecimalString.NilZero.string_of_uint (Pos.to_uint p)
  = DecimalString.NilEmpty.string_of_uint (Pos.to_uint p) /\
  Pos.to_uint p <> Decimal.Nil.
Proof.
  pose proof (DecimalPos.Unsigned.to_uint_nonnil p) as Hnn.
  split; [|exact Hnn].
  destruct (Pos.to_uint p); [congruence|..]; reflexivity.
Qed.

(** [atoi] reads back what [%d] printed, whatever follows the digits
    and whatever blanks precede them. *)
Lemma atoi_fmt_d (k : nat) (n : Z) (tail : string) :
  CInt.INT_MIN <= n <= CInt.INT_MAX -> no_digit_head tail ->
  atoi (blanks k ++ fmt_d n ++ tail) = n.
Proof.
  intros Hn Htail. unfold atoi.
  assert (Hs : strtol (blanks k ++ fmt_d n ++ tail) = n).
  { unfold strtol at 1. rewrite skip_spaces_blanks.
    fold (strtol (fmt_d n ++ tail)).
    unfold fmt_d. destruct n as [|p|p]; cbn [Z.to_int DecimalString.NilZero.string_of_int].
    - change (DecimalString.NilZero.string_of_uint (Decimal.D0 Decimal.Nil))
        with (DecimalString.NilEmpty.string_of_uint (Decimal.D0 Decimal.Nil)).
      rewrite strtol_numeral by (try assumption; discriminate). reflexivity.
    - destruct (numeral_of_positive p) as [E Hnn]. rewrite E.
      rewrite strtol_numeral by assumption.
      rewrite DecimalPos.Unsigned.of_to. cbn [Z.of_N].
      unfold LONG_MIN, LONG_MAX. unfold CInt.INT_MIN, CInt.INT_MAX in Hn. lia.
    - destruct (numeral_of_positive p) as [E Hnn]. rewrite E.
      unfold strtol.
      change (skip_spaces (String "-" ?x ++ tail)) with (String "-" x ++ tail).
      cbn [append]. cbv beta iota.
      rewrite read_digits_uint by assumption.
      rewrite DecimalPos.Unsigned.of_to. cbn [Z.of_N].
      unfold LONG_MIN, LONG_MAX. unfold CInt.INT_MIN, CInt.INT_MAX in Hn. lia. }
  rewrite Hs. apply wrap_int_small. exact Hn.
Qed.

(** ** Reading one line of a stream *)













(** ** Event serials *)

Lemma strchr_app_none (a b : string) (c : ascii) :
  strchr a c = None -> strchr (a ++ b) c = strchr b c.
Proof.
  induction a as [|x a IH]; intros H; [reflexivity|].
  cbn [strchr append] in *. destruct (Ascii.eqb x c); [discriminate|].
  apply IH. exact H.
Qed.

(** X24.  [extract_event_id] returns -1 for a line
    without msg=audit( or without a colon after it.  For a raw record,
    where the first msg=audit( is followed by a time stamp without
    colon, a colon and the serial in decimal, it returns the serial. *)
Theorem extract_event_id_raw_record (line ts rest : string) (n : Z) :
  (strstr line "msg=audit(" = None -> extract_event_id line = -1) /\
  (forall p, strstr line "msg=audit(" = Some p -> strchr p ":"%char = None ->
             extract_event_id line = -1) /\
  (strstr line "msg=audit(" = Some ("msg=audit(" ++ ts ++ ":" ++ fmt_d n ++ rest) ->
   strchr ts ":"%char = None -> no_digit_head rest ->
   CInt.INT_MIN <= n <= CInt.INT_MAX ->
   extract_event_id line = n).
Proof.
  unfold extract_event_id. split; [|split].
  - intros ->. reflexivity.
  - intros p -> ->. reflexivity.
  - intros -> Hts Hrest Hn.
    assert (Hc : strchr ("msg=audit(" ++ ts ++ ":" ++ fmt_d n ++ rest) ":"%char
                 = Some (":" ++ fmt_d n ++ rest)).
    { change ("msg=audit(" ++ ts ++ ":" ++ fmt_d n ++ rest)
        with ("msg=audit(" ++ (ts ++ ":" ++ fmt_d n ++ rest)).
      rewrite strchr_app_none by reflexivity.
      rewrite strchr_app_none by exact Hts. reflexivity. }
    rewrite Hc. cbn [append advance].
    exact (atoi_fmt_d 0 n rest Hn Hrest).
Qed.

(** ** The tables of a probe *)

Lemma failure_users_outside (s s' : audit_summary_t) :
  outside_priv s' = outside_priv s \/
  outside_file s' = outside_file s \/ outside_exec s' = outside_exec s \/
  outside_security s' = outside_security s \/
  outside_detect s' = outside_detect s \/ outside_risk s' = outside_risk s ->
  failure_users s' = failure_users s.
Proof.
  intros [H|[H|[H|[H|[H|H]]]]].
  - change (failure_users (outside_priv s') = failure_users (outside_priv s)).
    rewrite H. reflexivity.
  - change (failure_users (outside_file s') = failure_users (outside_file s)).
    rewrite H. reflexivity.
  - change (failure_users (outside_exec s') = failure_users (outside_exec s)).
    rewrite H. reflexivity.
  - change (failure_users (outside_security s')
            = failure_users (outside_security s)).
    rewrite H. reflexivity.
  - change (failure_users (outside_detect s') = failure_users (outside_detect s)).
    rewrite H. reflexivity.
  - change (failure_users (outside_risk s') = failure_users (outside_risk s)).
    rewrite H. reflexivity.
Qed.

Lemma sensitive_files_outside (s s' : audit_summary_t) :
  outside_auth s' = outside_auth s \/ outside_priv s' = outside_priv s \/
  outside_exec s' = outside_exec s \/
  outside_security s' = outside_security s \/
  outside_detect s' = outside_detect s \/ outside_risk s' = outside_risk s ->
  sensitive_files s' = sensitive_files s.
Proof.
  intros [H|[H|[H|[H|[H|H]]]]].
  - change (sensitive_files (outside_auth s') = sensitive_files (outside_auth s)).
    rewrite H. reflexivity.
  - change (sensitive_files (outside_priv s') = sensitive_files (outside_priv s)).
    rewrite H. reflexivity.
  - change (sensitive_files (outside_exec s') = sensitive_files (outside_exec s)).
    rewrite H. reflexivity.
  - change (sensitive_files (outside_security s')
            = sensitive_files (outside_security s)).
    rewrite H. reflexivity.
  - change (sensitive_files (outside_detect s')
            = sensitive_files (outside_detect s)).
    rewrite H. reflexivity.
  - change (sensitive_files (outside_risk s') = sensitive_files (outside_risk s)).
    rewrite H. reflexivity.
Qed.

Section ProbeTables.

Context {hdr : AuditHeader}.
Variable sys : Env.

Lemma parsed_summary_tables (window_seconds now : Z) (w1 : World) :
  let s := fst (parsed_summary sys window_seconds now w1) in
  NoDup (map hu_hash (failure_users s)) /\
  failure_user_count s <= Z.max 0 MAX_AUDIT_USERS /\
  Forall file_entry_ok (sensitive_files s) /\
  NoDup (map fa_path (sensitive_files s)) /\
  sensitive_file_count s <= Z.max 0 MAX_AUDIT_FILES.
Proof.
  cbv zeta. unfold parsed_summary. cbn [fst].
  set (s0 := init_summary window_seconds now).
  set (sa := parse_auth_events sys s0 window_seconds).
  set (sp := parse_priv_events sys sa window_seconds).
  set (sf := fst (parse_file_events sys sp window_seconds w1)).
  set (se := parse_exec_events sys sf window_seconds).
  set (sc := check_security_framework sys se).
  assert (Hu : failure_users sc = failure_users sa).
  { unfold sc.
    rewrite (failure_users_outside se _
               (or_intror (or_intror (or_intror (or_introl
                  (check_security_framework_outside sys se)))))).
    rewrite (failure_users_outside sf se
               (or_intror (or_intror (or_introl
                  (parse_exec_events_outside sys sf window_seconds))))).
    rewrite (failure_users_outside sp sf
               (or_intror (or_introl
                  (parse_file_events_outside sys sp window_seconds w1)))).
    apply failure_users_outside. left.
    apply parse_priv_events_outside. }
  assert (Hf : sensitive_files sc = sensitive_files sf).
  { unfold sc.
    rewrite (sensitive_files_outside se _
               (or_intror (or_intror (or_intror (or_introl
                  (check_security_framework_outside sys se)))))).
    apply sensitive_files_outside. right. right. left.
    apply parse_exec_events_outside. }
  assert (Hp : sensitive_files sp = []).
  { unfold sp.
    rewrite (sensitive_files_outside sa _
               (or_intror (or_introl
                  (parse_priv_events_outside sys sa window_seconds)))).
    unfold sa.
    rewrite (sensitive_files_outside s0 _
               (or_introl (parse_auth_events_outside sys s0 window_seconds))).
    reflexivity. }
  destruct (parse_auth_events_users sys s0 window_seconds) as (U1 & U2 & _);
    [constructor|].
  destruct (parse_file_events_files sys sp window_seconds w1) as (F1 & F2 & F3 & _).
  { rewrite Hp. constructor. }
  { rewrite Hp. constructor. }
  fold sa in U1, U2. fold sf in F1, F2, F3.
  unfold failure_user_count, sensitive_file_count in *.
  rewrite Hu, Hf. rewrite Hp in F3.
  change (failure_users s0) with (@nil hashed_user_t) in U2.
  cbn [List.length] in U2, F3.
  repeat split; assumption.
Qed.

End ProbeTables.

(** X25.  In every summary that a probe returns
    after finding the audit log readable, the three tables are within
    their capacities ([MAX_AUDIT_USERS], [MAX_AUDIT_FILES],
    [MAX_AUDIT_ANOMALIES]), no user tag and no path is listed twice,
    and every file entry has a path of more than five characters that
    does not end in a slash. *)
Theorem probe_audit_tables
  {hdr : AuditHeader} (sys : Env) (window_seconds : Z) (w w' : World)
  (s : audit_summary_t) :
  probe_audit sys window_seconds w = (Some s, w') ->
  access_R_OK sys "/var/log/audit/audit.log" = true ->
  failure_user_count s <= Z.max 0 MAX_AUDIT_USERS /\
  sensitive_file_count s <= Z.max 0 MAX_AUDIT_FILES /\
  anomaly_count s <= Z.max 0 MAX_AUDIT_ANOMALIES /\
  NoDup (map hu_hash (failure_users s)) /\
  NoDup (map fa_path (sensitive_files s)) /\
  Forall file_entry_ok (sensitive_files s).
Proof.
  intros Hp Ha.
  pose proof (f_equal snd Hp) as Hw. cbn [snd] in Hw.
  apply (f_equal fst) in Hp. cbn [fst] in Hp.
  destruct (calloc_ok sys) eqn:Hc.
  2:{ rewrite (proj1 (probe_audit_early sys window_seconds w) Hc) in Hp.
      discriminate. }
  rewrite (probe_audit_pipeline sys window_seconds w Hc Ha) in Hp, Hw.
  destruct (parsed_summary_tables sys window_seconds (time_at sys (clock w))
              (snd (parse_syscall_context sys window_seconds
                      {| event_ctx := []; clock := S (clock w) |})))
    as (T1 & T2 & T3 & T4 & T5).
  cbv zeta in T1, T2, T3, T4, T5.
  pose proof (parsed_summary_no_anomaly sys window_seconds (time_at sys (clock w))
                (snd (parse_syscall_context sys window_seconds
                        {| event_ctx := []; clock := S (clock w) |}))) as Hzero.
  set (P := parsed_summary sys window_seconds (time_at sys (clock w))
              (snd (parse_syscall_context sys window_seconds
                      {| event_ctx := []; clock := S (clock w) |}))) in *.
  clearbody P.
  assert (Hcap : forall s4 w4 b w3,
             detect_anomalies sys (fst P) b w3 = (s4, w4) ->
             anomaly_count s4 <= Z.max 0 MAX_AUDIT_ANOMALIES).
  { intros s4 w4 b w3 Hd.
    assert (Hz : anomaly_count (fst P) = 0)
      by (unfold anomaly_count; rewrite Hzero; reflexivity).
    destruct b as [b|].
    2:{ cbn in Hd. inversion Hd; subst. lia. }
    destruct (Z_lt_le_dec (sample_count b) 5) as [Hlt|Hge].
    - rewrite detect_anomalies_guard in Hd.
      + inversion Hd; subst. lia.
      + intros b' Hb'. inversion Hb'; subst. exact Hlt.
    - destruct (detect_anomalies_raise sys b (fst P) w3 Hge) as (Hr & _).
      cbv zeta in Hr. rewrite Hd in Hr. cbn [fst] in Hr.
      unfold anomaly_count at 1. rewrite Hr, length_app, Nat2Z.inj_add.
      pose proof (raise_capacity sys b (fst P) all_kinds (clock w3)
                    (anomaly_count (fst P))) as Hc'.
      unfold anomaly_count in Hc', Hz |- *. lia. }
  unfold finish_probe in Hp. cbv zeta in Hp.
  destruct (load_audit_baseline sys zeroed_baseline_bytes) as [loaded bytes].
  assert (Hs4 : exists s4, s = calculate_risk_score s4 /\
                  outside_detect s4 = outside_detect (fst P) /\
                  anomaly_count s4 <= Z.max 0 MAX_AUDIT_ANOMALIES).
  { destruct loaded.
    - match type of Hp with
      | context [detect_anomalies sys (fst P) ?b ?w3] =>
          pose proof (detect_anomalies_outside sys (fst P) b w3) as Ho;
          pose proof (fun s4 w4 => Hcap s4 w4 b w3) as Hc4;
          destruct (detect_anomalies sys (fst P) b w3) as [s4 w4]
      end.
      cbn [fst] in Hp, Ho. apply some_eq in Hp.
      exists s4. split; [symmetry; exact Hp|]. split; [exact Ho|].
      apply (Hc4 s4 w4). reflexivity.
    - cbn [fst] in Hp. apply some_eq in Hp. exists (fst P).
      split; [symmetry; exact Hp|]. split; [reflexivity|].
      unfold anomaly_count. rewrite Hzero. cbn. lia. }
  destruct Hs4 as (s4 & -> & Ho & Hcap4).
  assert (Eu : failure_users (calculate_risk_score s4) = failure_users (fst P)).
  { rewrite (failure_users_outside s4 _
               (or_intror (or_intror (or_intror (or_intror (or_intror
                  (calculate_risk_score_outside s4))))))).
    apply failure_users_outside. right. right. right. right. left. exact Ho. }
  assert (Ef : sensitive_files (calculate_risk_score s4) = sensitive_files (fst P)).
  { rewrite (sensitive_files_outside s4 _
               (or_intror (or_intror (or_intror (or_intror (or_intror
                  (calculate_risk_score_outside s4))))))).
    apply sensitive_files_outside. right. right. right. right. left. exact Ho. }
  unfold failure_user_count, sensitive_file_count in *.
  rewrite anomaly_count_risk, Eu, Ef.
  repeat split; assumption.
Qed.

Lemma probe_audit_tables_witness :
  exists (s : audit_summary_t) (w' : World),
    probe_audit (hdr := Host.header) full_then_repeat_host 3600 Host.boot
    = (Some s, w') /\
    sensitive_file_count s = 3 /\
    sensitive_file_count s <= Z.max 0 (MAX_AUDIT_FILES (AuditHeader := Host.header)) /\
    NoDup (map fa_path (sensitive_files s)).
Proof.
  destruct (probe_audit (hdr := Host.header) full_then_repeat_host 3600 Host.boot)
    as [[s|] w'] eqn:E; [|vm_compute in E; discriminate].
  exists s, w'. split; [reflexivity|].
  assert (Ha : access_R_OK full_then_repeat_host "/var/log/audit/audit.log" = true)
    by reflexivity.
  destruct (probe_audit_tables (hdr := Host.header) full_then_repeat_host 3600
              Host.boot w' s E Ha) as (_ & H2 & _ & _ & H5 & _).
  split; [|split; assumption].
  vm_compute in E. inversion E. reflexivity.
Defined.

(** ** The scenarios of the specification, evaluated *)

(** Brute-force detection: 7 failures and 1 success for one account. *)
Example scenario_brute_force :
  option_map
    (fun s => (auth_failures s, auth_successes s, brute_force_detected s,
               map hu_count (failure_users s),
               map (fun u => String.length (hu_hash u)) (failure_users s)))
    (fst (probe_audit (hdr := Host.header) brute_force_host 3600 Host.boot))
  = Some (7, 1, true, [7], [9%nat]).
Proof. vm_compute. reflexivity. Qed.

(** Deviation multiplier: twenty failures against a baseline average of
    2.0 deviate by 900 percent, raise one critical anomaly and score
    (20 + 10) * 5. *)
Example scenario_deviation_multiplier :
  option_map
    (fun s => (auth_failures s, F32.to_int (auth_deviation_pct s),
               map (fun a => (an_type a, an_severity a, an_description a))
                 (anomalies s),
               risk_score s, risk_level s))
    (fst (probe_audit (hdr := Host.header) spike_host 3600 Host.boot))
  = Some (20, 900,
          [("auth_failure_spike", "CRITICAL",
            "20 auth failures (900% above baseline)")],
          150, "critical").
Proof. vm_compute. reflexivity. Qed.

(** File correlation: the PATH record of event 42 is attributed to the
    process of its SYSCALL record. *)
Example scenario_file_correlation :
  option_map
    (fun s => map (fun fa => (fa_path fa, fa_process fa, pc_names (fa_chain fa),
                              pc_depth (fa_chain fa), fa_suspicious fa))
                (sensitive_files s))
    (fst (probe_audit (hdr := Host.header) correlated_host 3600 Host.boot))
  = Some [("/etc/shadow", "vim", ["vim"], 1, true)].
Proof. vm_compute. reflexivity. Qed.

(** First-sample seeding. *)
Example scenario_first_sample :
  let b := fst (update_audit_baseline Host.quiet empty_baseline first_sample
                  Host.boot) in
  sample_count b = 1 /\ magic b = "SNTLAUDT" /\ version b = 1 /\
  avg_auth_failures b = F32.of_int 3 /\ avg_sudo_count b = F32.of_int 1.
Proof. vm_compute. repeat split; reflexivity. Qed.
